(* ===== verification/_CoqProject ===== *)
-Q . S2P
Prelude.v
Serde.v
Document.v
Errors.v
Method.v
Request.v
Transports.v
Client.v
Tasks.v
Concurrency.v
Settings.v
SettingsService.v
IndexConfig.v
Documents.v
Engine.v
SettingsTests.v
DocumentsTests.v
DocExamples.v
