(* ===== verification/Prelude.v ===== *)
(** * A verification development of the meilisearch-sdk Rust client

    The crate turns typed method calls into HTTP requests to a Meilisearch
    server and the answers into typed values or errors (the dispatcher,
    [src/src/request.rs]), offers facades over it (index settings in
    [src/src/settings.rs], document queries in [src/src/documents.rs]),
    waits for the server's asynchronous tasks (the poller of
    [task_info.rs], of which several may run at once on one executor), and derives per-struct index configuration at compile
    time (the [IndexConfig] macro, [src/meilisearch-index-setting-macro]).
    Facades call the dispatcher; the dispatcher calls a transport; the
    poller calls the dispatcher; the code the macro emits calls the
    facades, the poller and [Task::try_make_index].

    ** Files, in dependency order

    - [Prelude.v] (this file): Rust's [Result] as [result], the state and
      error monad [io W E A := W -> result A E * W] that stands for an
      [async] function run against a world [W] (the network, a clock),
      the test monad [tio W A] of a body that may panic ([unwrap],
      [assert_eq!], [assert!], [panic!], and [?] for tests returning
      [Result]), the notations [let?], [let*], [let!] and [let?!] of
      [meili_scope], the hint database [meili] and the lemmas on strings
      and binds every file uses.
    - [Serde.v]: serde, serde_json and yaup as type classes ([Deserialize],
      [Serialize], [SerializeQuery], [ToJson], [FromJson], [JsonCodec],
      [YaupEncoder]) over a JSON value type, and [JsonCodecLaws], the
      law that a text layer reads back what it writes (with a reversible
      codec that satisfies it); what [#[derive]] generates is written per
      type in the files that declare the type.
    - [Document.v]: the [Document] trait of [document.rs] as a class, its
      documented key contract [uid_ok], and the [Movie] examples of its
      documentation and of the crate documentation ([lib.rs], Module
      [CrateExample]) as instances.
    - [Errors.v]: [Error] and its payloads ([errors.rs], from the spec).
    - [Method.v]: [Method<Q, B>], [query], [http_method] ([request.rs]).
    - [Request.v]: the [RequestClient] trait as a class, its provided
      [request] and [parse_response], [add_query_parameters],
      [qualified_version]; the transport contract [RequestClientLaws]; the
      abstract [dispatch] (one wire request, one exchange, one
      classification).
    - [Transports.v]: the native and browser transports (from the spec) as
      two instances of the class honouring the contract, and the crate's
      free [request] choosing one by [target_arch] ([meili_request]).
    - [Client.v]: [Client], [Index], [Client::index] (from the spec).
    - [Tasks.v]: [Task], [TaskInfo], their JSON, the service-side life
      cycle as a step relation, the poller [wait_loop] on fuel over a
      world with a [Clock], [wait_for_completion] and [get_task] through
      the dispatcher, [try_make_index] (from the spec).
    - [Concurrency.v]: [wait_for_completion] as the state machine its
      [async fn] compiles to ([Poller], [poller_step]: the fetch, the
      timer, the result), several pollers on one executor interleaved
      with other code ([sys_step], [run_schedule]), and the number of
      fetches each sends ([fetch_count]).
    - [Settings.v]: [Settings] with [new] and its ten builders, serde's
      derived JSON of it, and the 33 [get_*]/[set_*]/[reset_*] methods of
      [settings.rs] as dispatcher calls.
    - [SettingsService.v]: the settings facades against a service that
      stores what is written to each URL (an environment of the proofs,
      not a model of the engine).
    - [IndexConfig.v]: the derive macro on syn's view of the input:
      attribute extraction and validation ([extract_all_attr_values] with
      its [HashSet]s as [gset]), the loop over fields, the emitted impl
      and its [generate_settings].
    - [Documents.v]: [DocumentQuery], [DocumentsQuery],
      [DocumentDeletionQuery] with [new], [with_*] and [execute] (through
      the index methods of [indexes.rs], from the spec), their derived
      JSON, [DocumentsResults] with its [u32] fields, the [IndexConfig]
      trait with its provided [index], and the emitted [generate_index]
      with [Client::create_index].
    - [Engine.v]: a reference Meilisearch engine as a network
      ([engine_service]), written from the Meilisearch HTTP API
      reference: URL routing ([url_route]) of the routes the client
      calls, the verb each settings route takes ([settings_update_verb]:
      [PATCH] on the whole settings, pagination and faceting, [PUT] on
      the others, [405] otherwise), per-index settings with the API's
      documented defaults and documents, [404] errors with their codes,
      a task queue processed when a task is fetched; the
      lemmas that turn one client call into one engine answer, and the
      tactics that run a test body against it.  It is an environment of
      the proofs, not code of the crate.
    - [SettingsTests.v], [DocumentsTests.v]: the [#[cfg(test)]] modules
      of [settings.rs] and [documents.rs], each test body a [tio]
      computation over any network, with the index methods they call
      ([add_documents], [get_document], [Index::delete],
      [Index::wait_for_task], from the spec) and their data ([MyObject],
      the [MovieClips] and [VideoClips] derives).
    - [DocExamples.v]: the runnable documentation examples (doc-tests)
      of the 33 settings facades of [settings.rs], each its visible lines
      inside the hidden skeleton every one shares ([settings_doc_example]:
      [Client::new], [create_index] and its wait, [client.index],
      [Index::delete] and its wait), and the two of [documents.rs]
      ([DocumentQuery::execute], [DocumentsQuery::execute]) with their
      structs, in Module [DocumentQueryExample], and the [usage] of the
      [#[derive(IndexConfig)]] sample.  The three constructions
      of the documentation of [Settings] are in [Settings.v].

    Definitions keep the source's names where Rocq allows it; methods of a
    struct are prefixed with its name in snake case
    ([documents_query_with_limit] is [DocumentsQuery::with_limit]).
    A builder taking [&mut self] returns the updated record.

    ** Theorems (claim ids C1 to C36)

    - The dispatcher (C1 to C8): the trait's [request] equals [dispatch]
      for every lawful transport (C1, a refinement); [parse_response] on
      each branch: expected status (C2), mismatch never [Ok] (C3), and on
      a mismatch the service error, the communication error at 400 and
      above, the parse error below (C4); what reaches the wire: the
      bearer header (C5), verb, URL, body and headers (C6), the query
      string (C7), a query yaup refuses stops before the network (C8).
    - The poller (C9 to C13): a returned task is terminal (C9); the
      loop ends within [timeout / (interval + lat_min) + 2] fetches when
      each turn advances the clock (C10); a [Timeout] comes neither early
      nor late (C11); the spec's enqueued/processing/succeeded scenario
      (C12); with a zero interval and an instantaneous service that never
      finishes, no amount of fuel suffices (C13).
    - Concurrent pollers (C14 to C16): the [async] state machine, resumed
      alone, is the loop (C14, an equivalence); under every interleaving
      of pollers and other code a returned task is terminal, a [Timeout]
      is never early by the poller's own start, and a result never
      changes (C15, an invariant by induction on the steps); a poller's
      fetches stay within the bound of C10 whatever the others do (C16).
    - Settings (C17, C18): JSON round trip (C17), the builders: their
      algebra, their JSON and the three equal constructions of the
      documentation (C18).
    - The documentation examples and the test suites (C19 to C21):
      against the reference engine, the runnable documentation examples
      of [settings.rs] and [documents.rs] (C19, with the derive sample's
      promise: index [movie], primary key [movie_id]), the seven tests
      of [settings.rs] (C20) and the five of [documents.rs] (C21) run to
      completion: every [unwrap] meets [Ok], every [assert_eq!] holds,
      the [Result]-returning tests return [Ok(())].  Since the engine
      refuses a settings update sent with another verb than the API's,
      these also check each [set_*] facade's verb and route.
    - The derive macro (C22 to C25): what [extract_all_attr_values]
      accepts and returns (C22), the generated settings (C23), the
      uniqueness constraints it enforces (C24), the panic on an unnamed
      field (C25).
    - Documents (C26 to C29): the serialized [DocumentsQuery] after any
      chain of builders (C26), the [u32] bounds of [DocumentsResults]
      (C27), the wire requests of the reads (C28) and of the deletion
      (C29).
    - The emitted [generate_index] (C30 to C33): it always ends (C30);
      its result is [try_make_index] of a terminal task (C31); a refused
      creation or a task that never finishes makes it panic (C32); on
      success it is [IndexConfig::index] of the same impl (C33).
    - Settings through a service (C34): every [set_*] then the matching
      [get_*] returns the value written, for every lawful codec.
    - Invariant and types (C35, C36): the state of the macro's token
      loop ([attr_state_wf]: names without repetition, all valid, the
      field's set equal to its names, the struct-wide set equal to the
      initial set plus them) holds initially and every step keeps it
      (C35); every value the client serializes is well formed: objects
      with distinct keys at every depth, and flat objects for the query
      strings (C36).

    ** Fuel and bounds

    The poller is the one loop that need not terminate; [wait_loop] takes
    fuel and answers [None] when it runs out.  The termination theorems
    (C10, C30) give the fuel that suffices: each turn advances the clock
    by at least [interval + lat_min] ms (the sleep plus the shortest
    round trip), and the loop stops once more than [timeout] ms have
    elapsed, so [timeout / (interval + lat_min) + 2] turns are enough; for
    [generate_index] the defaults (50 ms, 5000 ms) give at most 102.
    C13 shows the hypothesis [0 < interval + lat_min] is needed.  Under
    interleaving (C16) the same bound holds per poller, counted in its
    own [GET /tasks/{uid}] requests: the state machine needs no fuel, the
    schedule is a finite list.  The
    test theorems (C19, C20, C21) need one fetch per wait ([S fuel]): the
    engine processes its queue when a task is fetched, so the first
    fetch already reports the task done.  Status
    codes are [Z] (an [u16] on the wire); [DocumentsResults]'s [limit],
    [offset] and [total] are [Z] checked against [0, 2^32 - 1] as serde's
    [u32] does; [usize] query parameters are [nat].

    ** Not modelled

    serde_json's text parser and printer and yaup's writer are parameters
    ([JsonCodec], [YaupEncoder]): the theorems hold for every codec, or
    every codec satisfying [JsonCodecLaws] where a value makes a round
    trip through the service (C34).  The
    macro's [convert_case] call is a parameter, and [quote!]'s tokens are
    represented by the record they denote.  [lib.rs] holds module
    declarations, the [Rc] alias of the [sync] feature (no behaviour)
    and the crate documentation, whose examples' [Movie] and its
    [Document] impl are modelled (Module [CrateExample] of [Document.v])
    but whose bodies call [Client::get_or_create] and the search API,
    not staged, with an older [Client::new] signature.  The [Debug] supertrait of
    [Document] has no observable behaviour; logging
    ([trace!], [warn!], [error!]) has no effect on results.  Of the
    client and index operations not in the staged sources only those the
    staged code calls are modelled ([Client::new], [get_task], [create_index],
    [add_or_replace], [Index::delete],
    [get_document_with], [get_documents_with], [delete_documents_with]);
    search, keys, dumps and the rest are not.  The engine the tests run
    against is the reference engine of [Engine.v], not the real one:
    C19, C20 and C21 show the examples, the tests and the client agree
    with it, on the
    routes it models; the [#[meilisearch_test]] attribute (a macro of a
    crate not staged) is represented by its effect, a fresh index named
    after the test, and C19 and C21 take yaup to write flat objects as
    [k=v&...] ([demo_yaup]).  The struct [Movie] at the end of the tests
    of [documents.rs] is not used by any test.  The builder snippets of
    the query builders' documentation are fragments without an effect
    to run ([with_*] calls on a query). *)

From stdpp Require Import base list strings gmap.
From Stdlib Require Import ZArith Ascii.

(** ** Rust's [Result] *)

Inductive result (A E : Type) : Type :=
| Ok (a : A)
| Err (e : E).
Arguments Ok {A E} a.
Arguments Err {A E} e.

Definition result_bind {A B E} (r : result A E) (k : A -> result B E) : result B E :=
  match r with Ok a => k a | Err e => Err e end.

(** [r.map_err(f)] *)
Definition map_err {A E F} (f : E -> F) (r : result A E) : result A F :=
  match r with Ok a => Ok a | Err e => Err (f e) end.

Definition is_ok {A E} (r : result A E) : bool :=
  match r with Ok _ => true | Err _ => false end.

(** ** The asynchronous world: state and errors

    An [async fn ... -> Result<A, E>] that talks to the network is a
    function of the world [W] (the remote service, the clock) returning
    its result and the world after the call.  [io_bind] is [.await?]:
    an [Err] stops the computation and is returned as it is. *)

Definition io (W E A : Type) : Type := W -> result A E * W.

Definition io_ret {W E A} (a : A) : io W E A := fun w => (Ok a, w).
Definition io_fail {W E A} (e : E) : io W E A := fun w => (Err e, w).
Definition io_bind {W E A B} (c : io W E A) (k : A -> io W E B) : io W E B :=
  fun w => match c w with
           | (Ok a, w') => k a w'
           | (Err e, w') => (Err e, w')
           end.
(** A pure fallible step ([?] on a [Result] computed without I/O). *)
Definition io_lift {W E A} (r : result A E) : io W E A := fun w => (r, w).

Declare Scope meili_scope.
Delimit Scope meili_scope with meili.
Notation "'let?' x ':=' c 'in' k" := (result_bind c (fun x => k))
  (at level 10, x name, c at level 100, k at level 200) : meili_scope.
Notation "'let*' x ':=' c 'in' k" := (io_bind c (fun x => k))
  (at level 10, x name, c at level 100, k at level 200) : meili_scope.
Open Scope meili_scope.

(** ** Computations that may panic

    A Rust call that may panic ([unwrap], [assert_eq!], [panic!]) either
    returns or panics with a message; a [#[test]] passes when its body
    returns.  [tio W A] is such a body run against a world [W], [None]
    when a poller inside it runs out of fuel. *)
Inductive outcome (A : Type) := Returned (a : A) | Panicked (msg : string).
Arguments Returned {A} a.
Arguments Panicked {A} msg.

(** [Result::unwrap]'s panic message on an [Err]. *)
Definition UNWRAP_ERR : string := "called `Result::unwrap()` on an `Err` value".
(** [assert_eq!]'s panic message when the two sides differ. *)
Definition ASSERT_EQ_FAILED : string := "assertion `left == right` failed".

Definition tio (W A : Type) : Type := W -> option (outcome A * W).

Definition tio_ret {W A} (a : A) : tio W A := fun w => Some (Returned a, w).
Definition tio_bind {W A B} (m : tio W A) (k : A -> tio W B) : tio W B :=
  fun w => match m w with
           | None => None
           | Some (Panicked msg, w1) => Some (Panicked msg, w1)
           | Some (Returned a, w1) => k a w1
           end.

(** [f().await.unwrap()] for an [async] call. *)
Definition unwrap_io {W E A} (m : io W E A) : tio W A :=
  fun w => match m w with
           | (Ok a, w1) => Some (Returned a, w1)
           | (Err _, w1) => Some (Panicked UNWRAP_ERR, w1)
           end.

(** [f().await.unwrap()] for a call on fuel (a poller). *)
Definition unwrap_fuel {W E A} (m : W -> option (result A E * W)) : tio W A :=
  fun w => match m w with
           | None => None
           | Some (Ok a, w1) => Some (Returned a, w1)
           | Some (Err _, w1) => Some (Panicked UNWRAP_ERR, w1)
           end.

(** [assert_eq!(left, right)] with the type's [PartialEq]. *)
Definition assert_eq {W A} `{EqDecision A} (left right : A) : tio W unit :=
  fun w => if decide (left = right) then Some (Returned tt, w)
           else Some (Panicked ASSERT_EQ_FAILED, w).

(** A test body passes from [w] when it returns. *)
Definition test_passes {W} (t : tio W unit) (w : W) : Prop :=
  exists w', t w = Some (Returned tt, w').

(** [Result::unwrap] and [Option::unwrap] on a value at hand. *)
Definition unwrap {W A E} (r : result A E) : tio W A :=
  fun w => match r with Ok a => Some (Returned a, w) | Err _ => Some (Panicked UNWRAP_ERR, w) end.
Definition OPTION_UNWRAP_NONE : string := "called `Option::unwrap()` on a `None` value".
Definition unwrap_option {W A} (o : option A) : tio W A :=
  fun w => match o with Some a => Some (Returned a, w) | None => Some (Panicked OPTION_UNWRAP_NONE, w) end.

(** [panic!(msg)] and [assert!(cond)]. *)
Definition panic {W A} (msg : string) : tio W A := fun w => Some (Panicked msg, w).
Definition ASSERT_FAILED : string := "assertion failed".
Definition assert_true {W} (b : bool) : tio W unit :=
  fun w => if b then Some (Returned tt, w) else Some (Panicked ASSERT_FAILED, w).

(** A test returning [Result<(), Error>]: [f().await?] hands an [Err] back
    as the test's result; [lift_io] and [lift_fuel] keep the call's
    [Result]. *)
Definition lift_io {W E A} (m : io W E A) : tio W (result A E) :=
  fun w => let (r, w1) := m w in Some (Returned r, w1).
Definition lift_fuel {W E A} (m : W -> option (result A E * W)) : tio W (result A E) :=
  fun w => match m w with None => None | Some (r, w1) => Some (Returned r, w1) end.
Definition tio_try {W E A B} (m : tio W (result A E)) (k : A -> tio W (result B E))
    : tio W (result B E) :=
  tio_bind m (fun r => match r with Ok a => k a | Err e => tio_ret (Err e) end).

(** Such a test passes when it returns [Ok(())]. *)
Definition test_passes_ok {W E} (t : tio W (result unit E)) (w : W) : Prop :=
  exists w', t w = Some (Returned (Ok tt), w').

Notation "'let!' x ':=' c 'in' k" := (tio_bind c (fun x => k))
  (at level 10, x name, c at level 100, k at level 200) : meili_scope.
Notation "c ';;!' k" := (tio_bind c (fun _ => k))
  (at level 100, right associativity) : meili_scope.
Notation "'let?!' x ':=' c 'in' k" := (tio_try c (fun x => k))
  (at level 10, x name, c at level 100, k at level 200) : meili_scope.

(** ** Machine integers

    An HTTP status code is a Rust [u16]. *)
Definition u16_ok (z : Z) : Prop := (0 <= z < 65536)%Z.

(** ** Generic lemmas *)

Create HintDb meili.
Create Rewrite HintDb meili.

Lemma result_bind_Ok {A B E} (a : A) (k : A -> result B E) :
  result_bind (Ok a) k = k a.
Proof. reflexivity. Qed.

Lemma result_bind_Err {A B E} (e : E) (k : A -> result B E) :
  result_bind (Err e) k = Err e.
Proof. reflexivity. Qed.

Lemma result_bind_Ok_inv {A B E} (r : result A E) (k : A -> result B E) b :
  result_bind r k = Ok b -> exists a, r = Ok a /\ k a = Ok b.
Proof. destruct r; simpl; [eauto | discriminate]. Qed.

Lemma io_bind_ret {W E A B} (a : A) (k : A -> io W E B) w :
  io_bind (io_ret a) k w = k a w.
Proof. reflexivity. Qed.

Lemma io_bind_lift_Ok {W E A B} (a : A) (k : A -> io W E B) w :
  io_bind (io_lift (Ok a)) k w = k a w.
Proof. reflexivity. Qed.

Lemma io_bind_lift_Err {W E A B} (e : E) (k : A -> io W E B) w :
  io_bind (io_lift (Err e)) k w = (Err e, w).
Proof. reflexivity. Qed.

Lemma io_bind_assoc {W E A B C} (c : io W E A) (k : A -> io W E B)
      (h : B -> io W E C) w :
  io_bind (io_bind c k) h w = io_bind c (fun a => io_bind (k a) h) w.
Proof. unfold io_bind. destruct (c w) as [[a|e] w']; reflexivity. Qed.

#[export] Hint Rewrite @result_bind_Ok @result_bind_Err @io_bind_ret
  @io_bind_lift_Ok @io_bind_lift_Err : meili.

Lemma tio_bind_returned {W A B} (m : tio W A) (k : A -> tio W B) w a w1 :
  m w = Some (Returned a, w1) -> tio_bind m k w = k a w1.
Proof. unfold tio_bind. by intros ->. Qed.

Lemma unwrap_io_ok {W E A} (m : io W E A) w a w1 :
  m w = (Ok a, w1) -> unwrap_io m w = Some (Returned a, w1).
Proof. unfold unwrap_io. by intros ->. Qed.

Lemma unwrap_fuel_ok {W E A} (m : W -> option (result A E * W)) w a w1 :
  m w = Some (Ok a, w1) -> unwrap_fuel m w = Some (Returned a, w1).
Proof. unfold unwrap_fuel. by intros ->. Qed.

Lemma assert_eq_refl {W A} `{EqDecision A} (a : A) (w : W) :
  assert_eq a a w = Some (Returned tt, w).
Proof. unfold assert_eq. by rewrite decide_True. Qed.

(** Step through a test body: one call that returns, then the rest. *)
Lemma tio_step_io {W E A B} (m : io W E A) (k : A -> tio W B) w a w1 :
  m w = (Ok a, w1) -> tio_bind (unwrap_io m) k w = k a w1.
Proof. intros H. apply tio_bind_returned, unwrap_io_ok, H. Qed.

Lemma tio_try_ok {W E A B} (m : tio W (result A E)) (k : A -> tio W (result B E)) w a w1 :
  m w = Some (Returned (Ok a), w1) -> tio_try m k w = k a w1.
Proof. unfold tio_try, tio_bind. by intros ->. Qed.

Lemma tio_try_io {W E A B} (m : io W E A) (k : A -> tio W (result B E)) w a w1 :
  m w = (Ok a, w1) -> tio_try (lift_io m) k w = k a w1.
Proof. intros H. apply tio_try_ok. unfold lift_io. by rewrite H. Qed.

Lemma tio_try_fuel {W E A B} (m : W -> option (result A E * W)) (k : A -> tio W (result B E)) w a w1 :
  m w = Some (Ok a, w1) -> tio_try (lift_fuel m) k w = k a w1.
Proof. intros H. apply tio_try_ok. unfold lift_fuel. by rewrite H. Qed.

Lemma tio_step_lift_io {W E A B} (m : io W E A) (k : result A E -> tio W B) w r w1 :
  m w = (r, w1) -> tio_bind (lift_io m) k w = k r w1.
Proof. intros H. apply tio_bind_returned. unfold lift_io. by rewrite H. Qed.

Lemma tio_step_fuel {W E A B} (m : W -> option (result A E * W)) (k : A -> tio W B) w a w1 :
  m w = Some (Ok a, w1) -> tio_bind (unwrap_fuel m) k w = k a w1.
Proof. intros H. apply tio_bind_returned, unwrap_fuel_ok, H. Qed.

(** A block that ends a body's statement and the rest of the body. *)
Lemma tio_bind_assoc {W A B C} (m : tio W A) (k : A -> tio W B) (k' : B -> tio W C) w :
  tio_bind (tio_bind m k) k' w = tio_bind m (fun a => tio_bind (k a) k') w.
Proof. unfold tio_bind. by destruct (m w) as [[[] ?]|]. Qed.

(** Strings.  [String.append] is [simpl never] under stdpp: its two
    equations are rewrite hints instead. *)
Lemma string_app_nil_l (s : string) : "" +:+ s = s.
Proof. reflexivity. Qed.

Lemma string_app_cons c (s1 s2 : string) : String c s1 +:+ s2 = String c (s1 +:+ s2).
Proof. reflexivity. Qed.

Lemma string_app_nil_r (s : string) : s +:+ "" = s.
Proof. induction s as [|c s IH]; [done|]. by rewrite string_app_cons, IH. Qed.

Lemma string_app_assoc (s1 s2 s3 : string) :
  s1 +:+ (s2 +:+ s3) = (s1 +:+ s2) +:+ s3.
Proof. induction s1 as [|c s IH]; [done|]. by rewrite !string_app_cons, IH. Qed.

(** Every character of a string satisfies [P]. *)
Fixpoint str_all (P : ascii -> bool) (s : string) : bool :=
  match s with EmptyString => true | String c s' => P c && str_all P s' end.

Lemma str_all_app P s1 s2 : str_all P (s1 +:+ s2) = str_all P s1 && str_all P s2.
Proof. induction s1 as [|c s1 IH]; [done|]. rewrite string_app_cons. simpl. by rewrite IH, andb_assoc. Qed.

Lemma string_app_inv_l (s s1 s2 : string) : s +:+ s1 = s +:+ s2 -> s1 = s2.
Proof. induction s as [|c s IH]; [done|]. rewrite !string_app_cons. intros [=]; auto. Qed.

Lemma string_length_app (s1 s2 : string) :
  String.length (s1 +:+ s2) = String.length s1 + String.length s2.
Proof. induction s1 as [|c s IH]; [done|]. rewrite string_app_cons. simpl. by rewrite IH. Qed.

Lemma string_app_nonempty_r (s1 s2 : string) :
  s2 <> "" -> s1 +:+ s2 <> "".
Proof. destruct s1; simpl; [done | discriminate]. Qed.

Lemma string_eqb_refl' (s : string) : String.eqb s s = true.
Proof. apply String.eqb_refl. Qed.

#[export] Hint Rewrite string_app_nil_l string_app_cons string_app_nil_r string_eqb_refl' : meili.
#[export] Hint Resolve string_app_nonempty_r : meili.

(** ** Tactics *)

(** Case on the first match on a pair or a [result] in the goal. *)
Ltac destr_io :=
  match goal with
  | |- context [match ?c with (_, _) => _ end] => destruct c as [[?|?] ?] eqn:?
  | |- context [match ?c with Ok _ => _ | Err _ => _ end] => destruct c eqn:?
  end.

Ltac simpl_meili := autorewrite with meili in *; simpl in *.
