(* ===== verification/Serde.v ===== *)
(** * The serde boundary

    The client never parses JSON itself: it calls [serde_json::from_str],
    [serde_json::to_string] and [yaup::to_string].  Those libraries are not
    part of the repository, so they appear here as type classes: a
    deserializer, a serializer and a URL query serializer per type, with
    the instances the repository relies on ([()] serializes to [null] and
    to the empty query string). *)

From stdpp Require Import base list strings countable.
From Stdlib Require Import Ascii.
From S2P Require Import Prelude.

Open Scope string_scope.
#[local] Set Warnings "-register-all".

(** [serde_json::Error]: only its message is observable. *)
Record JsonError := { json_error_msg : string }.

(** [T: DeserializeOwned] with [serde_json::from_str::<T>]. *)
Class Deserialize (A : Type) := from_str : string -> result A JsonError.
Arguments from_str {_ _} _ : assert.

(** [T: Serialize] with [serde_json::to_string]. *)
Class Serialize (A : Type) := to_string : A -> string.
Arguments to_string {_ _} _ : assert.

(** [Q: Serialize] with [yaup::to_string]; the error is yaup's message. *)
Class SerializeQuery (Q : Type) := yaup_to_string : Q -> result string string.
Arguments yaup_to_string {_ _} _ : assert.

(** JSON insignificant white space, which [serde_json] skips around a
    value. *)
Definition is_json_ws (c : Ascii.ascii) : bool :=
  match c with
  | " "%char | "009"%char | "010"%char | "013"%char => true
  | _ => false
  end.

Fixpoint trim_left (s : string) : string :=
  match s with
  | String c s' => if is_json_ws c then trim_left s' else s
  | EmptyString => EmptyString
  end.

Fixpoint trim_right (s : string) : string :=
  match s with
  | String c s' =>
      let r := trim_right s' in
      if String.eqb r "" && is_json_ws c then "" else String c r
  | EmptyString => EmptyString
  end.

Definition trim (s : string) : string := trim_right (trim_left s).

(** [()] is the JSON literal [null]. *)
#[export] Instance deserialize_unit : Deserialize unit :=
  fun s => if String.eqb (trim s) "null" then Ok tt
           else Err {| json_error_msg := "invalid type: expected unit" |}.
#[export] Instance serialize_unit : Serialize unit := fun _ => "null".
(** [yaup::to_string(&())] is the empty query. *)
#[export] Instance serialize_query_unit : SerializeQuery unit := fun _ => Ok "".

Lemma deserialize_unit_null : from_str (A:=unit) "null" = Ok tt.
Proof. reflexivity. Qed.

(** ** JSON values and serde's data model

    [ToJson] and [FromJson] are what [#[derive(Serialize, Deserialize)]]
    generates for a type; [JsonCodec] is serde_json's text layer.  The
    string-level [Serialize] and [Deserialize] of a type with a derive
    are the composition of the two. *)

Inductive json :=
| JNull
| JBool (b : bool)
| JNumber (n : Z)
| JString (s : string)
| JArray (l : list json)
| JObject (kvs : list (string * json)).

Class ToJson (A : Type) := to_json : A -> json.
Arguments to_json {_ _} _ : assert.
Class FromJson (A : Type) := from_json : json -> result A JsonError.
Arguments from_json {_ _} _ : assert.

Class JsonCodec := {
  print_json : json -> string;
  parse_json : string -> result json JsonError
}.

#[export] Instance serialize_of_json `{JsonCodec} {A} `{ToJson A} : Serialize A :=
  fun a => print_json (to_json a).
#[export] Instance deserialize_of_json `{JsonCodec} {A} `{FromJson A} : Deserialize A :=
  fun s => result_bind (parse_json s) from_json.

Definition json_error (msg : string) : JsonError := {| json_error_msg := msg |}.

(** Strings and sequences of strings. *)
#[export] Instance string_to_json : ToJson string := JString.
#[export] Instance string_from_json : FromJson string :=
  fun j => match j with JString s => Ok s | _ => Err (json_error "invalid type: expected a string") end.

Fixpoint strings_of_jsons (l : list json) : result (list string) JsonError :=
  match l with
  | [] => Ok []
  | j :: l' => let? s := from_json (A:=string) j in
               let? ss := strings_of_jsons l' in Ok (s :: ss)
  end.

#[export] Instance list_string_to_json : ToJson (list string) := fun l => JArray (map JString l).
#[export] Instance list_string_from_json : FromJson (list string) :=
  fun j => match j with JArray l => strings_of_jsons l
                   | _ => Err (json_error "invalid type: expected a sequence") end.

(** [usize] fields are JSON numbers. *)
#[export] Instance nat_to_json : ToJson nat := fun n => JNumber (Z.of_nat n).
#[export] Instance nat_from_json : FromJson nat :=
  fun j => match j with
           | JNumber z => if (0 <=? z)%Z then Ok (Z.to_nat z)
                          else Err (json_error "invalid value: expected usize")
           | _ => Err (json_error "invalid type: expected usize") end.

(** [Option<T>]: [None] is [null]. *)
#[export] Instance option_to_json {A} `{ToJson A} : ToJson (option A) :=
  fun o => match o with Some a => to_json a | None => JNull end.
#[export] Instance option_from_json {A} `{FromJson A} : FromJson (option A) :=
  fun j => match j with JNull => Ok None | _ => let? a := from_json j in Ok (Some a) end.

(** A round-trip law at the level of JSON values. *)
Definition json_roundtrip {A} `{ToJson A} `{FromJson A} (a : A) : Prop :=
  from_json (to_json a) = Ok a.

Lemma string_json_roundtrip (s : string) : json_roundtrip s.
Proof. reflexivity. Qed.

Lemma list_string_json_roundtrip (l : list string) : json_roundtrip l.
Proof.
  unfold json_roundtrip, to_json, from_json, list_string_to_json, list_string_from_json.
  induction l as [|s l IH]; simpl; [done|]. by rewrite IH.
Qed.

Lemma nat_json_roundtrip (n : nat) : json_roundtrip n.
Proof.
  unfold json_roundtrip, to_json, from_json, nat_to_json, nat_from_json.
  destruct (Z.leb_spec 0 (Z.of_nat n)); [by rewrite Nat2Z.id | lia].
Qed.

#[export] Hint Resolve string_json_roundtrip list_string_json_roundtrip
  nat_json_roundtrip : meili.

(** ** Derived deserializers of structs

    A derived [Deserialize] for a struct reads a JSON object: a key that
    appears twice is an error, an unknown key is ignored, a missing
    [Option] field is [None] and a missing required field is an error. *)

Definition json_field (kvs : list (string * json)) (k : string)
  : result (option json) JsonError :=
  match filter (fun kv => String.eqb kv.1 k) kvs with
  | [] => Ok None
  | [(_, v)] => Ok (Some v)
  | _ => Err (json_error ("duplicate field `" +:+ k +:+ "`"))
  end.

Definition opt_field {A} `{FromJson A} (kvs : list (string * json)) (k : string)
  : result (option A) JsonError :=
  let? o := json_field kvs k in
  match o with None => Ok None | Some j => from_json (A:=option A) j end.

Definition req_field {A} `{FromJson A} (kvs : list (string * json)) (k : string)
  : result A JsonError :=
  let? o := json_field kvs k in
  match o with
  | None => Err (json_error ("missing field `" +:+ k +:+ "`"))
  | Some j => from_json j
  end.

(** The entries a field with [skip_serializing_if = "Option::is_none"]
    contributes. *)
Definition opt_entry {A} `{ToJson A} (k : string) (o : option A) : list (string * json) :=
  match o with Some a => [(k, to_json a)] | None => [] end.

Lemma json_field_single kvs k v :
  filter (fun kv => String.eqb kv.1 k) kvs = [(k, v)] -> json_field kvs k = Ok (Some v).
Proof. unfold json_field. by intros ->. Qed.

Lemma json_field_absent kvs k :
  filter (fun kv => String.eqb kv.1 k) kvs = [] -> json_field kvs k = Ok None.
Proof. unfold json_field. by intros ->. Qed.

Lemma filter_opt_entry {A} `{ToJson A} k k' (o : option A) :
  filter (fun kv => String.eqb kv.1 k) (opt_entry k' o)
  = if String.eqb k' k then opt_entry k' o else [].
Proof.
  destruct o as [a|]; simpl; [|by destruct (String.eqb k' k)].
  rewrite filter_cons. simpl. by destruct (String.eqb k' k).
Qed.

(** An optional field written by [opt_entry] reads back, provided its
    value is not written as [null] and round-trips. *)
Lemma opt_field_of_filter {A} `{ToJson A} `{FromJson A} kvs k (o : option A) :
  filter (fun kv => String.eqb kv.1 k) kvs = opt_entry k o ->
  (forall a, o = Some a -> to_json a <> JNull /\ json_roundtrip a) ->
  opt_field kvs k = Ok o.
Proof.
  intros Hf Ha. unfold opt_field, json_field. rewrite Hf.
  destruct o as [a|]; simpl; [|done].
  destruct (Ha a eq_refl) as [Hn Hrt]. unfold json_roundtrip in Hrt.
  unfold from_json at 1, option_from_json.
  destruct (to_json a); try congruence; by rewrite Hrt.
Qed.

Lemma req_field_single {A} `{ToJson A} `{FromJson A} k (a : A) :
  json_roundtrip a -> req_field [(k, to_json a)] k = Ok a.
Proof.
  intros Hrt. unfold req_field, json_field. rewrite filter_cons. simpl.
  rewrite String.eqb_refl. simpl. exact Hrt.
Qed.

(** ** Values of serde_json and sequences of any element type *)

(** [serde_json::Value], built with [json!], serializes as itself. *)
#[export] Instance json_to_json : ToJson json := fun j => j.

(** A derived [Vec<T>] field: a JSON array whose items all decode. *)
Fixpoint list_of_jsons {A} `{FromJson A} (l : list json) : result (list A) JsonError :=
  match l with
  | [] => Ok []
  | j :: l' => let? a := from_json j in let? r := list_of_jsons l' in Ok (a :: r)
  end.

Definition list_from_json {A} `{FromJson A} (j : json) : result (list A) JsonError :=
  match j with JArray l => list_of_jsons l
          | _ => Err (json_error "invalid type: expected a sequence") end.

(** ** yaup at the level of serde's data model

    [yaup::to_string] walks the [Serialize] impl of the query struct; the
    class below is that walk applied to the struct's JSON value, so a
    derived query type's [SerializeQuery] is the encoder applied to its
    [ToJson]. *)
Class YaupEncoder := yaup_encode : json -> result string string.

#[export] Instance serialize_query_of_json `{YaupEncoder} {A} `{ToJson A} : SerializeQuery A :=
  fun a => yaup_encode (to_json a).

(** ** The law of a JSON text layer

    serde_json reads back what it writes, and never writes the empty
    string.  Theorems that send a value to the service and read it back
    assume a codec with these two laws. *)
Class JsonCodecLaws `{JC : JsonCodec} := {
  parse_print j : parse_json (print_json j) = Ok j;
  print_nonempty j : print_json j <> ""
}.

(** Induction on JSON values through their arrays and objects. *)
Section json_ind_nested.
  Variable P : json -> Prop.
  Hypothesis HNull : P JNull.
  Hypothesis HBool : forall b, P (JBool b).
  Hypothesis HNumber : forall n, P (JNumber n).
  Hypothesis HString : forall s, P (JString s).
  Hypothesis HArray : forall l, Forall P l -> P (JArray l).
  Hypothesis HObject : forall kvs, Forall (fun kv => P kv.2) kvs -> P (JObject kvs).

Fixpoint json_ind_nested (j : json) : P j :=
    match j with
    | JNull => HNull
    | JBool b => HBool b
    | JNumber n => HNumber n
    | JString s => HString s
    | JArray l =>
        HArray l ((fix go (l : list json) : Forall P l :=
                     match l with
                     | [] => @List.Forall_nil _ P
                     | j' :: l' => @List.Forall_cons _ P j' l' (json_ind_nested j') (go l')
                     end) l)
    | JObject kvs =>
        HObject kvs ((fix go (kvs : list (string * json)) : Forall (fun kv => P kv.2) kvs :=
                        match kvs with
                        | [] => @List.Forall_nil _ _
                        | (k, v) :: kvs' => @List.Forall_cons _ (fun kv => P kv.2) (k, v) kvs' (json_ind_nested v) (go kvs')
                        end) kvs)
    end.
End json_ind_nested.

(** ** Well-formed JSON

    [json_wf]: every object, at every depth, has distinct keys (serde's
    derive and [HashMap] never write a key twice, and [json_field]
    rejects a repeated one).  [flat_object]: an object with distinct keys
    whose values are scalars or sequences of strings, the shape a URL
    query string can carry. *)
Fixpoint json_wf (j : json) : bool :=
  match j with
  | JArray l => forallb json_wf l
  | JObject kvs => bool_decide (NoDup (map fst kvs)) && forallb (fun kv => json_wf kv.2) kvs
  | _ => true
  end.

Definition query_value (j : json) : bool :=
  match j with
  | JBool _ | JNumber _ | JString _ => true
  | JArray l => forallb (fun j => match j with JString _ => true | _ => false end) l
  | JNull | JObject _ => false
  end.

Definition flat_object (j : json) : bool :=
  match j with
  | JObject kvs => bool_decide (NoDup (map fst kvs)) && forallb (fun kv => query_value kv.2) kvs
  | _ => false
  end.

(** The keys [opt_entry] writes: its own, or none. *)
Lemma opt_entry_keys {A} `{ToJson A} k (o : option A) : map fst (opt_entry k o) `sublist_of` [k].
Proof. destruct o; simpl; [done|apply sublist_nil_l]. Qed.

Lemma opt_entry_forallb {A} `{ToJson A} (P : json -> bool) k (o : option A) :
  (forall a, P (to_json a) = true) -> forallb (fun kv => P kv.2) (opt_entry k o) = true.
Proof. intros HP. destruct o as [a|]; simpl; [by rewrite HP|done]. Qed.

Lemma list_string_json_wf (l : list string) : json_wf (to_json l) = true.
Proof. induction l as [|s l IH]; [done|exact IH]. Qed.

Lemma list_string_query_value (l : list string) : query_value (to_json l) = true.
Proof. induction l as [|s l IH]; [done|exact IH]. Qed.

(** ** A codec with both laws

    Not serde_json's text: a reversible encoding of JSON values through
    stdpp's countable trees, which shows the laws are satisfiable and
    instantiates the theorems that assume them. *)
Definition json_leaf := (unit + bool + Z + string)%type.

Fixpoint json_to_tree (j : json) : gen_tree json_leaf :=
  match j with
  | JNull => GenLeaf (inl (inl (inl tt)))
  | JBool b => GenLeaf (inl (inl (inr b)))
  | JNumber n => GenLeaf (inl (inr n))
  | JString s => GenLeaf (inr s)
  | JArray l => GenNode 0 (json_to_tree <$> l)
  | JObject kvs => GenNode 1 ((fun kv => GenNode 0 [GenLeaf (inr kv.1); json_to_tree kv.2]) <$> kvs)
  end.

Fixpoint tree_to_json (t : gen_tree json_leaf) : option json :=
  match t with
  | GenLeaf (inl (inl (inl _))) => Some JNull
  | GenLeaf (inl (inl (inr b))) => Some (JBool b)
  | GenLeaf (inl (inr n)) => Some (JNumber n)
  | GenLeaf (inr s) => Some (JString s)
  | GenNode 0 ts => JArray <$> mapM tree_to_json ts
  | GenNode 1 ts =>
      JObject <$> mapM (fun t => match t with
                                 | GenNode 0 [GenLeaf (inr k); tv] => (fun v => (k, v)) <$> tree_to_json tv
                                 | _ => None
                                 end) ts
  | GenNode _ _ => None
  end.

Lemma tree_to_json_to_tree j : tree_to_json (json_to_tree j) = Some j.
Proof.
  induction j as [| | | |l Hl|kvs Hkvs] using json_ind_nested; try reflexivity; simpl.
  - by rewrite (mapM_fmap_Forall_Some _ _ _ Hl).
  - rewrite (mapM_fmap_Forall_Some _ _ kvs); [done|].
    eapply Forall_impl; [|exact Hkvs]. intros [k v] Hv. simpl in *. by rewrite Hv.
Qed.

Fixpoint pos_to_bits (p : positive) : string :=
  match p with
  | xH => ""
  | xO p => String "0" (pos_to_bits p)
  | xI p => String "1" (pos_to_bits p)
  end.

Fixpoint bits_to_pos (s : string) : option positive :=
  match s with
  | "" => Some xH
  | String "0" s => xO <$> bits_to_pos s
  | String "1" s => xI <$> bits_to_pos s
  | _ => None
  end.

Lemma bits_to_pos_to_bits p : bits_to_pos (pos_to_bits p) = Some p.
Proof. induction p as [p IH|p IH|]; simpl; rewrite ?IH; reflexivity. Qed.

Definition tree_codec : JsonCodec :=
  {| print_json j := String "j" (pos_to_bits (encode (json_to_tree j)));
     parse_json s :=
       match s with
       | String "j" bits =>
           match (bits_to_pos bits ≫= decode (A:=gen_tree json_leaf)) ≫= tree_to_json with
           | Some j => Ok j
           | None => Err (json_error "expected value")
           end
       | _ => Err (json_error "expected value")
       end |}.

Lemma tree_codec_laws : @JsonCodecLaws tree_codec.
Proof.
  split; [|done]. intros j. simpl.
  by rewrite bits_to_pos_to_bits; simpl; rewrite decode_encode; simpl; rewrite tree_to_json_to_tree.
Qed.
