(* ===== verification/Document.v ===== *)
(** * The [Document] trait ([src/src/document.rs])

    A document is any serializable struct with a primary key: the trait
    asks for [DeserializeOwned + Debug + Serialize] ([FromJson] and
    [ToJson] here; [Debug] has no observable behaviour) and a [get_uid]
    whose [UIDType: Display].  The trait's documentation adds a contract
    the type system does not check: the key must display using only
    alphanumeric characters, ['/'] and ['-'].  [uid_ok] is that contract
    as a boolean test ([document_uid_ok] applies it to a document's
    key); the [Movie] examples of the trait's and of the crate's
    documentation are instances with integer keys. *)

From stdpp Require Import base list strings pretty.
From Stdlib Require Import Ascii ZArith.
From S2P Require Import Prelude Serde.

Open Scope string_scope.

(** [pub trait Document: DeserializeOwned + Debug + Serialize]. *)
Class Document (T : Type) `{ToJson T} `{FromJson T} := {
  (** [type UIDType: Display] and its [fmt] *)
  UIDType : Type;
  uid_display : UIDType -> string;
  (** [fn get_uid(&self) -> &Self::UIDType] *)
  get_uid : T -> UIDType
}.
Arguments UIDType T {_ _ _}.

(** The documented contract on a displayed key: alphanumeric characters,
    ['/'] and ['-'] only. *)
Definition uid_char_ok (c : ascii) : bool :=
  let n := nat_of_ascii c in
  (Nat.leb 48 n && Nat.leb n 57) || (Nat.leb 65 n && Nat.leb n 90)
  || (Nat.leb 97 n && Nat.leb n 122) || Ascii.eqb c "/" || Ascii.eqb c "-".

Fixpoint uid_ok (s : string) : bool :=
  match s with
  | EmptyString => true
  | String c s' => uid_char_ok c && uid_ok s'
  end.

Definition document_uid_ok {T} `{Document T} (d : T) : bool :=
  uid_ok (uid_display (get_uid d)).

(** The documentation's example: [struct Movie { id: usize, name: String,
    description: String }] with [#[derive(Serialize, Deserialize)]] and
    [get_uid] returning [&self.id]. *)
Record Movie := { movie_id : nat; movie_name : string; movie_description : string }.

#[export] Instance movie_to_json : ToJson Movie :=
  fun m => JObject [("id", to_json (movie_id m)); ("name", JString (movie_name m));
                    ("description", JString (movie_description m))].

#[export] Instance movie_from_json : FromJson Movie :=
  fun j => match j with
           | JObject kvs =>
               let? id := req_field kvs "id" in
               let? name := req_field kvs "name" in
               let? description := req_field kvs "description" in
               Ok {| movie_id := id; movie_name := name; movie_description := description |}
           | _ => Err (json_error "invalid type: expected struct Movie")
           end.

(** [impl Document for Movie]; [usize] displays in decimal. *)
#[export] Instance movie_document : Document Movie :=
  {| UIDType := nat; uid_display := pretty; get_uid := movie_id |}.

(** The crate documentation's example ([lib.rs]): [struct Movie { id:
    usize, title: String, genres: Vec<String> }] with
    [#[derive(Serialize, Deserialize, Debug)]] and [impl Document for
    Movie] with [type UIDType = usize] and [get_uid] returning
    [&self.id]. *)
Module CrateExample.
Record Movie := { id : nat; title : string; genres : list string }.

#[global] Instance movie_to_json : ToJson Movie :=
  fun m => JObject [("id", to_json (id m)); ("title", JString (title m));
                    ("genres", to_json (genres m))].

#[global] Instance movie_from_json : FromJson Movie :=
  fun j => match j with
           | JObject kvs =>
               let? i := req_field kvs "id" in
               let? t := req_field kvs "title" in
               let? g := req_field kvs "genres" in
               Ok {| id := i; title := t; genres := g |}
           | _ => Err (json_error "invalid type: expected struct Movie")
           end.

#[global] Instance movie_document : Document Movie :=
  {| UIDType := nat; uid_display := pretty; get_uid := id |}.
End CrateExample.
