(* ===== verification/Errors.v ===== *)
(** * The error taxonomy ([errors.rs])

    [errors.rs] is not among the staged sources: the taxonomy follows the
    specification (sections 3 and 7) and the constructors [request.rs]
    builds ([Error::ParseError], [Error::from(MeilisearchError)],
    [Error::MeilisearchCommunication]). *)

From stdpp Require Import base list strings.
From Stdlib Require Import ZArith.
From S2P Require Import Prelude Serde.

Open Scope string_scope.

(** The structured error body the service returns. *)
Record MeilisearchError := {
  error_message : string;
  error_code : string;
  error_type : string;
  error_link : string
}.

(** A non-success status whose body is not a structured error. *)
Record MeilisearchCommunicationError := {
  comm_status_code : Z;
  comm_message : option string;
  comm_url : string
}.

Inductive Error :=
| Meilisearch (e : MeilisearchError)
| MeilisearchCommunication (e : MeilisearchCommunicationError)
| ParseError (e : JsonError)
| Timeout
| InvalidRequest
| HttpError (msg : string)
| Yaup (msg : string).

(** [impl From<MeilisearchError> for Error]. *)
Definition error_from_meilisearch (e : MeilisearchError) : Error := Meilisearch e.

(** [impl From<yaup::Error> for Error], used by the [?] of
    [add_query_parameters]. *)
Definition error_from_yaup (msg : string) : Error := Yaup msg.

Definition is_parse_error (e : Error) : bool :=
  match e with ParseError _ => true | _ => false end.

(** [derive(Deserialize)] of [MeilisearchError]: the keys [message],
    [code], [type] and [link]. *)
#[export] Instance meilisearch_error_from_json : FromJson MeilisearchError :=
  fun j => match j with
           | JObject kvs =>
               let? m := req_field kvs "message" in
               let? c := req_field kvs "code" in
               let? t := req_field kvs "type" in
               let? l := req_field kvs "link" in
               Ok {| error_message := m; error_code := c; error_type := t; error_link := l |}
           | _ => Err (json_error "invalid type: expected struct MeilisearchError")
           end.
