(* ===== verification/Method.v ===== *)
(** * The wire method model ([request.rs], module [method])

    [Method<Q, B>] tags an HTTP call with its verb; the query rides on
    every variant and a body only on [Post], [Patch] and [Put]. *)

From stdpp Require Import base list strings.
From S2P Require Import Prelude.

(** [http::Method], restricted to the verbs the client uses. *)
Inductive HttpMethod := GET | POST | PATCH | PUT | DELETE.

#[export] Instance HttpMethod_eq_dec : EqDecision HttpMethod.
Proof. solve_decision. Defined.

Inductive Method (Q B : Type) :=
| Get (query : Q)
| Post (query : Q) (body : B)
| Patch (query : Q) (body : B)
| Put (query : Q) (body : B)
| Delete (query : Q).
Arguments Get {Q B} query.
Arguments Post {Q B} query body.
Arguments Patch {Q B} query body.
Arguments Put {Q B} query body.
Arguments Delete {Q B} query.

(** [Method::query] *)
Definition query {Q B} (m : Method Q B) : Q :=
  match m with
  | Get q => q
  | Post q _ => q
  | Patch q _ => q
  | Put q _ => q
  | Delete q => q
  end.

(** [Method::http_method] *)
Definition http_method {Q B} (m : Method Q B) : HttpMethod :=
  match m with
  | Get _ => GET
  | Post _ _ => POST
  | Patch _ _ => PATCH
  | Put _ _ => PUT
  | Delete _ => DELETE
  end.

(** The body a transport's [add_body] attaches: the payload of [Post],
    [Patch] and [Put], nothing for [Get] and [Delete]. *)
Definition method_body {Q B} (m : Method Q B) : option B :=
  match m with
  | Get _ | Delete _ => None
  | Post _ b | Patch _ b | Put _ b => Some b
  end.

(** The verbs that carry a body. *)
Definition verb_has_body (v : HttpMethod) : bool :=
  match v with POST | PATCH | PUT => true | GET | DELETE => false end.

(** The verb alone decides whether a body is attached. *)
Lemma method_body_verb {Q B} (m : Method Q B) :
  is_Some (method_body m) <-> verb_has_body (http_method m) = true.
Proof. destruct m; simpl; split; intros H; (done || by eexists || by destruct H). Qed.
