(* ===== verification/Request.v ===== *)
(** * The request dispatcher ([request.rs])

    [RequestClient] is the transport trait: a builder ([new],
    [with_method], [with_user_agent_header], [with_authorization_header]),
    [add_body], an asynchronous [send_request], [extract_status_code] and
    [response_to_text].  Its provided method [request] composes them, and
    [parse_response] classifies the outcome into [Ok] or one [Error].

    The transport contract is the class [RequestClientLaws]: what a
    transport puts on the wire ([rc_observe]) is determined by the builder
    calls, and sending then reading the body is one exchange with the
    [network].  Against that interface [request] is proved equal to
    [dispatch], the abstract specification: build one wire request, make
    one exchange, parse. *)

From stdpp Require Import base list strings.
From Stdlib Require Import ZArith.
From S2P Require Import Prelude Serde Errors Method.

Open Scope string_scope.
#[local] Set Warnings "-clear-no-such-hyp".

(** ** The wire *)

Record WireRequest := {
  wr_method : HttpMethod;
  wr_url : string;
  wr_headers : list (string * string);
  wr_body : option string
}.

Record RawResponse := { rr_status : Z; rr_body : string }.

(** [const CONTENT_TYPE: &str = "application/json"] in [request]. *)
Definition CONTENT_TYPE : string := "application/json".

(** ** Free functions *)

(** [qualified_version]: [VERSION] is [option_env!("CARGO_PKG_VERSION")],
    fixed when the crate is compiled. *)
Definition qualified_version (VERSION : option string) : string :=
  "Meilisearch Rust (v" +:+ default "unknown" VERSION +:+ ")".

(** [add_query_parameters]: the [?] turns a yaup error into [Error::Yaup]. *)
Definition add_query_parameters {Q} `{SerializeQuery Q} (url : string) (q : Q)
  : result string Error :=
  let? query := map_err error_from_yaup (yaup_to_string q) in
  Ok (if String.eqb query "" then url else url +:+ "?" +:+ query).

(** ** [RequestClient::parse_response] *)

Section ParseResponse.
  Context `{DE : Deserialize MeilisearchError}.

Definition parse_response {Output} `{Deserialize Output}
      (status_code expected_status_code : Z) (body : string) (url : string)
    : result Output Error :=
    let body := if String.eqb body "" then "null" else body in
    if Z.eqb status_code expected_status_code then
      match from_str (A:=Output) body with
      | Ok output => Ok output
      | Err e => Err (ParseError e)
      end
    else
      match from_str (A:=MeilisearchError) body with
      | Ok e => Err (error_from_meilisearch e)
      | Err e =>
          if (400 <=? status_code)%Z then
            Err (MeilisearchCommunication
                   {| comm_status_code := status_code;
                      comm_message := None;
                      comm_url := url |})
          else Err (ParseError e)
      end.
End ParseResponse.

(** ** The transport trait [RequestClient<B0>] *)

Class RequestClient (W B0 Self Req Resp : Type) := {
  rc_new : string -> Self;
  with_authorization_header : Self -> string -> Self;
  with_user_agent_header : Self -> string -> Self;
  with_method : Self -> HttpMethod -> Self;
  add_body : forall {Q : Type}, Self -> Method Q B0 -> string -> Req;
  send_request : Req -> io W Error Resp;
  extract_status_code : Resp -> Z;
  response_to_text : Resp -> io W Error string
}.
Arguments rc_new {W B0 Self Req Resp _} _ : assert.
Arguments add_body {W B0 Self Req Resp _ Q} _ _ _ : assert.

Section Request.
  Context {W B0 Self Req Resp : Type} `{RC : RequestClient W B0 Self Req Resp}.
  Context `{DE : Deserialize MeilisearchError}.
  (** [option_env!("CARGO_PKG_VERSION")] *)
  Variable VERSION : option string.

  (** The builder state [request] hands to [add_body]. *)
Definition build_client (full_url : string) (apikey : option string)
      (verb : HttpMethod) : Self :=
    let request_client :=
      with_user_agent_header (with_method (rc_new full_url) verb)
        (qualified_version VERSION) in
    match apikey with
    | Some apikey => with_authorization_header request_client ("Bearer " +:+ apikey)
    | None => request_client
    end.

  (** [RequestClient::request], the trait's provided method. *)
Definition request {T Q} `{Deserialize T} `{SerializeQuery Q}
      (url : string) (apikey : option string) (method : Method Q B0)
      (content_type : string) (expected_status_code : Z) : io W Error T :=
    let* full_url := io_lift (add_query_parameters url (query method)) in
    let request_client := build_client full_url apikey (http_method method) in
    let* response := send_request (add_body request_client method content_type) in
    let status := extract_status_code response in
    let* text := response_to_text response in
    io_lift (parse_response status expected_status_code text url).
End Request.

(** ** The transport contract *)

(** What a builder has accumulated: the URL, the verb if set, the
    headers in the order they were added. *)
Record Builder := {
  b_url : string;
  b_method : option HttpMethod;
  b_headers : list (string * string)
}.

Definition builder_new (u : string) : Builder :=
  {| b_url := u; b_method := None; b_headers := [] |}.
Definition builder_set_method (b : Builder) (m : HttpMethod) : Builder :=
  {| b_url := b_url b; b_method := Some m; b_headers := b_headers b |}.
Definition builder_add_header (b : Builder) (h : string * string) : Builder :=
  {| b_url := b_url b; b_method := b_method b; b_headers := b_headers b ++ [h] |}.

(** The [Content-Type] header goes with a body and only with one. *)
Definition content_type_header {Q B} (m : Method Q B) (ct : string)
  : list (string * string) :=
  match method_body m with Some _ => [("Content-Type", ct)] | None => [] end.

(** The request [add_body] finishes: the verb defaults to [GET] as in
    [http::request::Builder]; the body is serialized with serde. *)
Definition finish {Q B} `{Serialize B} (b : Builder) (m : Method Q B) (ct : string)
  : WireRequest :=
  {| wr_method := default GET (b_method b);
     wr_url := b_url b;
     wr_headers := b_headers b ++ content_type_header m ct;
     wr_body := to_string <$> method_body m |}.

(** A transport honours the contract for a [network] (the remote service
    and the channel to it, a stateful exchange of one wire request for
    one raw response) when its builder is observed by [rc_view], its
    prepared request by [rc_observe], and sending then reading the body
    is one exchange. *)
Class RequestClientLaws (W B0 Self Req Resp : Type)
    `{RequestClient W B0 Self Req Resp} `{Serialize B0}
    (network : WireRequest -> io W Error RawResponse) := {
  rc_view : Self -> Builder;
  rc_observe : Req -> WireRequest;
  rc_view_new u : rc_view (rc_new u) = builder_new u;
  rc_view_with_method c m :
    rc_view (with_method c m) = builder_set_method (rc_view c) m;
  rc_view_with_user_agent c v :
    rc_view (with_user_agent_header c v) = builder_add_header (rc_view c) ("User-Agent", v);
  rc_view_with_authorization c v :
    rc_view (with_authorization_header c v) = builder_add_header (rc_view c) ("Authorization", v);
  rc_observe_add_body {Q} c (m : Method Q B0) ct :
    rc_observe (add_body c m ct) = finish (rc_view c) m ct;
  rc_exchange {A} r (k : Z -> string -> io W Error A) w :
    io_bind (send_request r)
      (fun resp => io_bind (response_to_text resp) (fun text => k (extract_status_code resp) text)) w
    = io_bind (network (rc_observe r)) (fun raw => k (rr_status raw) (rr_body raw)) w
}.
Arguments rc_view {W B0 Self Req Resp _ _ network _} _ : assert.
Arguments rc_observe {W B0 Self Req Resp _ _ network _} _ : assert.

(** ** The abstract dispatcher *)

Section Dispatch.
  Context {W B0 : Type} `{Serialize B0} `{DE : Deserialize MeilisearchError}.
  Variable network : WireRequest -> io W Error RawResponse.
  Variable VERSION : option string.

Definition auth_header (apikey : option string) : list (string * string) :=
    match apikey with Some k => [("Authorization", "Bearer " +:+ k)] | None => [] end.

  (** The one request that goes on the wire, or the error that stops the
      call before the network is touched. *)
Definition wire_request {Q} `{SerializeQuery Q} (url : string) (apikey : option string)
      (method : Method Q B0) (ct : string) : result WireRequest Error :=
    let? full_url := add_query_parameters url (query method) in
    Ok {| wr_method := http_method method;
          wr_url := full_url;
          wr_headers := [("User-Agent", qualified_version VERSION)]
                        ++ auth_header apikey ++ content_type_header method ct;
          wr_body := to_string <$> method_body method |}.

  (** Specification of [request]: one exchange, then classification. *)
Definition dispatch {T Q} `{Deserialize T} `{SerializeQuery Q}
      (url : string) (apikey : option string) (method : Method Q B0)
      (ct : string) (expected_status_code : Z) : io W Error T :=
    let* wr := io_lift (wire_request url apikey method ct) in
    let* raw := network wr in
    io_lift (parse_response (rr_status raw) expected_status_code (rr_body raw) url).
End Dispatch.

(** A call that passes the query stage is one exchange of the wire
    request, then the classification of what came back. *)
Lemma dispatch_wire {W B0 T Q} `{Serialize B0} `{DE : Deserialize MeilisearchError}
    `{Deserialize T} `{SerializeQuery Q} (network : WireRequest -> io W Error RawResponse)
    VERSION url apikey (method : Method Q B0) ct expected wr w :
  wire_request VERSION url apikey method ct = Ok wr ->
  dispatch network VERSION (T:=T) url apikey method ct expected w
  = match network wr w with
    | (Ok raw, w1) => (parse_response (rr_status raw) expected (rr_body raw) url, w1)
    | (Err e, w1) => (Err e, w1)
    end.
Proof.
  intros Hwr. unfold dispatch, io_bind, io_lift. rewrite Hwr.
  by destruct (network wr w) as [[raw|e] w1].
Qed.

(** ** Lemmas on the dispatcher *)

Section Refinement.
  Context {W B0 Self Req Resp : Type} `{RC : RequestClient W B0 Self Req Resp}
          `{SB : Serialize B0} `{DE : Deserialize MeilisearchError}.
  Variable network : WireRequest -> io W Error RawResponse.
  Context `{LAWS : !RequestClientLaws W B0 Self Req Resp network}.
  Variable VERSION : option string.

Lemma view_build_client full_url apikey verb :
    rc_view (build_client VERSION full_url apikey verb)
    = {| b_url := full_url; b_method := Some verb;
         b_headers := [("User-Agent", qualified_version VERSION)] ++ auth_header apikey |}.
  Proof.
    unfold build_client.
    destruct apikey; rewrite ?rc_view_with_authorization, rc_view_with_user_agent,
      rc_view_with_method, rc_view_new; reflexivity.
  Qed.

Lemma observe_built_request {Q} full_url apikey (method : Method Q B0) ct :
    rc_observe (add_body (build_client VERSION full_url apikey (http_method method)) method ct)
    = {| wr_method := http_method method; wr_url := full_url;
         wr_headers := [("User-Agent", qualified_version VERSION)]
                       ++ auth_header apikey ++ content_type_header method ct;
         wr_body := to_string <$> method_body method |}.
  Proof.
    rewrite rc_observe_add_body, view_build_client. unfold finish; simpl.
    reflexivity.
  Qed.

  (** The trait's [request] is [dispatch] for a lawful transport. *)
Lemma request_dispatch_eq {T Q} `{Deserialize T} `{SerializeQuery Q}
      url apikey (method : Method Q B0) ct expected w :
    request VERSION url apikey method ct expected w
    = dispatch network VERSION url apikey method ct expected w.
  Proof.
    unfold request, dispatch, wire_request.
    destruct (add_query_parameters url (query method)) as [full_url|e]; [|reflexivity].
    cbn [io_bind io_lift result_bind].
    etransitivity;
      [apply (rc_exchange _ (fun s t => io_lift (parse_response s expected t url)))|].
    by rewrite observe_built_request.
  Qed.

  (** C1: refinement.  For every transport that honours the contract,
      the trait's [request] is the abstract [dispatch]: the query string
      is built first, exactly one wire request (verb, URL, headers, body)
      is exchanged with the network, and the raw response is classified by
      [parse_response] against the base URL. *)
Theorem request_refines_dispatch {T Q} `{Deserialize T} `{SerializeQuery Q}
      url apikey (method : Method Q B0) ct expected w :
    request VERSION url apikey method ct expected w
    = dispatch network VERSION url apikey method ct expected w.
  Proof. apply request_dispatch_eq. Qed.
End Refinement.

(** ** Response classification *)

(** The body [parse_response] actually parses. *)
Definition effective_body (body : string) : string :=
  if String.eqb body "" then "null" else body.

Section Classification.
  Context `{DE : Deserialize MeilisearchError} {Output : Type} `{DO : Deserialize Output}.

Lemma parse_response_unfold status expected body url :
    parse_response (Output:=Output) status expected body url
    = if Z.eqb status expected then map_err ParseError (from_str (effective_body body))
      else match from_str (A:=MeilisearchError) (effective_body body) with
           | Ok e => Err (Meilisearch e)
           | Err e => if (400 <=? status)%Z
                      then Err (MeilisearchCommunication
                                  {| comm_status_code := status; comm_message := None;
                                     comm_url := url |})
                      else Err (ParseError e)
           end.
  Proof.
    unfold parse_response, effective_body.
    destruct (Z.eqb status expected); [|reflexivity].
    by destruct (from_str _).
  Qed.

  (** The success branch of [parse_response]. *)
Lemma parse_response_ok_branch status body url :
    parse_response (Output:=Output) status status body url
    = map_err ParseError (from_str (effective_body body)).
  Proof. by rewrite parse_response_unfold, Z.eqb_refl. Qed.

  (** C2: success branch.  When the status is the expected one, the
      result is the deserialized body (an empty body read as [null]) and a
      body that does not deserialize is a [ParseError]. *)
Theorem parse_response_expected status body url :
    parse_response (Output:=Output) status status body url
    = map_err ParseError (from_str (effective_body body)).
  Proof. by rewrite parse_response_unfold, Z.eqb_refl. Qed.

  (** C3: a status other than the expected one never yields a value, even
      when the body would deserialize as the expected output. *)
Theorem parse_response_mismatch_is_error status expected body url :
    status <> expected ->
    is_ok (parse_response (Output:=Output) status expected body url) = false.
  Proof.
    intros Hne. rewrite parse_response_unfold.
    apply Z.eqb_neq in Hne. rewrite Hne.
    destruct (from_str _); [done|]. by case_match.
  Qed.

  (** C4: a status other than the expected one.  The body is read as a
      structured error: when it is one, the result is
      [Error::Meilisearch] carrying it; when it is not, a status of at
      least 400 is [Error::MeilisearchCommunication] with that status, no
      message and the request's base URL, and a lower status is not
      swallowed: the error-body parse failure is returned as
      [ParseError]. *)
Theorem parse_response_status_mismatch status expected body url :
    status <> expected ->
    (forall e, from_str (A:=MeilisearchError) (effective_body body) = Ok e ->
       parse_response (Output:=Output) status expected body url = Err (Meilisearch e))
    /\ (forall je, from_str (A:=MeilisearchError) (effective_body body) = Err je ->
        (400 <= status)%Z ->
        parse_response (Output:=Output) status expected body url
        = Err (MeilisearchCommunication
                 {| comm_status_code := status; comm_message := None; comm_url := url |}))
    /\ (forall je, from_str (A:=MeilisearchError) (effective_body body) = Err je ->
        (status < 400)%Z ->
        parse_response (Output:=Output) status expected body url = Err (ParseError je)).
  Proof.
    intros Hne. rewrite !parse_response_unfold. apply Z.eqb_neq in Hne. rewrite Hne.
    split_and!; intros ? He; rewrite He; [done| |]; intros Hs;
      [apply Z.leb_le in Hs|apply Z.leb_gt in Hs]; by rewrite Hs.
  Qed.
End Classification.

(** The classification never invents a timeout. *)
Lemma parse_response_not_timeout `{DE : Deserialize MeilisearchError} {Output}
    `{Deserialize Output} status expected body url :
  parse_response (Output:=Output) status expected body url <> Err Timeout.
Proof.
  rewrite parse_response_unfold.
  destruct (Z.eqb _ _); [by destruct (from_str _)|].
  destruct (from_str _); [done|]. by case_match.
Qed.


(** ** The request on the wire *)

Lemma string_app_sep_neq (url s : string) : url +:+ "?" +:+ s <> url.
Proof.
  intros Heq. apply (f_equal String.length) in Heq.
  rewrite !string_length_app in Heq. simpl in Heq. lia.
Qed.

Section Wire.
  Context {W B0 Self Req Resp : Type} `{RC : RequestClient W B0 Self Req Resp}
          `{SB : Serialize B0}.
  Variable network : WireRequest -> io W Error RawResponse.
  Context `{LAWS : !RequestClientLaws W B0 Self Req Resp network}.
  Variable VERSION : option string.

  (** C5: the request [request] hands to the transport carries an
      [Authorization] header exactly when an API key was supplied, and
      then it is [Bearer <key>]. *)
Theorem sent_authorization_header {Q} full_url apikey (m : Method Q B0) ct v :
    In ("Authorization", v)
       (wr_headers (rc_observe (add_body (build_client VERSION full_url apikey (http_method m)) m ct)))
    <-> exists k, apikey = Some k /\ v = "Bearer " +:+ k.
  Proof.
    rewrite observe_built_request. simpl.
    unfold content_type_header. rewrite in_app_iff.
    destruct apikey as [k|], (method_body m); simpl; naive_solver.
  Qed.

  (** C6: on the wire the verb is the tag's verb, a body is attached if
      and only if the verb is [POST], [PATCH] or [PUT] (with a
      [Content-Type] header exactly then), the URL is the one built with
      the query, and the client's [User-Agent] is always sent. *)
Theorem sent_request_shape {Q} full_url apikey (m : Method Q B0) ct :
    let wr := rc_observe (add_body (build_client VERSION full_url apikey (http_method m)) m ct) in
    wr_method wr = http_method m
    /\ wr_url wr = full_url
    /\ (is_Some (wr_body wr) <-> verb_has_body (wr_method wr) = true)
    /\ (In ("Content-Type", ct) (wr_headers wr) <-> is_Some (wr_body wr))
    /\ In ("User-Agent", qualified_version VERSION) (wr_headers wr).
  Proof.
    simpl. rewrite observe_built_request. simpl.
    rewrite <- method_body_verb, fmap_is_Some.
    unfold content_type_header. rewrite in_app_iff.
    destruct apikey, (method_body m); simpl; split_and!; naive_solver.
  Qed.
End Wire.

(** C7: the URL [add_query_parameters] builds is the base URL itself
    exactly when the serialized query is empty; otherwise a [?] and the
    query follow it. *)
Theorem add_query_parameters_url {Q} `{SerializeQuery Q} url (q : Q) u s :
  add_query_parameters url q = Ok u ->
  yaup_to_string q = Ok s ->
  (u = url <-> s = "") /\ (s <> "" -> u = url +:+ "?" +:+ s).
Proof.
  intros Hu Hs. unfold add_query_parameters in Hu. rewrite Hs in Hu. simpl in Hu.
  injection Hu as <-.
  destruct (String.eqb_spec s "") as [->|Hne]; [done|].
  split; [|done]. split; [|done]. intros Heq. by apply string_app_sep_neq in Heq.
Qed.

Section QueryError.
  Context {W B0 Self Req Resp : Type} `{RC : RequestClient W B0 Self Req Resp}
          `{DE : Deserialize MeilisearchError}.
  Variable VERSION : option string.

  (** C8: a query that yaup cannot serialize stops [request] with
      [Error::Yaup] before any transport call: the world is unchanged. *)
Theorem request_query_error {T Q} `{Deserialize T} `{SerializeQuery Q}
      url apikey (m : Method Q B0) ct expected msg w :
    yaup_to_string (query m) = Err msg ->
    request VERSION url apikey m ct expected w = (Err (A:=T) (Yaup msg), w).
  Proof.
    intros Hq. unfold request, add_query_parameters. by rewrite Hq.
  Qed.
End QueryError.

(** ** Witnesses on concrete requests and responses *)

(** A structured error as the service sends it, and a decoder that reads
    it from a fixed body. *)
Definition fixture_error : MeilisearchError :=
  {| error_message := "Index `movies` not found.";
     error_code := "index_not_found";
     error_type := "invalid_request";
     error_link := "https://docs.meilisearch.com/errors#index_not_found" |}.

Definition fixture_error_decoder : Deserialize MeilisearchError :=
  fun s => if String.eqb s "index_not_found" then Ok fixture_error
           else Err {| json_error_msg := "missing field `message`" |}.

Lemma parse_response_mismatch_is_error_witness :
  (200 <> 202)%Z
  /\ is_ok (parse_response (DE:=fixture_error_decoder) (Output:=unit) 200 202 "null" "u") = false.
Proof. split; [lia|]. apply parse_response_mismatch_is_error; lia. Defined.

Lemma parse_response_status_mismatch_witness :
  (502 <> 200)%Z
  /\ parse_response (DE:=fixture_error_decoder) (Output:=unit) 502 200 "Bad Gateway" "http://h"
     = Err (MeilisearchCommunication
              {| comm_status_code := 502; comm_message := None; comm_url := "http://h" |})
  /\ parse_response (DE:=fixture_error_decoder) (Output:=unit) 502 200 "index_not_found" "u"
     = Err (Meilisearch fixture_error)
  /\ parse_response (DE:=fixture_error_decoder) (Output:=unit) 201 202 "" "u"
     = Err (ParseError {| json_error_msg := "missing field `message`" |}).
Proof.
  split; [lia|]. split_and!.
  - apply (proj1 (proj2 (parse_response_status_mismatch (DE:=fixture_error_decoder) (Output:=unit)
             502 200 "Bad Gateway" "http://h" ltac:(lia))) {| json_error_msg := "missing field `message`" |});
      [reflexivity|lia].
  - apply (proj1 (parse_response_status_mismatch (DE:=fixture_error_decoder) (Output:=unit)
             502 200 "index_not_found" "u" ltac:(lia))); reflexivity.
  - apply (proj2 (proj2 (parse_response_status_mismatch (DE:=fixture_error_decoder) (Output:=unit)
             201 202 "" "u" ltac:(lia)))); [reflexivity|lia].
Defined.


Lemma add_query_parameters_url_witness :
  add_query_parameters (Q:=unit) "http://localhost:7700/indexes" tt = Ok "http://localhost:7700/indexes"
  /\ yaup_to_string tt = Ok ""
  /\ ("http://localhost:7700/indexes" = "http://localhost:7700/indexes" <-> "" = "").
Proof.
  split; [reflexivity|]. split; [reflexivity|].
  apply (add_query_parameters_url "http://localhost:7700/indexes" tt _ ""); reflexivity.
Defined.
