(* ===== verification/Transports.v ===== *)
(** * The two transports ([request/native_client.rs], [request/wasm_client.rs])

    Neither file is among the staged sources: both follow the
    specification (sections 4.2 and 9).  The native client builds an
    [http::Request] with a header map and a serialized body; the browser
    client keeps a [web_sys::Headers] object and a [RequestInit] whose
    method is a string, and reads the body through a promise.  Both are
    instances of [RequestClient] that honour [RequestClientLaws], so the
    free function [request] (which picks one by [target_arch]) behaves
    the same on both targets. *)

From stdpp Require Import base list strings.
From Stdlib Require Import ZArith.
From S2P Require Import Prelude Serde Errors Method Request.

Open Scope string_scope.

(** [http::Method::as_str] and its inverse, as a browser's [fetch] reads
    the method string. *)
Definition method_as_str (m : HttpMethod) : string :=
  match m with
  | GET => "GET" | POST => "POST" | PATCH => "PATCH" | PUT => "PUT" | DELETE => "DELETE"
  end.

Definition method_of_str (s : string) : option HttpMethod :=
  if String.eqb s "GET" then Some GET
  else if String.eqb s "POST" then Some POST
  else if String.eqb s "PATCH" then Some PATCH
  else if String.eqb s "PUT" then Some PUT
  else if String.eqb s "DELETE" then Some DELETE
  else None.

Lemma method_of_as_str m : method_of_str (method_as_str m) = Some m.
Proof. by destruct m. Qed.

(** ** Native client *)

Record NativeRequestClient := { nc_builder : Builder }.
Record NativeRequest := { nr_builder : Builder; nr_body : option string }.
Record NativeResponse := { nresp_status : Z; nresp_body : string }.

(** ** Browser client *)

Record BrowserRequestClient := {
  bc_url : string;
  bc_headers : list (string * string);
  bc_method : option string
}.
Record BrowserRequest := {
  br_url : string;
  br_headers : list (string * string);
  br_method : option string;
  br_body : option string
}.
(** A [web_sys::Response]: the status and the pending text promise. *)
Record BrowserResponse := { bresp_status : Z; bresp_text : string }.

Section Transports.
  Context {W B0 : Type} `{SB : Serialize B0} `{DE : Deserialize MeilisearchError}.
  Variable network : WireRequest -> io W Error RawResponse.
  Variable VERSION : option string.

#[local] Instance native_client : RequestClient W B0 NativeRequestClient NativeRequest NativeResponse := {
    rc_new u := {| nc_builder := builder_new u |};
    with_authorization_header c v := {| nc_builder := builder_add_header (nc_builder c) ("Authorization", v) |};
    with_user_agent_header c v := {| nc_builder := builder_add_header (nc_builder c) ("User-Agent", v) |};
    with_method c m := {| nc_builder := builder_set_method (nc_builder c) m |};
    add_body Q c m ct :=
      match method_body m with
      | Some b => {| nr_builder := builder_add_header (nc_builder c) ("Content-Type", ct);
                     nr_body := Some (to_string b) |}
      | None => {| nr_builder := nc_builder c; nr_body := None |}
      end;
    send_request r := fun w =>
      match network {| wr_method := default GET (b_method (nr_builder r));
                       wr_url := b_url (nr_builder r);
                       wr_headers := b_headers (nr_builder r);
                       wr_body := nr_body r |} w with
      | (Ok raw, w') => (Ok {| nresp_status := rr_status raw; nresp_body := rr_body raw |}, w')
      | (Err e, w') => (Err e, w')
      end;
    extract_status_code r := nresp_status r;
    response_to_text r := io_ret (nresp_body r)
  }.

#[local] Instance browser_client : RequestClient W B0 BrowserRequestClient BrowserRequest BrowserResponse := {
    rc_new u := {| bc_url := u; bc_headers := []; bc_method := None |};
    with_authorization_header c v :=
      {| bc_url := bc_url c; bc_headers := bc_headers c ++ [("Authorization", v)]; bc_method := bc_method c |};
    with_user_agent_header c v :=
      {| bc_url := bc_url c; bc_headers := bc_headers c ++ [("User-Agent", v)]; bc_method := bc_method c |};
    with_method c m := {| bc_url := bc_url c; bc_headers := bc_headers c; bc_method := Some (method_as_str m) |};
    add_body Q c m ct :=
      {| br_url := bc_url c;
         br_headers := bc_headers c ++ content_type_header m ct;
         br_method := bc_method c;
         br_body := to_string <$> method_body m |};
    send_request r := fun w =>
      match network {| wr_method := default GET (br_method r ≫= method_of_str);
                       wr_url := br_url r; wr_headers := br_headers r; wr_body := br_body r |} w with
      | (Ok raw, w') => (Ok {| bresp_status := rr_status raw; bresp_text := rr_body raw |}, w')
      | (Err e, w') => (Err e, w')
      end;
    extract_status_code r := bresp_status r;
    response_to_text r := io_ret (bresp_text r)
  }.

Definition native_observe (r : NativeRequest) : WireRequest :=
    {| wr_method := default GET (b_method (nr_builder r)); wr_url := b_url (nr_builder r);
       wr_headers := b_headers (nr_builder r); wr_body := nr_body r |}.

#[local] Instance native_client_laws :
    RequestClientLaws W B0 NativeRequestClient NativeRequest NativeResponse network.
  Proof.
    refine {| rc_view := nc_builder; rc_observe := native_observe |}; try reflexivity.
    - intros Q c m ct. unfold finish, content_type_header; simpl.
      destruct (method_body m); simpl; [reflexivity|by rewrite app_nil_r].
    - intros A r k w. unfold io_bind; simpl. by destruct (network _ w) as [[raw|e] w'].
  Defined.

Definition browser_view (c : BrowserRequestClient) : Builder :=
    {| b_url := bc_url c; b_method := bc_method c ≫= method_of_str; b_headers := bc_headers c |}.
Definition browser_observe (r : BrowserRequest) : WireRequest :=
    {| wr_method := default GET (br_method r ≫= method_of_str); wr_url := br_url r;
       wr_headers := br_headers r; wr_body := br_body r |}.

#[local] Instance browser_client_laws :
    RequestClientLaws W B0 BrowserRequestClient BrowserRequest BrowserResponse network.
  Proof.
    refine {| rc_view := browser_view; rc_observe := browser_observe |}; try reflexivity.
    - intros c m. unfold browser_view; simpl. by rewrite method_of_as_str.
    - intros A r k w. unfold io_bind; simpl. by destruct (network _ w) as [[raw|e] w'].
  Defined.

  (** The compilation target, [cfg(target_arch = "wasm32")]. *)
Inductive TargetArch := NotWasm32 | Wasm32.

  (** The crate's free [request]: the native client off wasm, the browser
      client on wasm, always with [CONTENT_TYPE]. *)
Definition meili_request (arch : TargetArch) {T Q} `{Deserialize T} `{SerializeQuery Q}
      (url : string) (apikey : option string) (method : Method Q B0)
      (expected_status_code : Z) : io W Error T :=
    match arch with
    | NotWasm32 =>
        request (RC:=native_client) VERSION url apikey method CONTENT_TYPE expected_status_code
    | Wasm32 =>
        request (RC:=browser_client) VERSION url apikey method CONTENT_TYPE expected_status_code
    end.

Lemma meili_request_dispatch arch {T Q} `{Deserialize T} `{SerializeQuery Q}
      url apikey (method : Method Q B0) expected w :
    meili_request arch url apikey method expected w
    = dispatch network VERSION url apikey method CONTENT_TYPE expected w.
  Proof.
    destruct arch;
      [apply (request_dispatch_eq network (LAWS:=native_client_laws))
      |apply (request_dispatch_eq network (LAWS:=browser_client_laws))].
  Qed.

End Transports.

(** ** A concrete service

    The world is the log of wire requests the service has received; it
    answers every request with [200] and an empty body. *)
Definition logging_service (wr : WireRequest) : io (list WireRequest) Error RawResponse :=
  fun log => (Ok {| rr_status := 200; rr_body := "" |}, (log ++ [wr])%list).

(** A query type yaup refuses (a nested map, for instance). *)
Inductive NestedQuery := nested_query.
Definition nested_query_serializer : SerializeQuery NestedQuery :=
  fun _ => Err "unsupported value".

Lemma request_query_error_witness :
  yaup_to_string (SerializeQuery:=nested_query_serializer) (query (Get (B:=unit) nested_query))
    = Err "unsupported value"
  /\ request (RC:=native_client (B0:=unit) logging_service) (DE:=fixture_error_decoder) None
       (T:=unit) (H0:=nested_query_serializer) "http://localhost:7700/indexes" None
       (Get nested_query) CONTENT_TYPE 200 []
     = (Err (Yaup "unsupported value"), []).
Proof.
  split; [reflexivity|].
  apply (request_query_error (RC:=native_client (B0:=unit) logging_service) None
           (H0:=nested_query_serializer)); reflexivity.
Defined.

(** One [GET] on the concrete service: one entry in the log, and the
    empty body read as [null] is the unit value. *)
Example meili_request_logs_one_exchange :
  meili_request (DE:=fixture_error_decoder) logging_service (Some "0.21.2") Wasm32
    (T:=unit) "http://localhost:7700/indexes/movies/settings" (Some "masterKey")
    (Delete (B:=unit) tt) 200 []
  = (Ok tt, [{| wr_method := DELETE; wr_url := "http://localhost:7700/indexes/movies/settings";
                wr_headers := [("User-Agent", "Meilisearch Rust (v0.21.2)");
                               ("Authorization", "Bearer masterKey")];
                wr_body := None |}]).
Proof. reflexivity. Qed.
