(* ===== verification/Client.v ===== *)
(** * Client and index handles ([client.rs], [indexes.rs])

    Neither file is among the staged sources.  A [Client] is a host and an
    optional API key; an [Index] is a client and an index uid.  Both are
    plain values: every operation on them is a dispatcher call. *)

From stdpp Require Import base list strings.
From S2P Require Import Prelude.

Record Client := { host : string; api_key : option string }.

(** [Client::get_api_key] *)
Definition get_api_key (c : Client) : option string := api_key c.

Record Index := { index_client : Client; uid : string; index_primary_key : option string }.

(** [Client::index]: a handle, no request is sent. *)
Definition client_index (c : Client) (index_uid : string) : Index :=
  {| index_client := c; uid := index_uid; index_primary_key := None |}.

(** [Client::new(host, api_key)]: the host and the key as given. *)
Definition client_new (host_ : string) (api_key_ : option string) : Client :=
  {| host := host_; api_key := api_key_ |}.
