(* ===== verification/Tasks.v ===== *)
(** * Asynchronous tasks and the task poller ([tasks.rs], [task_info.rs])

    Neither file is among the staged sources: this file follows the
    specification (sections 3, 4.3 and 5).  A task moves
    [Enqueued -> Processing -> Succeeded | Failed | Canceled] on the
    server; the client only observes it.  [wait_loop] is the poller: fetch
    the task, return it when terminal, give up with [Timeout] once the
    elapsed time exceeds the timeout, otherwise sleep [interval] and
    fetch again.  The world carries a clock ([Clock]); the loop runs on
    fuel, and the termination theorem gives the fuel that suffices. *)

From stdpp Require Import base list strings relations pretty.
From Stdlib Require Import ZArith.
From S2P Require Import Prelude Serde Errors Method Request Transports Client.

Open Scope string_scope.
#[local] Set Warnings "-clear-no-such-hyp".

(** ** Task data *)

Inductive TaskStatus := Enqueued | Processing | Succeeded | Failed | Canceled.

#[export] Instance TaskStatus_eq_dec : EqDecision TaskStatus.
Proof. solve_decision. Defined.

Definition is_terminal (s : TaskStatus) : bool :=
  match s with Succeeded | Failed | Canceled => true | Enqueued | Processing => false end.

(** The kind of work, with the details [try_make_index] reads. *)
Inductive TaskType :=
| IndexCreation (primary_key : option string)
| IndexDeletion
| DocumentAdditionOrUpdate
| DocumentDeletion
| SettingsUpdate
| OtherTask.

Record Task := {
  task_uid : nat;
  task_index_uid : option string;
  task_status : TaskStatus;
  task_type : TaskType;
  task_error : option MeilisearchError
}.

(** [TaskInfo]: what a mutating call returns with [202]. *)
Record TaskInfo := {
  ti_task_uid : nat;
  ti_index_uid : option string;
  ti_status : TaskStatus;
  ti_type : TaskType
}.

(** The JSON of a status and of a [TaskInfo] ([rename_all = "camelCase"]). *)
Definition status_of_string (s : string) : option TaskStatus :=
  if String.eqb s "enqueued" then Some Enqueued
  else if String.eqb s "processing" then Some Processing
  else if String.eqb s "succeeded" then Some Succeeded
  else if String.eqb s "failed" then Some Failed
  else if String.eqb s "canceled" then Some Canceled
  else None.

#[export] Instance status_from_json : FromJson TaskStatus :=
  fun j => match j with
           | JString s => match status_of_string s with
                          | Some st => Ok st
                          | None => Err (json_error "unknown variant")
                          end
           | _ => Err (json_error "invalid type: expected a status")
           end.

Definition type_of_string (s : string) : TaskType :=
  if String.eqb s "indexCreation" then IndexCreation None
  else if String.eqb s "indexDeletion" then IndexDeletion
  else if String.eqb s "documentAdditionOrUpdate" then DocumentAdditionOrUpdate
  else if String.eqb s "documentDeletion" then DocumentDeletion
  else if String.eqb s "settingsUpdate" then SettingsUpdate
  else OtherTask.

#[export] Instance taskinfo_from_json : FromJson TaskInfo :=
  fun j => match j with
           | JObject kvs =>
               let? id := req_field kvs "taskUid" in
               let? iu := opt_field kvs "indexUid" in
               let? st := req_field kvs "status" in
               let? ty := req_field (A:=string) kvs "type" in
               Ok {| ti_task_uid := id; ti_index_uid := iu; ti_status := st;
                     ti_type := type_of_string ty |}
           | _ => Err (json_error "invalid type: expected struct TaskInfo")
           end.

(** [derive(Deserialize)] of [Task]; an index creation carries its
    primary key in [details]. *)
Definition task_type_of (ty : string) (details : option json) : TaskType :=
  if String.eqb ty "indexCreation" then
    match details with
    | Some (JObject d) =>
        match opt_field (A:=string) d "primaryKey" with
        | Ok pk => IndexCreation pk
        | Err _ => IndexCreation None
        end
    | _ => IndexCreation None
    end
  else type_of_string ty.

#[export] Instance task_from_json : FromJson Task :=
  fun j => match j with
           | JObject kvs =>
               let? id := req_field kvs "uid" in
               let? iu := opt_field kvs "indexUid" in
               let? st := req_field kvs "status" in
               let? ty := req_field (A:=string) kvs "type" in
               let? det := json_field kvs "details" in
               let? err := opt_field kvs "error" in
               Ok {| task_uid := id; task_index_uid := iu; task_status := st;
                     task_type := task_type_of ty det; task_error := err |}
           | _ => Err (json_error "invalid type: expected enum Task")
           end.

(** ** The server-side life cycle *)

Inductive status_step : TaskStatus -> TaskStatus -> Prop :=
| step_process : status_step Enqueued Processing
| step_succeed : status_step Processing Succeeded
| step_fail : status_step Processing Failed
| step_cancel : status_step Processing Canceled.

Definition status_reachable : TaskStatus -> TaskStatus -> Prop := rtc status_step.

(** ** The poller *)

(** The world's clock, in milliseconds; [sleep_for] is the timer future
    the loop awaits between polls. *)
Class Clock (W : Type) := {
  now : W -> nat;
  sleep_for : nat -> W -> W;
  now_sleep_for d w : now (sleep_for d w) = now w + d
}.

(** Defaults owned by the poller (interval 50 ms, timeout 5 s). *)
Definition DEFAULT_INTERVAL : nat := 50.
Definition DEFAULT_TIMEOUT : nat := 5000.

Section Poller.
  Context {W : Type} `{CK : Clock W}.
  (** Fetching a task by id through the dispatcher. *)
  Variable get_task : nat -> io W Error Task.

Fixpoint wait_loop (fuel : nat) (task_id : nat) (interval timeout start : nat) (w : W)
    : option (result Task Error * W) :=
    match fuel with
    | O => None
    | S fuel' =>
        match get_task task_id w with
        | (Err e, w1) => Some (Err e, w1)
        | (Ok t, w1) =>
            if is_terminal (task_status t) then Some (Ok t, w1)
            else if (timeout <? now w1 - start)%nat then Some (Err Timeout, w1)
            else wait_loop fuel' task_id interval timeout start (sleep_for interval w1)
        end
    end.

  (** [wait_for_completion(task, interval, timeout)]: [None] picks the
      default; the deadline is measured from the clock at the call. *)
Definition wait_for_completion (fuel : nat) (task_id : nat)
      (interval timeout : option nat) (w : W) : option (result Task Error * W) :=
    wait_loop fuel task_id (default DEFAULT_INTERVAL interval)
      (default DEFAULT_TIMEOUT timeout) (now w) w.
End Poller.

(** [Task::try_make_index]: a succeeded index creation becomes a live
    handle on the same client; any other task is handed back. *)
Definition try_make_index (c : Client) (t : Task) : result Index Task :=
  match task_status t, task_type t, task_index_uid t with
  | Succeeded, IndexCreation _, Some index_uid => Ok (client_index c index_uid)
  | _, _, _ => Err t
  end.

(** ** The poller's theorems *)

Section PollerProofs.
  Context {W : Type} `{CK : Clock W}.
  Variable get_task : nat -> io W Error Task.

  (** One turn of the loop, as the three outcomes of a fetch. *)
Lemma wait_loop_S fuel task_id interval timeout start w :
    wait_loop get_task (S fuel) task_id interval timeout start w
    = match get_task task_id w with
      | (Err e, w1) => Some (Err e, w1)
      | (Ok t, w1) =>
          if is_terminal (task_status t) then Some (Ok t, w1)
          else if (timeout <? now w1 - start)%nat then Some (Err Timeout, w1)
          else wait_loop get_task fuel task_id interval timeout start (sleep_for interval w1)
      end.
  Proof. reflexivity. Qed.

  (** More fuel does not change a result once there is one. *)
Lemma wait_loop_fuel_mono fuel fuel' task_id interval timeout start w r :
    wait_loop get_task fuel task_id interval timeout start w = Some r ->
    fuel <= fuel' ->
    wait_loop get_task fuel' task_id interval timeout start w = Some r.
  Proof.
    revert fuel' w. induction fuel as [|f IH]; intros fuel' w H Hle; [discriminate|].
    destruct fuel' as [|f']; [lia|]. rewrite wait_loop_S in *.
    destruct (get_task task_id w) as [[t|e] w1]; [|done].
    destruct (is_terminal _); [done|]. case_match; [done|].
    apply IH; [done|lia].
  Qed.

  (** Safety.  A task the poller returns is in a terminal status. *)
Theorem wait_loop_terminal_gen fuel task_id interval timeout start w t w' :
    wait_loop get_task fuel task_id interval timeout start w = Some (Ok t, w') ->
    is_terminal (task_status t) = true.
  Proof.
    revert w. induction fuel as [|f IH]; intros w H; [discriminate|].
    rewrite wait_loop_S in H.
    destruct (get_task task_id w) as [[t1|e] w1]; [|discriminate].
    destruct (is_terminal (task_status t1)) eqn:Ht; [by injection H as -> _|].
    case_match; [discriminate|]. eauto.
  Qed.

  (** A service that answers every fetch of the task with a task that is
      not finished can only end the loop with [Timeout]. *)
Lemma wait_loop_stuck fuel task_id interval timeout start w r w' :
    (forall w, match get_task task_id w with
               | (Ok t, _) => is_terminal (task_status t) = false
               | (Err _, _) => False
               end) ->
    wait_loop get_task fuel task_id interval timeout start w = Some (r, w') -> r = Err Timeout.
  Proof.
    intros Hs. revert w. induction fuel as [|f IH]; intros w H; [discriminate|].
    rewrite wait_loop_S in H. specialize (Hs w).
    destruct (get_task task_id w) as [[t|e] w1]; [|done].
    rewrite Hs in H. case_match; [by injection H as <-|]. eauto.
  Qed.

  (** Every fetch takes at least [lat_min] and at most [lat_max]
      milliseconds of the world's clock. *)
  Variables lat_min lat_max : nat.
  Hypothesis get_task_latency : forall id w,
    now w + lat_min <= now (snd (get_task id w)) <= now w + lat_max.

Lemma get_task_now id w t w1 :
    get_task id w = (t, w1) -> now w + lat_min <= now w1 <= now w + lat_max.
  Proof. intros Heq. pose proof (get_task_latency id w) as Hl. by rewrite Heq in Hl. Qed.

Lemma wait_loop_progress interval timeout task_id start f w :
    start <= now w ->
    timeout < now w - start + f * (interval + lat_min) ->
    is_Some (wait_loop get_task (S f) task_id interval timeout start w).
  Proof.
    revert w. induction f as [|f IH]; intros w Hs Hb; rewrite wait_loop_S;
      destruct (get_task task_id w) as [[t|e] w1] eqn:Hg; [|by eexists| |by eexists];
      apply get_task_now in Hg; (destruct (is_terminal _); [by eexists|]);
      (destruct (Nat.ltb_spec timeout (now w1 - start)); [by eexists|]).
    - lia.
    - apply IH; rewrite ?now_sleep_for; lia.
  Qed.

  (** Termination.  When every turn of the loop advances the clock
      (a positive interval, or fetches that take time), the poller returns
      within [timeout / (interval + lat_min) + 2] fetches. *)
Theorem wait_loop_terminates_gen fuel task_id interval timeout w :
    0 < interval + lat_min ->
    timeout / (interval + lat_min) + 2 <= fuel ->
    is_Some (wait_loop get_task fuel task_id interval timeout (now w) w).
  Proof.
    intros Hd Hf.
    destruct (wait_loop_progress interval timeout task_id (now w)
                (timeout / (interval + lat_min) + 1) w) as [r Hr].
    - lia.
    - pose proof (Nat.mul_succ_div_gt timeout (interval + lat_min)). nia.
    - exists r. eapply wait_loop_fuel_mono; [exact Hr|lia].
  Qed.

  Hypothesis get_task_no_timeout : forall id w, fst (get_task id w) <> Err Timeout.

Lemma wait_loop_timeout_window f task_id interval timeout start w w' :
    start <= now w -> now w - start <= timeout + interval ->
    wait_loop get_task f task_id interval timeout start w = Some (Err Timeout, w') ->
    timeout < now w' - start <= timeout + interval + lat_max.
  Proof.
    revert w. induction f as [|f IH]; intros w Hs Hb H; [discriminate|].
    rewrite wait_loop_S in H.
    destruct (get_task task_id w) as [[t|e] w1] eqn:Hg.
    - pose proof (get_task_now _ _ _ _ Hg).
      destruct (is_terminal _); [discriminate|].
      destruct (Nat.ltb_spec timeout (now w1 - start)).
      + injection H as <-. lia.
      + apply IH in H; [exact H|rewrite now_sleep_for; lia..].
    - injection H as -> <-. pose proof (get_task_no_timeout task_id w) as Hn.
      by rewrite Hg in Hn.
  Qed.

  (** The timeout fires neither early nor late.  When the poller
      gives up with [Timeout], strictly more than [timeout] has elapsed
      since the call, and at most [timeout + interval + lat_max]. *)
Theorem wait_loop_timeout_gen fuel task_id interval timeout w w' :
    wait_loop get_task fuel task_id interval timeout (now w) w = Some (Err Timeout, w') ->
    timeout < now w' - now w <= timeout + interval + lat_max.
  Proof.
    intros H. apply (wait_loop_timeout_window fuel task_id interval timeout (now w) w w');
      [lia|lia|exact H].
  Qed.
End PollerProofs.

(** ** The poller over the dispatcher *)

Section PollerDispatch.
  Context {W : Type} `{CK : Clock W} `{DE : Deserialize MeilisearchError} `{JC : JsonCodec}.
  Variable network : WireRequest -> io W Error RawResponse.
  Variable VERSION : option string.
  Variable arch : TargetArch.

  (** [Client::get_task]: one [GET {host}/tasks/{uid}] expecting [200]. *)
Definition get_task (c : Client) (task_id : nat) : io W Error Task :=
    meili_request network VERSION arch (B0:=unit) (host c +:+ "/tasks/" +:+ pretty task_id)
      (get_api_key c) (Get tt) 200.

  (** [TaskInfo::wait_for_completion(client, interval, timeout)]. *)
Definition wait_for_task (c : Client) (fuel : nat) (ti : TaskInfo)
      (interval timeout : option nat) (w : W) : option (result Task Error * W) :=
    wait_for_completion (get_task c) fuel (ti_task_uid ti) interval timeout w.

  (** A fetch is one exchange with the network, then [parse_response]. *)
Lemma get_task_network c id : exists wr, forall w,
    get_task c id w
    = match network wr w with
      | (Ok raw, w1) =>
          (parse_response (rr_status raw) 200 (rr_body raw) (host c +:+ "/tasks/" +:+ pretty id), w1)
      | (Err e, w1) => (Err e, w1)
      end.
  Proof.
    eexists. intros w. unfold get_task. rewrite meili_request_dispatch.
    unfold dispatch, wire_request, add_query_parameters; simpl.
    unfold io_bind, io_lift. simpl. reflexivity.
  Qed.

  Variables lat_min lat_max : nat.
  Hypothesis network_latency : forall wr w,
    now w + lat_min <= now (snd (network wr w)) <= now w + lat_max.

Lemma get_task_latency c id w :
    now w + lat_min <= now (snd (get_task c id w)) <= now w + lat_max.
  Proof.
    destruct (get_task_network c id) as [wr Hwr]. rewrite Hwr.
    pose proof (network_latency wr w) as Hl.
    by destruct (network wr w) as [[raw|e] w1].
  Qed.

  Hypothesis network_no_timeout : forall wr w, fst (network wr w) <> Err Timeout.

Lemma get_task_no_timeout c id w : fst (get_task c id w) <> Err Timeout.
  Proof.
    destruct (get_task_network c id) as [wr Hwr]. rewrite Hwr.
    pose proof (network_no_timeout wr w) as Hn.
    destruct (network wr w) as [[raw|e] w1] eqn:E; simpl.
    - apply parse_response_not_timeout.
    - intros [= ->]. simpl in Hn. by apply Hn.
  Qed.

  (** C9: safety.  A task [wait_for_completion] returns, fetched through
      the crate's [request], is in a terminal status: [Enqueued] and
      [Processing] are never handed back as results. *)
Theorem wait_for_task_returns_terminal c fuel ti interval timeout w t w' :
    wait_for_task c fuel ti interval timeout w = Some (Ok t, w') ->
    is_terminal (task_status t) = true.
  Proof. apply wait_loop_terminal_gen. Qed.

  (** C10: termination.  When every round trip to the service takes at
      least [lat_min] ms and the loop advances the clock at each turn
      ([0 < interval + lat_min]), [wait_for_completion] returns (a task,
      an error or [Timeout]) within [timeout / (interval + lat_min) + 2]
      fetches. *)
Theorem wait_for_task_terminates c fuel ti interval timeout w :
    0 < interval + lat_min ->
    timeout / (interval + lat_min) + 2 <= fuel ->
    is_Some (wait_for_task c fuel ti (Some interval) (Some timeout) w).
  Proof.
    intros Hd Hf. apply (wait_loop_terminates_gen (get_task c) lat_min lat_max);
      [apply get_task_latency|done|done].
  Qed.

  (** C11: the timeout fires neither early nor late.  When
      [wait_for_completion] gives up with [Timeout], more than [timeout] ms
      have passed since the call, and at most [timeout + interval + lat_max]. *)
Theorem wait_for_task_timeout_bounds c fuel ti interval timeout w w' :
    wait_for_task c fuel ti (Some interval) (Some timeout) w = Some (Err Timeout, w') ->
    timeout < now w' - now w <= timeout + interval + lat_max.
  Proof.
    apply (wait_loop_timeout_gen (get_task c) lat_min lat_max);
      [apply get_task_latency|apply get_task_no_timeout].
  Qed.
End PollerDispatch.

(** ** A scripted job source

    The spec's fake job source: the [i]-th fetch returns [script i],
    fetches take no time, and the world counts the fetches. *)
Record FakeWorld := { fw_clock : nat; fw_polls : nat }.

#[export] Instance fake_clock : Clock FakeWorld.
Proof.
  refine {| now := fw_clock;
            sleep_for d w := {| fw_clock := fw_clock w + d; fw_polls := fw_polls w |} |}.
  reflexivity.
Defined.

Definition scripted_source (script : nat -> Task) (id : nat) : io FakeWorld Error Task :=
  fun w => (Ok (script (fw_polls w)), {| fw_clock := fw_clock w; fw_polls := S (fw_polls w) |}).

Lemma wait_loop_scripted_gen script id interval timeout start k fuel c p :
  (forall i, i < k -> is_terminal (task_status (script (p + i))) = false) ->
  is_terminal (task_status (script (p + k))) = true ->
  start <= c -> c - start + k * interval <= timeout + interval ->
  k < fuel ->
  wait_loop (scripted_source script) fuel id interval timeout start
    {| fw_clock := c; fw_polls := p |}
  = Some (Ok (script (p + k)), {| fw_clock := c + k * interval; fw_polls := p + S k |}).
Proof.
  revert fuel c p. induction k as [|k IH]; intros fuel c p Hpre Hfin Hs Hb Hf;
    (destruct fuel as [|fuel]; [lia|]); rewrite wait_loop_S; simpl.
  - rewrite Nat.add_0_r in Hfin |- *. rewrite Hfin. do 3 f_equal; lia.
  - pose proof (Hpre 0 ltac:(lia)) as H0. rewrite Nat.add_0_r in H0. rewrite H0.
    destruct (Nat.ltb_spec timeout (c - start)); [lia|].
    rewrite (IH fuel (c + interval) (S p)).
    + do 3 f_equal; first [lia | simpl; lia | f_equal; lia].
    + intros i Hi. replace (S p + i) with (p + S i) by lia. apply Hpre. lia.
    + by replace (S p + k) with (p + S k) by lia.
    + lia.
    + lia.
    + lia.
Qed.

(** The poller on a job that is seen non-terminal [k] times and then
    terminal: with [k * interval <= timeout] it returns the terminal task
    exactly as fetched, after [k + 1] fetches and [k] sleeps. *)
Theorem wait_loop_scripted_src script id interval timeout k fuel c :
  (forall i, i < k -> is_terminal (task_status (script i)) = false) ->
  is_terminal (task_status (script k)) = true ->
  k * interval <= timeout -> k < fuel ->
  wait_loop (scripted_source script) fuel id interval timeout c
    {| fw_clock := c; fw_polls := 0 |}
  = Some (Ok (script k), {| fw_clock := c + k * interval; fw_polls := S k |}).
Proof.
  intros Hpre Hfin Hb Hf.
  apply (wait_loop_scripted_gen script id interval timeout c k fuel c 0); auto with lia.
Qed.

(** With a zero interval and fetches that take no time, a job that
    never reaches a terminal status keeps the poller busy for ever: no
    amount of fuel makes it return.  The timeout alone does not bound the
    loop; it relies on the clock advancing. *)
Theorem wait_loop_zero_interval_src script id timeout fuel c p :
  (forall i, is_terminal (task_status (script i)) = false) ->
  wait_loop (scripted_source script) fuel id 0 timeout c {| fw_clock := c; fw_polls := p |}
  = None.
Proof.
  intros Hnt. revert p. induction fuel as [|f IH]; intros p; [done|].
  rewrite wait_loop_S; simpl. rewrite Hnt.
  destruct (Nat.ltb_spec timeout (c - c)); [lia|].
  rewrite Nat.add_0_r. apply IH.
Qed.

(** Two fetch functions that agree give the same loop. *)
Lemma wait_loop_ext {W} `{Clock W} (g1 g2 : nat -> io W Error Task) fuel id interval timeout start w :
  (forall id w, g1 id w = g2 id w) ->
  wait_loop g1 fuel id interval timeout start w = wait_loop g2 fuel id interval timeout start w.
Proof.
  intros Hg. revert w. induction fuel as [|f IH]; intros w; [done|].
  rewrite !wait_loop_S, Hg. destruct (g2 id w) as [[t|e] w1]; [|done].
  by rewrite IH.
Qed.

(** A service whose [i]-th answer is [200] with body [body i]; answers
    take no time. *)
Definition scripted_network (body : nat -> string) : WireRequest -> io FakeWorld Error RawResponse :=
  fun _ w => (Ok {| rr_status := 200; rr_body := body (fw_polls w) |},
              {| fw_clock := fw_clock w; fw_polls := S (fw_polls w) |}).

Section ScriptedService.
  Context `{DE : Deserialize MeilisearchError} `{JC : JsonCodec}.
  Variable VERSION : option string.
  Variable arch : TargetArch.
  Variable body : nat -> string.
  Variable script : nat -> Task.
  Hypothesis body_decodes : forall i, body i <> "" /\ from_str (body i) = Ok (script i).

Lemma get_task_scripted c id w :
    get_task (scripted_network body) VERSION arch c id w = scripted_source script id w.
  Proof.
    destruct (get_task_network (scripted_network body) VERSION arch c id) as [wr Hwr].
    rewrite Hwr. simpl. rewrite parse_response_ok_branch. unfold effective_body.
    destruct (body_decodes (fw_polls w)) as [Hne Hd].
    apply String.eqb_neq in Hne. by rewrite Hne, Hd.
  Qed.

  (** C12: the spec's scenario, over the dispatcher.  A job the service
      reports non-terminal on the first [k] fetches and terminal on the
      next: with [k * interval <= timeout], [wait_for_completion] returns
      the terminal task exactly as the service sent it, after [k + 1]
      fetches and [k] sleeps, so [k * interval] ms after the call. *)
Theorem wait_for_task_scenario c ti interval timeout k fuel c0 :
    (forall i, i < k -> is_terminal (task_status (script i)) = false) ->
    is_terminal (task_status (script k)) = true ->
    k * interval <= timeout -> k < fuel ->
    wait_for_task (scripted_network body) VERSION arch c fuel ti (Some interval) (Some timeout)
      {| fw_clock := c0; fw_polls := 0 |}
    = Some (Ok (script k), {| fw_clock := c0 + k * interval; fw_polls := S k |}).
  Proof.
    intros Hpre Hfin Hb Hf. unfold wait_for_task, wait_for_completion. simpl.
    rewrite (wait_loop_ext _ (scripted_source script)) by apply get_task_scripted.
    by apply wait_loop_scripted_src.
  Qed.

  (** C13: with a zero interval and a service that answers at once and
      never reports a terminal status, [wait_for_completion] never returns:
      no fuel is enough.  The timeout bounds the loop only when the clock
      advances between checks. *)
Theorem wait_for_task_zero_interval_diverges c ti timeout fuel c0 :
    (forall i, is_terminal (task_status (script i)) = false) ->
    wait_for_task (scripted_network body) VERSION arch c fuel ti (Some 0) (Some timeout)
      {| fw_clock := c0; fw_polls := 0 |} = None.
  Proof.
    intros Hnt. unfold wait_for_task, wait_for_completion. simpl.
    rewrite (wait_loop_ext _ (scripted_source script)) by apply get_task_scripted.
    by apply wait_loop_zero_interval_src.
  Qed.
End ScriptedService.

(** ** [try_make_index] *)

(** A task becomes a live index handle exactly when it is a
    succeeded index creation naming an index; the handle is that index on
    the caller's client.  Any other task is handed back unchanged. *)
Theorem try_make_index_spec c t :
  (forall i, try_make_index c t = Ok i <->
     task_status t = Succeeded /\ (exists pk, task_type t = IndexCreation pk)
     /\ exists u, task_index_uid t = Some u /\ i = client_index c u)
  /\ (forall t', try_make_index c t = Err t' -> t' = t).
Proof.
  unfold try_make_index.
  destruct (task_status t), (task_type t), (task_index_uid t); split; intros;
    naive_solver.
Qed.

(** ** The life cycle *)

Lemma terminal_no_step s s' : is_terminal s = true -> ~ status_step s s'.
Proof. intros Ht Hs. inversion Hs; subst; discriminate. Qed.

Lemma status_step_progress s : is_terminal s = false -> exists s', status_step s s'.
Proof. destruct s; try discriminate; eexists; constructor. Qed.

Lemma reachable_terminal s :
  exists s', status_reachable s s' /\ is_terminal s' = true.
Proof.
  destruct s; [exists Succeeded|exists Succeeded|exists Succeeded|exists Failed|exists Canceled];
    (split; [|reflexivity]); repeat (eapply rtc_l; [constructor|]); apply rtc_refl.
Qed.

(** A terminal status is final (no transition of the life cycle
    leaves it), and from every status the service can still bring the
    task to a terminal one. *)
Theorem task_lifecycle s s' :
  (is_terminal s = true -> status_reachable s s' -> s' = s)
  /\ exists s'', status_reachable s s'' /\ is_terminal s'' = true.
Proof.
  split; [|apply reachable_terminal].
  intros Ht Hr. destruct Hr as [|x y z Hxy]; [done|].
  by apply terminal_no_step in Hxy.
Qed.

(** ** Witnesses *)

Lemma try_make_index_spec_witness :
  try_make_index {| host := "http://localhost:7700"; api_key := None |}
    {| task_uid := 0; task_index_uid := Some "movies"; task_status := Succeeded;
       task_type := IndexCreation None; task_error := None |}
  = Ok (client_index {| host := "http://localhost:7700"; api_key := None |} "movies").
Proof.
  apply (proj1 (try_make_index_spec _ _)). split; [reflexivity|]. split; eauto.
Defined.

Definition demo_task (s : TaskStatus) : Task :=
  {| task_uid := 7; task_index_uid := Some "movies"; task_status := s;
     task_type := DocumentAdditionOrUpdate; task_error := None |}.

(** Enqueued, then Processing, then Succeeded. *)
Definition three_step_script (i : nat) : Task :=
  demo_task (match i with 0 => Enqueued | 1 => Processing | _ => Succeeded end).

Definition stuck_script (_ : nat) : Task := demo_task Processing.

(** A service that writes a task's status as the whole body, and the
    JSON text layer that reads such a body as the task object. *)
Definition status_json (s : string) : json :=
  JObject [("uid", JNumber 7); ("indexUid", JString "movies"); ("status", JString s);
           ("type", JString "documentAdditionOrUpdate")].

Definition fixture_codec : JsonCodec :=
  {| print_json := fun _ => "{}"; parse_json := fun s => Ok (status_json s) |}.
#[local] Existing Instance fixture_codec.

Definition fixture_task_decoder : Deserialize Task := @deserialize_of_json fixture_codec Task _.

Definition three_step_bodies (i : nat) : string :=
  match i with 0 => "enqueued" | 1 => "processing" | _ => "succeeded" end.
Definition stuck_bodies (_ : nat) : string := "processing".

Lemma three_step_bodies_decode :
  forall i, three_step_bodies i <> ""
            /\ from_str (Deserialize:=fixture_task_decoder)
                 (three_step_bodies i) = Ok (three_step_script i).
Proof. intros [|[|i]]; (split; [discriminate|reflexivity]). Qed.

Lemma stuck_bodies_decode :
  forall i, stuck_bodies i <> ""
            /\ from_str (Deserialize:=fixture_task_decoder)
                 (stuck_bodies i) = Ok (stuck_script i).
Proof. intros i. split; [discriminate|reflexivity]. Qed.

Definition demo_client : Client := {| host := "http://localhost:7700"; api_key := Some "masterKey" |}.
Definition demo_info : TaskInfo :=
  {| ti_task_uid := 7; ti_index_uid := Some "movies"; ti_status := Enqueued;
     ti_type := DocumentAdditionOrUpdate |}.

Lemma wait_for_task_returns_terminal_witness :
  wait_for_task (JC:=fixture_codec) (scripted_network three_step_bodies) None NotWasm32
    demo_client 5 demo_info (Some 10) (Some 50) {| fw_clock := 0; fw_polls := 0 |}
  = Some (Ok (demo_task Succeeded), {| fw_clock := 20; fw_polls := 3 |})
  /\ is_terminal (task_status (demo_task Succeeded)) = true.
Proof.
  split; [reflexivity|].
  apply (wait_for_task_returns_terminal (JC:=fixture_codec) (scripted_network three_step_bodies)
           None NotWasm32 demo_client 5 demo_info (Some 10) (Some 50)
           {| fw_clock := 0; fw_polls := 0 |} _ {| fw_clock := 20; fw_polls := 3 |}).
  reflexivity.
Defined.

Lemma scripted_network_latency body :
  forall wr w, now w + 0 <= now (snd (scripted_network body wr w)) <= now w + 0.
Proof. intros; simpl; lia. Qed.

Lemma wait_for_task_terminates_witness :
  (forall wr w, now w + 0 <= now (snd (scripted_network stuck_bodies wr w)) <= now w + 0)
  /\ 0 < 10 + 0 /\ 50 / (10 + 0) + 2 <= 7
  /\ is_Some (wait_for_task (JC:=fixture_codec) (scripted_network stuck_bodies) None Wasm32
                demo_client 7 demo_info (Some 10) (Some 50) {| fw_clock := 0; fw_polls := 0 |}).
Proof.
  split; [intros; simpl; lia|]. split; [lia|]. split; [vm_compute; lia|].
  apply (wait_for_task_terminates (JC:=fixture_codec) (scripted_network stuck_bodies) None Wasm32
           0 0 (scripted_network_latency stuck_bodies)); [lia|vm_compute; lia].
Defined.

Lemma wait_for_task_timeout_bounds_witness :
  (forall wr w, now w + 0 <= now (snd (scripted_network stuck_bodies wr w)) <= now w + 0)
  /\ (forall wr w, fst (scripted_network stuck_bodies wr w) <> Err Timeout)
  /\ wait_for_task (JC:=fixture_codec) (scripted_network stuck_bodies) None NotWasm32
       demo_client 10 demo_info (Some 10) (Some 50) {| fw_clock := 0; fw_polls := 0 |}
     = Some (Err Timeout, {| fw_clock := 60; fw_polls := 7 |})
  /\ 50 < 60 - 0 <= 50 + 10 + 0.
Proof.
  assert (Hn : forall wr w, fst (scripted_network stuck_bodies wr w) <> Err Timeout)
    by (intros; discriminate).
  split; [intros; simpl; lia|]. split; [exact Hn|]. split; [reflexivity|].
  apply (wait_for_task_timeout_bounds (JC:=fixture_codec) (scripted_network stuck_bodies)
           None NotWasm32 0 0 (scripted_network_latency stuck_bodies) Hn demo_client 10 demo_info
           10 50 {| fw_clock := 0; fw_polls := 0 |} {| fw_clock := 60; fw_polls := 7 |}).
  reflexivity.
Defined.

(** The spec's scenario: [Enqueued], [Processing], [Succeeded]; interval
    10 ms, timeout 50 ms: three fetches, 20 ms. *)
Lemma wait_for_task_scenario_witness :
  (forall i, three_step_bodies i <> ""
             /\ from_str (Deserialize:=fixture_task_decoder)
                  (three_step_bodies i) = Ok (three_step_script i))
  /\ (forall i, i < 2 -> is_terminal (task_status (three_step_script i)) = false)
  /\ wait_for_task (JC:=fixture_codec) (scripted_network three_step_bodies) None NotWasm32
       demo_client 5 demo_info (Some 10) (Some 50) {| fw_clock := 0; fw_polls := 0 |}
     = Some (Ok (three_step_script 2), {| fw_clock := 0 + 2 * 10; fw_polls := 3 |}).
Proof.
  assert (Hpre : forall i, i < 2 -> is_terminal (task_status (three_step_script i)) = false)
    by (intros [|[|i]] Hi; [reflexivity|reflexivity|lia]).
  split; [exact three_step_bodies_decode|]. split; [exact Hpre|].
  apply (wait_for_task_scenario (JC:=fixture_codec) None NotWasm32 three_step_bodies
           three_step_script three_step_bodies_decode demo_client demo_info 10 50 2 5 0 Hpre);
    [reflexivity|lia|lia].
Defined.

Lemma wait_for_task_zero_interval_diverges_witness :
  (forall i, stuck_bodies i <> ""
             /\ from_str (Deserialize:=fixture_task_decoder)
                  (stuck_bodies i) = Ok (stuck_script i))
  /\ (forall i, is_terminal (task_status (stuck_script i)) = false)
  /\ wait_for_task (JC:=fixture_codec) (scripted_network stuck_bodies) None NotWasm32
       demo_client 1000 demo_info (Some 0) (Some 5000) {| fw_clock := 0; fw_polls := 0 |} = None.
Proof.
  assert (Hnt : forall i, is_terminal (task_status (stuck_script i)) = false) by reflexivity.
  split; [exact stuck_bodies_decode|]. split; [exact Hnt|].
  by apply (wait_for_task_zero_interval_diverges (JC:=fixture_codec) None NotWasm32 stuck_bodies
              stuck_script stuck_bodies_decode).
Defined.
