(* ===== verification/Concurrency.v ===== *)
(** * Concurrent pollers (specification, section 5)

    [wait_for_completion] is an [async fn]: the compiler turns it into a
    state machine whose states are its suspension points, awaiting the
    fetch of the task ([Fetching]) and awaiting the [interval] timer
    ([Sleeping], the timer firing at the time it was created plus
    [interval]), and the returned value ([Finished]).  Several such
    futures may run on one executor, interleaved at their suspension
    points; they share the world (the service and its clock) and nothing
    else.  [poller_step] is one resumption of one poller; a configuration
    is the list of pollers and the world, [sys_step] the interleaving
    (any poller resumes, or any other code runs and the clock does not go
    back), [run_schedule] an executable interleaving given by the indices
    of the pollers to resume.  The file shows that the machine run alone
    is [wait_loop], that under every interleaving a returned task is
    terminal, a [Timeout] never comes early by the poller's own clock
    and a result never changes once returned, and that a poller never
    fetches more often than [timeout / (interval + lat_min) + 2] times,
    whatever the other pollers do. *)

From stdpp Require Import base list relations strings.
From S2P Require Import Prelude Serde Errors Method Request Transports Client Tasks.

(** ** The poller as a state machine *)

Inductive Phase :=
| Fetching
| Sleeping (wake : nat)
| Finished (r : result Task Error).

(** The future of one [wait_for_completion] call: its arguments, the
    clock at the call, and where it is suspended. *)
Record Poller := {
  p_task : nat;
  p_interval : nat;
  p_timeout : nat;
  p_start : nat;
  p_phase : Phase
}.

Definition with_phase (p : Poller) (ph : Phase) : Poller :=
  {| p_task := p_task p; p_interval := p_interval p; p_timeout := p_timeout p;
     p_start := p_start p; p_phase := ph |}.

Definition poller_result (p : Poller) : option (result Task Error) :=
  match p_phase p with Finished r => Some r | _ => None end.

Definition is_fetching (p : Poller) : bool :=
  match p_phase p with Fetching => true | _ => false end.

Section Machine.
  Context {W : Type} `{CK : Clock W}.
  Variable get_task : nat -> io W Error Task.

  (** The future created by [wait_for_completion(task, interval,
      timeout)]: the defaults applied, the clock read at the call. *)
Definition poller_new (task_id : nat) (interval timeout : option nat) (w : W) : Poller :=
    {| p_task := task_id; p_interval := default DEFAULT_INTERVAL interval;
       p_timeout := default DEFAULT_TIMEOUT timeout; p_start := now w; p_phase := Fetching |}.

  (** One resumption: the fetch and its three outcomes (the body of
      [wait_loop]), or the timer firing, or nothing once returned. *)
Definition poller_step (p : Poller) (w : W) : Poller * W :=
    match p_phase p with
    | Fetching =>
        match get_task (p_task p) w with
        | (Err e, w1) => (with_phase p (Finished (Err e)), w1)
        | (Ok t, w1) =>
            if is_terminal (task_status t) then (with_phase p (Finished (Ok t)), w1)
            else if (p_timeout p <? now w1 - p_start p)%nat
            then (with_phase p (Finished (Err Timeout)), w1)
            else (with_phase p (Sleeping (now w1 + p_interval p)), w1)
        end
    | Sleeping wake => (with_phase p Fetching, sleep_for (wake - now w) w)
    | Finished _ => (p, w)
    end.

  (** [n] resumptions of a poller alone on the executor. *)
Fixpoint run_poller (n : nat) (p : Poller) (w : W) : Poller * W :=
    match n with
    | O => (p, w)
    | S n' => let '(p', w') := poller_step p w in run_poller n' p' w'
    end.

  (** One resumption of the poller at index [i]; an index without a
      poller leaves everything as it is. *)
Definition sys_step_at (i : nat) (ps : list Poller) (w : W) : list Poller * W :=
    match ps !! i with
    | Some p => let '(p', w') := poller_step p w in (<[i := p']> ps, w')
    | None => (ps, w)
    end.

Fixpoint run_schedule (sched : list nat) (ps : list Poller) (w : W) : list Poller * W :=
    match sched with
    | [] => (ps, w)
    | i :: s => let '(ps', w') := sys_step_at i ps w in run_schedule s ps' w'
    end.

  (** The [GET /tasks/{uid}] requests the poller [j] sends along a
      schedule. *)
Fixpoint fetch_count (j : nat) (sched : list nat) (ps : list Poller) (w : W) : nat :=
    match sched with
    | [] => 0
    | i :: s =>
        let '(ps', w') := sys_step_at i ps w in
        (if decide (i = j) then (if (is_fetching <$> ps !! j) is Some true then 1 else 0) else 0)
        + fetch_count j s ps' w'
    end.

  (** The interleaving: a poller resumes, or other code runs and moves
      the world on without turning the clock back. *)
Inductive sys_step : list Poller * W -> list Poller * W -> Prop :=
  | step_poller i p ps w p' w' :
      ps !! i = Some p -> poller_step p w = (p', w') ->
      sys_step (ps, w) (<[i := p']> ps, w')
  | step_other ps w w' :
      now w <= now w' -> sys_step (ps, w) (ps, w').
End Machine.

(** ** Alone, the machine is [wait_loop] *)

Section Alone.
  Context {W : Type} `{CK : Clock W}.
  Variable get_task : nat -> io W Error Task.

  (** The poller about to fetch, with [wait_loop]'s arguments. *)
Definition poller_at (task_id interval timeout start : nat) : Poller :=
    {| p_task := task_id; p_interval := interval; p_timeout := timeout; p_start := start;
       p_phase := Fetching |}.

Lemma run_poller_finished n p w r :
    p_phase p = Finished r -> run_poller get_task n p w = (p, w).
  Proof. intros Hp. induction n as [|n IH]; [done|]. simpl. unfold poller_step. by rewrite Hp. Qed.

  (** A fetch that neither returns nor times out, then the timer: the
      world after the two resumptions is [wait_loop]'s next world. *)
Lemma run_poller_sleep n id i t s w1 :
    run_poller get_task (S n) (with_phase (poller_at id i t s) (Sleeping (now w1 + i))) w1
    = run_poller get_task n (poller_at id i t s) (sleep_for i w1).
  Proof. simpl. by rewrite Nat.add_sub'. Qed.

Lemma machine_to_loop n : forall id i t s w p w' r,
    run_poller get_task n (poller_at id i t s) w = (p, w') -> p_phase p = Finished r ->
    wait_loop get_task n id i t s w = Some (r, w').
  Proof.
    induction n as [n IH] using lt_wf_ind. intros id i t s w p w' r Hrun Hp.
    destruct n as [|m]; [injection Hrun as <- _; discriminate Hp|].
    rewrite wait_loop_S. simpl in Hrun. unfold poller_step in Hrun; simpl in Hrun.
    destruct (get_task id w) as [[tk|e] w1].
    2: { erewrite run_poller_finished in Hrun by reflexivity. injection Hrun as <- <-.
         by injection Hp as <-. }
    destruct (is_terminal (task_status tk)).
    { erewrite run_poller_finished in Hrun by reflexivity. injection Hrun as <- <-.
      by injection Hp as <-. }
    destruct (t <? now w1 - s)%nat.
    { erewrite run_poller_finished in Hrun by reflexivity. injection Hrun as <- <-.
      by injection Hp as <-. }
    destruct m as [|k]; [injection Hrun as <- _; discriminate Hp|].
    rewrite (run_poller_sleep k id i t s w1) in Hrun.
    eapply wait_loop_fuel_mono; [eapply (IH k); [lia|exact Hrun|exact Hp]|lia].
  Qed.

Lemma loop_to_machine fuel : forall id i t s w r w',
    wait_loop get_task fuel id i t s w = Some (r, w') ->
    exists n p, run_poller get_task n (poller_at id i t s) w = (p, w') /\ p_phase p = Finished r.
  Proof.
    induction fuel as [|f IH]; intros id i t s w r w' H; [discriminate|].
    rewrite wait_loop_S in H. destruct (get_task id w) as [[tk|e] w1] eqn:Hg.
    - destruct (is_terminal (task_status tk)) eqn:Ht.
      { injection H as <- <-. exists 1. eexists. simpl. unfold poller_step. simpl.
        rewrite Hg, Ht. by split. }
      destruct (t <? now w1 - s)%nat eqn:Hto.
      { injection H as <- <-. exists 1. eexists. simpl. unfold poller_step. simpl.
        rewrite Hg, Ht, Hto. by split. }
      destruct (IH _ _ _ _ _ _ _ H) as (n & p & Hrun & Hp). exists (S (S n)), p.
      split; [|exact Hp]. rewrite <- Hrun, <- run_poller_sleep. simpl.
      unfold poller_step at 1. simpl. by rewrite Hg, Ht, Hto.
    - injection H as <- <-. exists 1. eexists. simpl. unfold poller_step. simpl.
      rewrite Hg. by split.
  Qed.
End Alone.

Lemma poller_result_finished p r : poller_result p = Some r <-> p_phase p = Finished r.
Proof. unfold poller_result. destruct (p_phase p); split; congruence. Qed.

(** ** Every interleaving is safe *)

Section Interleaving.
  Context {W : Type} `{CK : Clock W}.
  Variable get_task : nat -> io W Error Task.
  (** Every fetch takes at least [lat_min] of the world's clock (at
      least nothing: the clock never goes back). *)
  Variable lat_min : nat.
  Hypothesis get_task_latency : forall id w, now w + lat_min <= now (snd (get_task id w)).
  (** The dispatcher never reports a [Timeout] of its own (the crate's
      [get_task] does not: [Tasks.get_task_no_timeout]). *)
  Hypothesis get_task_no_timeout : forall id w, fst (get_task id w) <> Err Timeout.

  (** What a poller promises at any time: it started in the past, a
      returned task is terminal, a [Timeout] came after more than
      [timeout] of its own clock. *)
Definition poller_inv (p : Poller) (w : W) : Prop :=
    p_start p <= now w /\
    match p_phase p with
    | Finished (Ok t) => is_terminal (task_status t) = true
    | Finished (Err Timeout) => p_timeout p < now w - p_start p
    | _ => True
    end.

Lemma poller_step_fields p w :
    let p' := fst (poller_step get_task p w) in
    p_task p' = p_task p /\ p_interval p' = p_interval p /\ p_timeout p' = p_timeout p
    /\ p_start p' = p_start p.
  Proof. unfold poller_step. repeat case_match; simplify_eq/=; done. Qed.

Lemma poller_step_clock p w : now w <= now (snd (poller_step get_task p w)).
  Proof.
    unfold poller_step. destruct (p_phase p); simpl; [|rewrite now_sleep_for; lia|lia].
    pose proof (get_task_latency (p_task p) w).
    destruct (get_task (p_task p) w) as [[t|e] w1]; simpl in *; [|lia].
    repeat case_match; simpl; lia.
  Qed.

Lemma poller_inv_mono p w w' : now w <= now w' -> poller_inv p w -> poller_inv p w'.
  Proof. unfold poller_inv. intros Hw [Hs Hp]. split; [lia|]. by repeat case_match; try lia. Qed.

Lemma poller_step_inv p w : poller_inv p w -> poller_inv (fst (poller_step get_task p w)) (snd (poller_step get_task p w)).
  Proof.
    intros Hi. pose proof (poller_inv_mono p _ _ (poller_step_clock p w) Hi) as [Hs Hp].
    revert Hs Hp. unfold poller_inv, poller_step. pose proof (get_task_no_timeout (p_task p) w).
    destruct (p_phase p) as [|wake|r]; simpl; [|done|done].
    destruct (get_task (p_task p) w) as [[t|e] w1] eqn:Hg; simpl in *.
    - destruct (is_terminal _) eqn:Ht; [done|].
      destruct (Nat.ltb_spec (p_timeout p) (now w1 - p_start p)); done.
    - intros Hs _. split; [done|]. by destruct e.
  Qed.

  (** The step of one poller leaves every other poller as it was. *)
Lemma sys_step_other_poller c c' j :
    sys_step get_task c c' ->
    c'.1 !! j = c.1 !! j \/ exists p, c.1 !! j = Some p /\ c'.1 !! j = Some (fst (poller_step get_task p c.2))
                                     /\ c'.2 = snd (poller_step get_task p c.2).
  Proof.
    destruct 1 as [i p ps w p' w' Hi Hs|]; [|by left]. simpl.
    destruct (decide (i = j)) as [<-|Hne]; [|left; by rewrite list_lookup_insert_ne].
    right. exists p. rewrite Hs. split; [done|]. split; [|done].
    rewrite list_lookup_insert_eq; [done|]. by eapply lookup_lt_Some.
  Qed.

Lemma sys_step_clock c c' : sys_step get_task c c' -> now c.2 <= now c'.2.
  Proof.
    destruct 1 as [i p ps w p' w' Hi Hs|]; simpl; [|done].
    pose proof (poller_step_clock p w) as H. by rewrite Hs in H.
  Qed.

Definition sys_inv (c : list Poller * W) : Prop := Forall (fun p => poller_inv p c.2) c.1.

Lemma sys_step_inv c c' : sys_step get_task c c' -> sys_inv c -> sys_inv c'.
  Proof.
    intros Hstep Hc. pose proof (sys_step_clock _ _ Hstep) as Hclk.
    unfold sys_inv in *. apply Forall_lookup. intros j p' Hj.
    destruct (sys_step_other_poller _ _ j Hstep) as [Heq|(p & Hp & Hp' & Hw)].
    - rewrite Heq in Hj. apply (poller_inv_mono p' c.2); [done|]. exact (Forall_lookup_1 _ _ _ _ Hc Hj).
    - rewrite Hp' in Hj. injection Hj as <-. rewrite Hw.
      apply poller_step_inv. exact (Forall_lookup_1 _ _ _ _ Hc Hp).
  Qed.

Lemma reachable_inv c c' : rtc (sys_step get_task) c c' -> sys_inv c -> sys_inv c'.
  Proof. induction 1; eauto using sys_step_inv. Qed.

  (** A returned poller is not resumed again: its result stays. *)
Lemma reachable_result_stable c c' j p r :
    rtc (sys_step get_task) c c' -> c.1 !! j = Some p -> p_phase p = Finished r ->
    exists p', c'.1 !! j = Some p' /\ p_phase p' = Finished r.
  Proof.
    intros H. revert p. induction H as [c|c c1 c' Hs _ IH]; intros p Hj Hp; [by exists p|].
    destruct (sys_step_other_poller _ _ j Hs) as [Heq|(q & Hq & Hq' & _)].
    - apply (IH p); [by rewrite Heq|done].
    - rewrite Hj in Hq. injection Hq as <-. apply (IH _ Hq').
      unfold poller_step. by rewrite Hp.
  Qed.

Lemma run_schedule_reachable sched ps w :
    rtc (sys_step get_task) (ps, w) (run_schedule get_task sched ps w).
  Proof.
    revert ps w. induction sched as [|i s IH]; intros ps w; simpl; [done|].
    unfold sys_step_at. destruct (ps !! i) as [p|] eqn:Hi; [|apply IH].
    destruct (poller_step get_task p w) as [p' w'] eqn:Hs.
    eapply rtc_l; [by eapply step_poller|apply IH].
  Qed.
End Interleaving.

(** ** Every poller stays within its own budget of fetches *)

(** The fetches still possible when the next fetch starts at [next]:
    [(deadline - next) / d + 2] before the deadline, one after it. *)
Definition budget_at_time (deadline d next : nat) : nat :=
  if (next <=? deadline)%nat then (deadline - next) / d + 2 else 1.

Lemma budget_at_time_antitone deadline d t t' :
  t <= t' -> budget_at_time deadline d t' <= budget_at_time deadline d t.
Proof.
  unfold budget_at_time. intros Ht.
  destruct (Nat.leb_spec t deadline), (Nat.leb_spec t' deadline); try lia.
  apply Nat.add_le_mono_r, Nat.Div0.div_le_mono; lia.
Qed.

(** A fetch before the deadline that does not end the poller pushes its
    next fetch [d] later, and spends one unit of the budget. *)
Lemma budget_at_time_fetch deadline d t t' :
  0 < d -> t <= deadline -> t + d <= t' ->
  budget_at_time deadline d t' + 1 <= budget_at_time deadline d t.
Proof.
  unfold budget_at_time. intros Hd Ht Ht'.
  destruct (Nat.leb_spec t deadline), (Nat.leb_spec t' deadline); try lia.
  assert ((deadline - t' + 1 * d) / d <= (deadline - t) / d) by (apply Nat.Div0.div_le_mono; lia).
  rewrite Nat.div_add in H1 by lia. lia.
Qed.

Section Budget.
  Context {W : Type} `{CK : Clock W}.
  Variable get_task : nat -> io W Error Task.
  Variable lat_min : nat.
  Hypothesis get_task_latency : forall id w, now w + lat_min <= now (snd (get_task id w)).

Definition fetch_budget (p : Poller) (w : W) : nat :=
    let d := p_interval p + lat_min in
    match p_phase p with
    | Finished _ => 0
    | Fetching => budget_at_time (p_start p + p_timeout p) d (now w)
    | Sleeping wake => budget_at_time (p_start p + p_timeout p) d (wake `max` now w)
    end.

Lemma fetch_budget_mono p w w' : now w <= now w' -> fetch_budget p w' <= fetch_budget p w.
  Proof. intros Hw. unfold fetch_budget. destruct (p_phase p); [| |done]; apply budget_at_time_antitone; lia. Qed.

Lemma fetch_budget_step p w :
    0 < p_interval p + lat_min ->
    fetch_budget (fst (poller_step get_task p w)) (snd (poller_step get_task p w))
    + (if is_fetching p then 1 else 0) <= fetch_budget p w.
  Proof.
    intros Hd. unfold fetch_budget, poller_step, is_fetching.
    destruct (p_phase p) as [|wake|r] eqn:Hph; simpl; [|rewrite now_sleep_for;
      replace (now w + (wake - now w)) with (wake `max` now w) by lia; lia|rewrite Hph; lia].
    pose proof (get_task_latency (p_task p) w).
    assert (1 <= budget_at_time (p_start p + p_timeout p) (p_interval p + lat_min) (now w))
      by (unfold budget_at_time; case_match; lia).
    destruct (get_task (p_task p) w) as [[t|e] w1]; simpl in *; [|lia].
    destruct (is_terminal _); simpl; [lia|].
    destruct (Nat.ltb_spec (p_timeout p) (now w1 - p_start p)); simpl; [lia|].
    destruct (Nat.leb_spec (now w) (p_start p + p_timeout p)).
    - apply budget_at_time_fetch; lia.
    - unfold budget_at_time. repeat case_match; lia.
  Qed.

Definition budget_of (j : nat) (ps : list Poller) (w : W) : nat :=
    match ps !! j with Some p => fetch_budget p w | None => 0 end.

Lemma fetch_count_budget j i0 sched :
    0 < i0 + lat_min ->
    forall ps w, (forall p, ps !! j = Some p -> p_interval p = i0) ->
    fetch_count get_task j sched ps w
    + budget_of j (run_schedule get_task sched ps w).1 (run_schedule get_task sched ps w).2
    <= budget_of j ps w.
  Proof.
    intros Hd. induction sched as [|i s IH]; intros ps w Hint; simpl; [lia|].
    unfold sys_step_at. destruct (ps !! i) as [p|] eqn:Hi.
    2: { destruct (decide (i = j)) as [->|]; [rewrite Hi; simpl|]; by apply IH. }
    pose proof (poller_step_clock get_task lat_min get_task_latency p w) as Hclk.
    destruct (poller_step get_task p w) as [p' w'] eqn:Hs. simpl in Hclk.
    pose proof (poller_step_fields get_task p w) as Hf. rewrite Hs in Hf. simpl in Hf.
    assert (Hint' : forall q, <[i:=p']> ps !! j = Some q -> p_interval q = i0).
    { intros q Hq. destruct (decide (i = j)) as [->|Hne].
      - rewrite list_lookup_insert_eq in Hq by (by eapply lookup_lt_Some). injection Hq as <-.
        rewrite (proj1 (proj2 Hf)). by apply Hint.
      - rewrite list_lookup_insert_ne in Hq by done. by apply Hint. }
    specialize (IH (<[i:=p']> ps) w' Hint'). unfold budget_of in *.
    destruct (decide (i = j)) as [->|Hne].
    - rewrite list_lookup_insert_eq in IH by (by eapply lookup_lt_Some). rewrite Hi in *.
      pose proof (fetch_budget_step p w) as Hb. rewrite Hs in Hb. simpl in Hb.
      rewrite (Hint p eq_refl) in Hb. specialize (Hb Hd). simpl. destruct (is_fetching p); lia.
    - rewrite list_lookup_insert_ne in IH by done.
      destruct (ps !! j) as [q|]; [|lia]. pose proof (fetch_budget_mono q w w' Hclk). lia.
  Qed.
End Budget.

(** ** The three results for any fetch *)

(** For any fetch, alone, the machine and the loop agree. *)
Lemma poller_machine_equiv_gen {W} `{Clock W} (get_task : nat -> io W Error Task)
    id interval timeout (w : W) r w' :
  (exists n p, run_poller get_task n (poller_new id interval timeout w) w = (p, w')
               /\ poller_result p = Some r)
  <-> (exists fuel, wait_for_completion get_task fuel id interval timeout w = Some (r, w')).
Proof.
  unfold wait_for_completion. split.
  - intros (n & p & Hrun & Hp). exists n. apply poller_result_finished in Hp.
    exact (machine_to_loop get_task n _ _ _ _ _ _ _ _ Hrun Hp).
  - intros (fuel & Hw). destruct (loop_to_machine get_task _ _ _ _ _ _ _ _ Hw) as (n & p & Hrun & Hp).
    exists n, p. split; [exact Hrun|by apply poller_result_finished].
Qed.

(** For any fetch whose clock does not go back: the invariant and the
    stability of results. *)
Lemma interleaved_pollers_safe_gen {W} `{Clock W} (get_task : nat -> io W Error Task)
    (ps : list Poller) (w : W) ps' w' :
  (forall id w, now w <= now (snd (get_task id w))) ->
  (forall id w, fst (get_task id w) <> Err Timeout) ->
  Forall (fun p => p_phase p = Fetching /\ p_start p <= now w) ps ->
  rtc (sys_step get_task) (ps, w) (ps', w') ->
  Forall (fun p => poller_inv p w') ps'
  /\ (forall j p r c, ps' !! j = Some p -> poller_result p = Some r ->
      rtc (sys_step get_task) (ps', w') c ->
      exists p', c.1 !! j = Some p' /\ poller_result p' = Some r).
Proof.
  intros Hmono Hnt Hfresh Hreach.
  assert (Hlat : forall id w, now w + 0 <= now (snd (get_task id w))) by (intros; rewrite Nat.add_0_r; apply Hmono).
  split.
  - apply (reachable_inv get_task 0 Hlat Hnt _ _ Hreach). unfold sys_inv. simpl.
    eapply Forall_impl; [exact Hfresh|]. intros p [Hph Hs]. unfold poller_inv. by rewrite Hph.
  - intros j p r c Hj Hp Hc. apply poller_result_finished in Hp.
    destruct (reachable_result_stable get_task _ _ _ _ _ Hc Hj Hp) as (p' & Hp' & Hr).
    exists p'. split; [exact Hp'|by apply poller_result_finished].
Qed.

(** For any fetch taking at least [lat_min]: the bound on fetches. *)
Lemma interleaved_poller_fetches_gen {W} `{Clock W} (get_task : nat -> io W Error Task) lat_min
    (sched : list nat) (ps : list Poller) (w : W) j p :
  (forall id w, now w + lat_min <= now (snd (get_task id w))) ->
  ps !! j = Some p -> p_phase p = Fetching -> p_start p <= now w ->
  0 < p_interval p + lat_min ->
  fetch_count get_task j sched ps w <= p_timeout p / (p_interval p + lat_min) + 2.
Proof.
  intros Hlat Hj Hph Hs Hd.
  assert (Hb : fetch_count get_task j sched ps w
               + budget_of lat_min j (run_schedule get_task sched ps w).1 (run_schedule get_task sched ps w).2
               <= budget_of lat_min j ps w).
  { apply (fetch_count_budget get_task lat_min Hlat j (p_interval p) sched Hd ps w).
    intros q Hq. rewrite Hj in Hq. by injection Hq as <-. }
  unfold budget_of at 2 in Hb. rewrite Hj in Hb. unfold fetch_budget, budget_at_time in Hb.
  rewrite Hph in Hb. destruct (Nat.leb_spec (now w) (p_start p + p_timeout p)); [|lia].
  assert ((p_start p + p_timeout p - now w) / (p_interval p + lat_min)
          <= p_timeout p / (p_interval p + lat_min)) by (apply Nat.Div0.div_le_mono; lia).
  lia.
Qed.

(** ** The pollers of the crate *)

Section CratePollers.
  Context {W : Type} `{CK : Clock W} `{DE : Deserialize MeilisearchError} `{JC : JsonCodec}.
  Variable network : WireRequest -> io W Error RawResponse.
  Variable VERSION : option string.
  Variable arch : TargetArch.

Lemma get_task_clock lat_min c id w :
    (forall wr w, now w + lat_min <= now (snd (network wr w))) ->
    now w + lat_min <= now (snd (get_task network VERSION arch c id w)).
  Proof.
    intros Hn. destruct (get_task_network network VERSION arch c id) as [wr Hwr]. rewrite Hwr.
    specialize (Hn wr w). by destruct (network wr w) as [[raw|e] w1].
  Qed.

  (** C14: the state machine of [wait_for_completion] refines the loop.
      Resumed alone, the future created by [task.wait_for_completion(&client,
      interval, timeout)], fetching through the crate's [request], returns
      [r] and leaves the world [w'] after some number of resumptions
      exactly when [wait_for_task] (the loop), with some fuel, does: the
      suspension points at the fetch and at the timer add nothing and lose
      nothing. *)
Theorem poller_machine_equiv c ti interval timeout (w : W) r w' :
    (exists n p, run_poller (get_task network VERSION arch c) n
                   (poller_new (ti_task_uid ti) interval timeout w) w = (p, w')
                 /\ poller_result p = Some r)
    <-> (exists fuel, wait_for_task network VERSION arch c fuel ti interval timeout w = Some (r, w')).
  Proof. apply poller_machine_equiv_gen. Qed.

  (** C15: concurrent pollers are safe.  Pollers of the crate's tasks
      created at or before [w], on one executor with any other code,
      interleaved in any order, over a network whose exchanges neither
      turn the clock back nor report a [Timeout]: in every reachable
      configuration each poller started in the past, a task it returned
      is terminal, and a [Timeout] it returned came after more than its
      [timeout] measured from its own start; and a result, once returned,
      stays the poller's result in every later configuration. *)
Theorem interleaved_pollers_safe c (ps : list Poller) (w : W) ps' w' :
    (forall wr w, now w <= now (snd (network wr w))) ->
    (forall wr w, fst (network wr w) <> Err Timeout) ->
    Forall (fun p => p_phase p = Fetching /\ p_start p <= now w) ps ->
    rtc (sys_step (get_task network VERSION arch c)) (ps, w) (ps', w') ->
    Forall (fun p => poller_inv p w') ps'
    /\ (forall j p r c', ps' !! j = Some p -> poller_result p = Some r ->
        rtc (sys_step (get_task network VERSION arch c)) (ps', w') c' ->
        exists p', c'.1 !! j = Some p' /\ poller_result p' = Some r).
  Proof.
    intros Hmono Hnt. apply interleaved_pollers_safe_gen.
    - intros id w0. pose proof (get_task_clock 0 c id w0) as H. rewrite Nat.add_0_r in H.
      apply H. intros wr w1. rewrite Nat.add_0_r. apply Hmono.
    - apply (get_task_no_timeout network VERSION arch Hnt c).
  Qed.

  (** C16: every poller is timed on its own.  Over a network whose
      exchanges take at least [lat_min], with [interval + lat_min > 0], a
      poller of the crate about to fetch, created at or before [w], sends
      at most [timeout / (interval + lat_min) + 2] requests
      [GET /tasks/{uid}] along any schedule of the pollers around it: the
      bound of the poller alone (C10), which the others' fetches and
      timers never raise. *)
Theorem interleaved_poller_fetches c lat_min (sched : list nat) (ps : list Poller) (w : W) j p :
    (forall wr w, now w + lat_min <= now (snd (network wr w))) ->
    ps !! j = Some p -> p_phase p = Fetching -> p_start p <= now w ->
    0 < p_interval p + lat_min ->
    fetch_count (get_task network VERSION arch c) j sched ps w
    <= p_timeout p / (p_interval p + lat_min) + 2.
  Proof.
    intros Hn. apply interleaved_poller_fetches_gen.
    intros id w0. by apply get_task_clock.
  Qed.
End CratePollers.

(** ** Witnesses *)

(** Two pollers of tasks that never finish (interval 10 ms, timeout
    50 ms), over the scripted service of [Tasks.v] whose answers take no
    time, resumed alternately. *)
#[local] Existing Instance fixture_codec.

Definition stuck_pollers : list Poller :=
  [poller_at 7 10 50 0; poller_at 8 10 50 0].

Definition alternate (n : nat) : list nat := concat (replicate n [0; 1]).

Definition stuck_run (n : nat) : list Poller * FakeWorld :=
  run_schedule (get_task (JC:=fixture_codec) (scripted_network stuck_bodies) None NotWasm32 demo_client)
    (alternate n) stuck_pollers {| fw_clock := 0; fw_polls := 0 |}.

Lemma scripted_network_clock body : forall wr w, now w + 0 <= now (snd (scripted_network body wr w)).
Proof. intros; simpl; lia. Qed.

Lemma scripted_network_no_timeout body : forall wr w, fst (scripted_network body wr w) <> Err Timeout.
Proof. intros; discriminate. Qed.

Lemma poller_machine_equiv_witness :
  let w := {| fw_clock := 0; fw_polls := 0 |} in
  (exists n p, run_poller (get_task (JC:=fixture_codec) (scripted_network three_step_bodies) None NotWasm32
                             demo_client) n (poller_new 7 (Some 10) (Some 50) w) w
               = (p, {| fw_clock := 20; fw_polls := 3 |})
               /\ poller_result p = Some (Ok (three_step_script 2)))
  /\ exists fuel, wait_for_task (JC:=fixture_codec) (scripted_network three_step_bodies) None NotWasm32
                    demo_client fuel demo_info (Some 10) (Some 50) w
                  = Some (Ok (three_step_script 2), {| fw_clock := 20; fw_polls := 3 |}).
Proof.
  split; [exists 5; eexists; split; reflexivity|].
  apply (poller_machine_equiv (JC:=fixture_codec) (scripted_network three_step_bodies) None NotWasm32
           demo_client demo_info (Some 10) (Some 50)).
  exists 5; eexists; split; reflexivity.
Defined.

Lemma interleaved_pollers_safe_witness :
  Forall (fun p => poller_inv p (stuck_run 8).2) (stuck_run 8).1.
Proof.
  pose proof (run_schedule_reachable (get_task (JC:=fixture_codec) (scripted_network stuck_bodies) None
                NotWasm32 demo_client) (alternate 8) stuck_pollers {| fw_clock := 0; fw_polls := 0 |}) as Hr.
  fold (stuck_run 8) in Hr. destruct (stuck_run 8) as [ps' w'] eqn:Hc. simpl.
  apply (proj1 (interleaved_pollers_safe (JC:=fixture_codec) (scripted_network stuck_bodies) None NotWasm32
                  demo_client stuck_pollers {| fw_clock := 0; fw_polls := 0 |} ps' w'
                  (fun wr w => eq_ind _ (fun n => n <= _) (scripted_network_clock _ wr w) _ (Nat.add_0_r _))
                  (scripted_network_no_timeout _) ltac:(repeat constructor) Hr)).
Defined.

Lemma interleaved_poller_fetches_witness :
  fetch_count (get_task (JC:=fixture_codec) (scripted_network stuck_bodies) None NotWasm32 demo_client)
    0 (alternate 20) stuck_pollers {| fw_clock := 0; fw_polls := 0 |} <= 50 / (10 + 0) + 2.
Proof.
  apply (interleaved_poller_fetches (JC:=fixture_codec) (scripted_network stuck_bodies) None NotWasm32
           demo_client 0 (alternate 20) stuck_pollers {| fw_clock := 0; fw_polls := 0 |} 0
           (poller_at 7 10 50 0));
    [apply scripted_network_clock|reflexivity|reflexivity|simpl; lia|simpl; lia].
Defined.
