(* ===== verification/Settings.v ===== *)
(** * Index settings ([settings.rs])

    [Settings] is a record of optional fields built with [with_*]
    builders; serde's derive ([rename_all = "camelCase"],
    [skip_serializing_if = "Option::is_none"]) decides its JSON.  The
    [Index] methods [get_*], [set_*] and [reset_*] are one dispatcher call
    each: [GET] expecting [200], [PUT] or [PATCH] expecting [202],
    [DELETE] expecting [202], on [{host}/indexes/{uid}/settings/...]. *)

From stdpp Require Import base list strings gmap fin_maps.
From Stdlib Require Import ZArith.
From S2P Require Import Prelude Serde Errors Method Request Transports Client Tasks.

Open Scope string_scope.
#[local] Set Warnings "-clear-no-such-hyp".

(** ** Data *)

Record PaginationSetting := { max_total_hits : nat }.
Record FacetingSettings := { max_values_per_facet : nat }.

Record Settings := {
  synonyms : option (gmap string (list string));
  stop_words : option (list string);
  ranking_rules : option (list string);
  filterable_attributes : option (list string);
  sortable_attributes : option (list string);
  distinct_attribute : option string;
  searchable_attributes : option (list string);
  displayed_attributes : option (list string);
  pagination : option PaginationSetting;
  faceting : option FacetingSettings
}.

(** ** Builders *)

(** [Settings::new] *)
Definition settings_new : Settings :=
  {| synonyms := None; stop_words := None; ranking_rules := None;
     filterable_attributes := None; sortable_attributes := None;
     distinct_attribute := None; searchable_attributes := None;
     displayed_attributes := None; pagination := None; faceting := None |}.

Definition with_synonyms (self : Settings) (syn : gmap string (list string)) : Settings :=
  {| synonyms := Some syn; stop_words := stop_words self; ranking_rules := ranking_rules self;
     filterable_attributes := filterable_attributes self;
     sortable_attributes := sortable_attributes self;
     distinct_attribute := distinct_attribute self;
     searchable_attributes := searchable_attributes self;
     displayed_attributes := displayed_attributes self;
     pagination := pagination self; faceting := faceting self |}.

Definition with_stop_words (self : Settings) (l : list string) : Settings :=
  {| synonyms := synonyms self; stop_words := Some l; ranking_rules := ranking_rules self;
     filterable_attributes := filterable_attributes self;
     sortable_attributes := sortable_attributes self;
     distinct_attribute := distinct_attribute self;
     searchable_attributes := searchable_attributes self;
     displayed_attributes := displayed_attributes self;
     pagination := pagination self; faceting := faceting self |}.

Definition with_pagination (self : Settings) (p : PaginationSetting) : Settings :=
  {| synonyms := synonyms self; stop_words := stop_words self; ranking_rules := ranking_rules self;
     filterable_attributes := filterable_attributes self;
     sortable_attributes := sortable_attributes self;
     distinct_attribute := distinct_attribute self;
     searchable_attributes := searchable_attributes self;
     displayed_attributes := displayed_attributes self;
     pagination := Some p; faceting := faceting self |}.

Definition with_ranking_rules (self : Settings) (l : list string) : Settings :=
  {| synonyms := synonyms self; stop_words := stop_words self; ranking_rules := Some l;
     filterable_attributes := filterable_attributes self;
     sortable_attributes := sortable_attributes self;
     distinct_attribute := distinct_attribute self;
     searchable_attributes := searchable_attributes self;
     displayed_attributes := displayed_attributes self;
     pagination := pagination self; faceting := faceting self |}.

Definition with_filterable_attributes (self : Settings) (l : list string) : Settings :=
  {| synonyms := synonyms self; stop_words := stop_words self; ranking_rules := ranking_rules self;
     filterable_attributes := Some l;
     sortable_attributes := sortable_attributes self;
     distinct_attribute := distinct_attribute self;
     searchable_attributes := searchable_attributes self;
     displayed_attributes := displayed_attributes self;
     pagination := pagination self; faceting := faceting self |}.

Definition with_sortable_attributes (self : Settings) (l : list string) : Settings :=
  {| synonyms := synonyms self; stop_words := stop_words self; ranking_rules := ranking_rules self;
     filterable_attributes := filterable_attributes self;
     sortable_attributes := Some l;
     distinct_attribute := distinct_attribute self;
     searchable_attributes := searchable_attributes self;
     displayed_attributes := displayed_attributes self;
     pagination := pagination self; faceting := faceting self |}.

Definition with_distinct_attribute (self : Settings) (d : string) : Settings :=
  {| synonyms := synonyms self; stop_words := stop_words self; ranking_rules := ranking_rules self;
     filterable_attributes := filterable_attributes self;
     sortable_attributes := sortable_attributes self;
     distinct_attribute := Some d;
     searchable_attributes := searchable_attributes self;
     displayed_attributes := displayed_attributes self;
     pagination := pagination self; faceting := faceting self |}.

Definition with_searchable_attributes (self : Settings) (l : list string) : Settings :=
  {| synonyms := synonyms self; stop_words := stop_words self; ranking_rules := ranking_rules self;
     filterable_attributes := filterable_attributes self;
     sortable_attributes := sortable_attributes self;
     distinct_attribute := distinct_attribute self;
     searchable_attributes := Some l;
     displayed_attributes := displayed_attributes self;
     pagination := pagination self; faceting := faceting self |}.

Definition with_displayed_attributes (self : Settings) (l : list string) : Settings :=
  {| synonyms := synonyms self; stop_words := stop_words self; ranking_rules := ranking_rules self;
     filterable_attributes := filterable_attributes self;
     sortable_attributes := sortable_attributes self;
     distinct_attribute := distinct_attribute self;
     searchable_attributes := searchable_attributes self;
     displayed_attributes := Some l;
     pagination := pagination self; faceting := faceting self |}.

(** [with_faceting] takes a reference and clones it. *)
Definition with_faceting (self : Settings) (f : FacetingSettings) : Settings :=
  {| synonyms := synonyms self; stop_words := stop_words self; ranking_rules := ranking_rules self;
     filterable_attributes := filterable_attributes self;
     sortable_attributes := sortable_attributes self;
     distinct_attribute := distinct_attribute self;
     searchable_attributes := searchable_attributes self;
     displayed_attributes := displayed_attributes self;
     pagination := pagination self; faceting := Some f |}.

(** ** JSON, as serde's derive writes and reads it *)

#[export] Instance pagination_to_json : ToJson PaginationSetting :=
  fun p => JObject [("maxTotalHits", to_json (max_total_hits p))].
#[export] Instance pagination_from_json : FromJson PaginationSetting :=
  fun j => match j with
           | JObject kvs => let? n := req_field kvs "maxTotalHits" in Ok {| max_total_hits := n |}
           | _ => Err (json_error "invalid type: expected struct PaginationSetting")
           end.

#[export] Instance faceting_to_json : ToJson FacetingSettings :=
  fun f => JObject [("maxValuesPerFacet", to_json (max_values_per_facet f))].
#[export] Instance faceting_from_json : FromJson FacetingSettings :=
  fun j => match j with
           | JObject kvs => let? n := req_field kvs "maxValuesPerFacet" in
                            Ok {| max_values_per_facet := n |}
           | _ => Err (json_error "invalid type: expected struct FacetingSettings")
           end.

(** [HashMap<String, Vec<String>>]: an object; reading inserts the
    entries in order, so a repeated key keeps its last value. *)
#[export] Instance synonyms_to_json : ToJson (gmap string (list string)) :=
  fun m => JObject (map (fun kv => (kv.1, to_json kv.2)) (map_to_list m)).

Fixpoint decode_synonym_entries (kvs : list (string * json))
  : result (list (string * list string)) JsonError :=
  match kvs with
  | [] => Ok []
  | (k, j) :: kvs' => let? v := from_json (A:=list string) j in
                      let? rest := decode_synonym_entries kvs' in Ok ((k, v) :: rest)
  end.

Definition insert_all (l : list (string * list string)) : gmap string (list string) :=
  foldl (fun m kv => <[kv.1:=kv.2]> m) ∅ l.

#[export] Instance synonyms_from_json : FromJson (gmap string (list string)) :=
  fun j => match j with
           | JObject kvs => let? l := decode_synonym_entries kvs in Ok (insert_all l)
           | _ => Err (json_error "invalid type: expected a map")
           end.

(** The object [Settings] serializes to: the fields that are set, in
    declaration order, under their camelCase names. *)
Definition settings_entries (s : Settings) : list (string * json) :=
  opt_entry "synonyms" (synonyms s)
  ++ opt_entry "stopWords" (stop_words s)
  ++ opt_entry "rankingRules" (ranking_rules s)
  ++ opt_entry "filterableAttributes" (filterable_attributes s)
  ++ opt_entry "sortableAttributes" (sortable_attributes s)
  ++ opt_entry "distinctAttribute" (distinct_attribute s)
  ++ opt_entry "searchableAttributes" (searchable_attributes s)
  ++ opt_entry "displayedAttributes" (displayed_attributes s)
  ++ opt_entry "pagination" (pagination s)
  ++ opt_entry "faceting" (faceting s).

#[export] Instance settings_to_json : ToJson Settings := fun s => JObject (settings_entries s).

#[export] Instance settings_from_json : FromJson Settings :=
  fun j => match j with
           | JObject kvs =>
               let? syn := opt_field kvs "synonyms" in
               let? sw := opt_field kvs "stopWords" in
               let? rr := opt_field kvs "rankingRules" in
               let? fa := opt_field kvs "filterableAttributes" in
               let? sa := opt_field kvs "sortableAttributes" in
               let? da := opt_field kvs "distinctAttribute" in
               let? sea := opt_field kvs "searchableAttributes" in
               let? dia := opt_field kvs "displayedAttributes" in
               let? pg := opt_field kvs "pagination" in
               let? fc := opt_field kvs "faceting" in
               Ok {| synonyms := syn; stop_words := sw; ranking_rules := rr;
                     filterable_attributes := fa; sortable_attributes := sa;
                     distinct_attribute := da; searchable_attributes := sea;
                     displayed_attributes := dia; pagination := pg; faceting := fc |}
           | _ => Err (json_error "invalid type: expected struct Settings")
           end.

(** ** JSON round trip *)

Lemma pagination_json_roundtrip (p : PaginationSetting) : json_roundtrip p.
Proof.
  destruct p as [n]. unfold json_roundtrip, from_json, pagination_from_json, to_json at 1.
  unfold pagination_to_json. simpl. by rewrite req_field_single by apply nat_json_roundtrip.
Qed.

Lemma faceting_json_roundtrip (f : FacetingSettings) : json_roundtrip f.
Proof.
  destruct f as [n]. unfold json_roundtrip, from_json, faceting_from_json, to_json at 1.
  unfold faceting_to_json. simpl. by rewrite req_field_single by apply nat_json_roundtrip.
Qed.

Lemma decode_synonym_entries_map (l : list (string * list string)) :
  decode_synonym_entries (map (fun kv => (kv.1, to_json kv.2)) l) = Ok l.
Proof.
  induction l as [|[k v] l IH]; simpl; [done|].
  by rewrite (list_string_json_roundtrip v), IH.
Qed.

Lemma foldl_insert_union (l : list (string * list string)) (m0 : gmap string (list string)) :
  NoDup l.*1 -> (forall k, k ∈ l.*1 -> m0 !! k = None) ->
  foldl (fun m kv => <[kv.1:=kv.2]> m) m0 l = list_to_map l ∪ m0.
Proof.
  revert m0. induction l as [|[k v] l IH]; intros m0 Hnd Hfresh; simpl.
  - by rewrite map_empty_union.
  - apply NoDup_cons in Hnd as [Hk Hnd].
    rewrite IH; [|done|].
    + rewrite <- insert_union_l, insert_union_r; [done|].
      by apply not_elem_of_list_to_map_1.
    + intros k' Hk'. rewrite lookup_insert_ne; [apply Hfresh; set_solver|].
      intros ->. done.
Qed.

Lemma insert_all_map_to_list (m : gmap string (list string)) :
  insert_all (map_to_list m) = m.
Proof.
  unfold insert_all. rewrite foldl_insert_union.
  - by rewrite map_union_empty, list_to_map_to_list.
  - apply NoDup_fst_map_to_list.
  - intros k _. apply lookup_empty.
Qed.

Lemma synonyms_json_roundtrip (m : gmap string (list string)) : json_roundtrip m.
Proof.
  unfold json_roundtrip, from_json, synonyms_from_json, to_json at 1, synonyms_to_json.
  rewrite decode_synonym_entries_map. cbn [result_bind]. by rewrite insert_all_map_to_list.
Qed.

#[export] Hint Resolve pagination_json_roundtrip faceting_json_roundtrip
  synonyms_json_roundtrip : meili.

(** Reading one field back from the entries of a settings object. *)
Ltac settings_field :=
  erewrite opt_field_of_filter;
    [| unfold settings_entries; rewrite ?filter_app, ?filter_opt_entry; simpl;
       by rewrite ?app_nil_r
     | intros ? _; split; [discriminate | auto with meili]].

(** C17: JSON round trip of [Settings]: what serde writes for a settings
    value (only its set fields, under camelCase names) reads back as the
    same value. *)
Theorem settings_json_roundtrip (s : Settings) :
  from_json (to_json s) = Ok s.
Proof.
  unfold from_json at 1, settings_from_json, to_json at 1, settings_to_json.
  do 10 settings_field. by destruct s.
Qed.

(** ** The builders as updates *)

(** One builder call with its argument. *)
Inductive SettingsUpdate :=
| SetSynonyms (m : gmap string (list string))
| SetStopWords (l : list string)
| SetPagination (p : PaginationSetting)
| SetRankingRules (l : list string)
| SetFilterableAttributes (l : list string)
| SetSortableAttributes (l : list string)
| SetDistinctAttribute (d : string)
| SetSearchableAttributes (l : list string)
| SetDisplayedAttributes (l : list string)
| SetFaceting (f : FacetingSettings).

Definition apply_update (s : Settings) (u : SettingsUpdate) : Settings :=
  match u with
  | SetSynonyms m => with_synonyms s m
  | SetStopWords l => with_stop_words s l
  | SetPagination p => with_pagination s p
  | SetRankingRules l => with_ranking_rules s l
  | SetFilterableAttributes l => with_filterable_attributes s l
  | SetSortableAttributes l => with_sortable_attributes s l
  | SetDistinctAttribute d => with_distinct_attribute s d
  | SetSearchableAttributes l => with_searchable_attributes s l
  | SetDisplayedAttributes l => with_displayed_attributes s l
  | SetFaceting f => with_faceting s f
  end.

(** The JSON key an update writes, and the value it writes there. *)
Definition update_key (u : SettingsUpdate) : string :=
  match u with
  | SetSynonyms _ => "synonyms" | SetStopWords _ => "stopWords"
  | SetPagination _ => "pagination" | SetRankingRules _ => "rankingRules"
  | SetFilterableAttributes _ => "filterableAttributes"
  | SetSortableAttributes _ => "sortableAttributes"
  | SetDistinctAttribute _ => "distinctAttribute"
  | SetSearchableAttributes _ => "searchableAttributes"
  | SetDisplayedAttributes _ => "displayedAttributes"
  | SetFaceting _ => "faceting"
  end.

Definition update_value (u : SettingsUpdate) : json :=
  match u with
  | SetSynonyms m => to_json m | SetStopWords l => to_json l
  | SetPagination p => to_json p | SetRankingRules l => to_json l
  | SetFilterableAttributes l => to_json l | SetSortableAttributes l => to_json l
  | SetDistinctAttribute d => to_json d | SetSearchableAttributes l => to_json l
  | SetDisplayedAttributes l => to_json l | SetFaceting f => to_json f
  end.

(** The three ways the documentation of [Settings] builds the same value:
    the builder, a [mut] binding assigned field by field, and struct update
    syntax over [Settings::new()]. *)
Definition settings_doc_builder : Settings :=
  with_stop_words settings_new ["a"; "the"; "of"].

Definition settings_doc_assign : Settings :=
  let stop_words := ["a"; "the"; "of"] in
  let settings := settings_new in
  {| synonyms := synonyms settings; stop_words := Some stop_words;
     ranking_rules := ranking_rules settings;
     filterable_attributes := filterable_attributes settings;
     sortable_attributes := sortable_attributes settings;
     distinct_attribute := distinct_attribute settings;
     searchable_attributes := searchable_attributes settings;
     displayed_attributes := displayed_attributes settings;
     pagination := pagination settings; faceting := faceting settings |}.

Definition settings_doc_struct_update : Settings :=
  let stop_words := ["a"; "the"; "of"] in
  {| stop_words := Some stop_words;
     synonyms := synonyms settings_new; ranking_rules := ranking_rules settings_new;
     filterable_attributes := filterable_attributes settings_new;
     sortable_attributes := sortable_attributes settings_new;
     distinct_attribute := distinct_attribute settings_new;
     searchable_attributes := searchable_attributes settings_new;
     displayed_attributes := displayed_attributes settings_new;
     pagination := pagination settings_new; faceting := faceting settings_new |}.

(** C18: the builders.  Builders of different fields commute, and of two
    builders of the same field the later one wins; [Settings::new]
    serializes to the empty object and each builder applied to it sets
    exactly its own field, the object having that one camelCase key with
    the builder's argument; and the three constructions of the
    documentation of [Settings] build the same value, which serializes to
    [{"stopWords": ["a", "the", "of"]}]. *)
Theorem settings_builders (s : Settings) (u1 u2 u : SettingsUpdate) :
  (update_key u1 <> update_key u2 ->
   apply_update (apply_update s u1) u2 = apply_update (apply_update s u2) u1)
  /\ (update_key u1 = update_key u2 ->
      apply_update (apply_update s u1) u2 = apply_update s u2)
  /\ to_json settings_new = JObject []
  /\ to_json (apply_update settings_new u) = JObject [(update_key u, update_value u)]
  /\ settings_doc_builder = settings_doc_assign
  /\ settings_doc_assign = settings_doc_struct_update
  /\ to_json settings_doc_builder
     = JObject [("stopWords", JArray [JString "a"; JString "the"; JString "of"])].
Proof.
  split_and!; try reflexivity.
  - destruct u1, u2; intros H; simpl in H; (done || reflexivity).
  - destruct u1, u2; intros H; simpl in H; (done || reflexivity).
  - by destruct u.
Qed.

(** ** The settings routes of an index *)

Section Facades.
  Context {W : Type} `{DE : Deserialize MeilisearchError} `{JC : JsonCodec}.
  Variable network : WireRequest -> io W Error RawResponse.
  Variable VERSION : option string.
  Variable arch : TargetArch.

  (** [format!("{}/indexes/{}/settings...", self.client.host, self.uid)] *)
Definition settings_url (idx : Index) (route : string) : string :=
    host (index_client idx) +:+ "/indexes/" +:+ uid idx +:+ "/settings" +:+ route.


Definition get_settings (idx : Index) : io W Error Settings :=
    meili_request network VERSION arch (B0:=unit) (settings_url idx "")
      (get_api_key (index_client idx)) (Get tt) 200.

Definition get_synonyms (idx : Index) : io W Error (gmap string (list string)) :=
    meili_request network VERSION arch (B0:=unit) (settings_url idx "/synonyms")
      (get_api_key (index_client idx)) (Get tt) 200.

Definition get_pagination (idx : Index) : io W Error PaginationSetting :=
    meili_request network VERSION arch (B0:=unit) (settings_url idx "/pagination")
      (get_api_key (index_client idx)) (Get tt) 200.

Definition get_stop_words (idx : Index) : io W Error (list string) :=
    meili_request network VERSION arch (B0:=unit) (settings_url idx "/stop-words")
      (get_api_key (index_client idx)) (Get tt) 200.

Definition get_ranking_rules (idx : Index) : io W Error (list string) :=
    meili_request network VERSION arch (B0:=unit) (settings_url idx "/ranking-rules")
      (get_api_key (index_client idx)) (Get tt) 200.

Definition get_filterable_attributes (idx : Index) : io W Error (list string) :=
    meili_request network VERSION arch (B0:=unit) (settings_url idx "/filterable-attributes")
      (get_api_key (index_client idx)) (Get tt) 200.

Definition get_sortable_attributes (idx : Index) : io W Error (list string) :=
    meili_request network VERSION arch (B0:=unit) (settings_url idx "/sortable-attributes")
      (get_api_key (index_client idx)) (Get tt) 200.

Definition get_distinct_attribute (idx : Index) : io W Error (option string) :=
    meili_request network VERSION arch (B0:=unit) (settings_url idx "/distinct-attribute")
      (get_api_key (index_client idx)) (Get tt) 200.

Definition get_searchable_attributes (idx : Index) : io W Error (list string) :=
    meili_request network VERSION arch (B0:=unit) (settings_url idx "/searchable-attributes")
      (get_api_key (index_client idx)) (Get tt) 200.

Definition get_displayed_attributes (idx : Index) : io W Error (list string) :=
    meili_request network VERSION arch (B0:=unit) (settings_url idx "/displayed-attributes")
      (get_api_key (index_client idx)) (Get tt) 200.

Definition get_faceting (idx : Index) : io W Error FacetingSettings :=
    meili_request network VERSION arch (B0:=unit) (settings_url idx "/faceting")
      (get_api_key (index_client idx)) (Get tt) 200.

Definition set_settings (idx : Index) (body : Settings) : io W Error TaskInfo :=
    meili_request network VERSION arch (settings_url idx "")
      (get_api_key (index_client idx)) (Patch tt body) 202.

Definition set_synonyms (idx : Index) (body : (gmap string (list string))) : io W Error TaskInfo :=
    meili_request network VERSION arch (settings_url idx "/synonyms")
      (get_api_key (index_client idx)) (Put tt body) 202.

Definition set_pagination (idx : Index) (body : PaginationSetting) : io W Error TaskInfo :=
    meili_request network VERSION arch (settings_url idx "/pagination")
      (get_api_key (index_client idx)) (Patch tt body) 202.

Definition set_stop_words (idx : Index) (body : (list string)) : io W Error TaskInfo :=
    meili_request network VERSION arch (settings_url idx "/stop-words")
      (get_api_key (index_client idx)) (Put tt body) 202.

Definition set_ranking_rules (idx : Index) (body : (list string)) : io W Error TaskInfo :=
    meili_request network VERSION arch (settings_url idx "/ranking-rules")
      (get_api_key (index_client idx)) (Put tt body) 202.

Definition set_filterable_attributes (idx : Index) (body : (list string)) : io W Error TaskInfo :=
    meili_request network VERSION arch (settings_url idx "/filterable-attributes")
      (get_api_key (index_client idx)) (Put tt body) 202.

Definition set_sortable_attributes (idx : Index) (body : (list string)) : io W Error TaskInfo :=
    meili_request network VERSION arch (settings_url idx "/sortable-attributes")
      (get_api_key (index_client idx)) (Put tt body) 202.

Definition set_distinct_attribute (idx : Index) (body : string) : io W Error TaskInfo :=
    meili_request network VERSION arch (settings_url idx "/distinct-attribute")
      (get_api_key (index_client idx)) (Put tt body) 202.

Definition set_searchable_attributes (idx : Index) (body : (list string)) : io W Error TaskInfo :=
    meili_request network VERSION arch (settings_url idx "/searchable-attributes")
      (get_api_key (index_client idx)) (Put tt body) 202.

Definition set_displayed_attributes (idx : Index) (body : (list string)) : io W Error TaskInfo :=
    meili_request network VERSION arch (settings_url idx "/displayed-attributes")
      (get_api_key (index_client idx)) (Put tt body) 202.

Definition set_faceting (idx : Index) (body : FacetingSettings) : io W Error TaskInfo :=
    meili_request network VERSION arch (settings_url idx "/faceting")
      (get_api_key (index_client idx)) (Patch tt body) 202.

Definition reset_settings (idx : Index) : io W Error TaskInfo :=
    meili_request network VERSION arch (B0:=unit) (settings_url idx "")
      (get_api_key (index_client idx)) (Delete tt) 202.

Definition reset_synonyms (idx : Index) : io W Error TaskInfo :=
    meili_request network VERSION arch (B0:=unit) (settings_url idx "/synonyms")
      (get_api_key (index_client idx)) (Delete tt) 202.

Definition reset_pagination (idx : Index) : io W Error TaskInfo :=
    meili_request network VERSION arch (B0:=unit) (settings_url idx "/pagination")
      (get_api_key (index_client idx)) (Delete tt) 202.

Definition reset_stop_words (idx : Index) : io W Error TaskInfo :=
    meili_request network VERSION arch (B0:=unit) (settings_url idx "/stop-words")
      (get_api_key (index_client idx)) (Delete tt) 202.

Definition reset_ranking_rules (idx : Index) : io W Error TaskInfo :=
    meili_request network VERSION arch (B0:=unit) (settings_url idx "/ranking-rules")
      (get_api_key (index_client idx)) (Delete tt) 202.

Definition reset_filterable_attributes (idx : Index) : io W Error TaskInfo :=
    meili_request network VERSION arch (B0:=unit) (settings_url idx "/filterable-attributes")
      (get_api_key (index_client idx)) (Delete tt) 202.

Definition reset_sortable_attributes (idx : Index) : io W Error TaskInfo :=
    meili_request network VERSION arch (B0:=unit) (settings_url idx "/sortable-attributes")
      (get_api_key (index_client idx)) (Delete tt) 202.

Definition reset_distinct_attribute (idx : Index) : io W Error TaskInfo :=
    meili_request network VERSION arch (B0:=unit) (settings_url idx "/distinct-attribute")
      (get_api_key (index_client idx)) (Delete tt) 202.

Definition reset_searchable_attributes (idx : Index) : io W Error TaskInfo :=
    meili_request network VERSION arch (B0:=unit) (settings_url idx "/searchable-attributes")
      (get_api_key (index_client idx)) (Delete tt) 202.

Definition reset_displayed_attributes (idx : Index) : io W Error TaskInfo :=
    meili_request network VERSION arch (B0:=unit) (settings_url idx "/displayed-attributes")
      (get_api_key (index_client idx)) (Delete tt) 202.

Definition reset_faceting (idx : Index) : io W Error TaskInfo :=
    meili_request network VERSION arch (B0:=unit) (settings_url idx "/faceting")
      (get_api_key (index_client idx)) (Delete tt) 202.


End Facades.

(** ** Witnesses *)

Lemma settings_builders_witness :
  (update_key (SetStopWords ["the"]) <> update_key (SetDistinctAttribute "id")
   /\ apply_update (apply_update settings_new (SetStopWords ["the"])) (SetDistinctAttribute "id")
      = apply_update (apply_update settings_new (SetDistinctAttribute "id")) (SetStopWords ["the"]))
  /\ (update_key (SetStopWords ["a"]) = update_key (SetStopWords ["the"])
      /\ apply_update (apply_update settings_new (SetStopWords ["a"])) (SetStopWords ["the"])
         = apply_update settings_new (SetStopWords ["the"])).
Proof.
  split; split; [discriminate| |reflexivity|].
  - apply (settings_builders settings_new (SetStopWords ["the"]) (SetDistinctAttribute "id")
             (SetStopWords [])).
    discriminate.
  - apply (settings_builders settings_new (SetStopWords ["a"]) (SetStopWords ["the"])
             (SetStopWords [])).
    reflexivity.
Defined.
