(* ===== verification/SettingsService.v ===== *)
(** * Settings against a storing service

    The settings facades of [settings.rs] write a value with [PUT] or
    [PATCH] on a route and read it back with [GET] on the same route.
    Against a service that stores, per URL, the JSON value last written
    there (the behaviour the tests of [settings.rs] expect from the
    engine), this file proves that each [set_*] followed by the matching
    [get_*] returns the value written, for every JSON text layer that
    reads back what it writes.  The service is an environment of the
    proofs, not a model of the engine's settings logic. *)

From stdpp Require Import base list strings gmap.
From Stdlib Require Import ZArith.
From S2P Require Import Prelude Serde Errors Method Request Transports Client Tasks Settings.

Open Scope string_scope.

(** The service's state: the JSON stored per URL and the next task uid. *)
Record Store := { st_values : gmap string json; st_next_uid : nat }.

(** The [202] answer to a write: an enqueued settings update. *)
Definition accepted_task_json (n : nat) : json :=
  JObject [("taskUid", JNumber (Z.of_nat n)); ("status", JString "enqueued");
           ("type", JString "settingsUpdate")].

Definition write_verb (m : HttpMethod) : bool :=
  match m with PUT | PATCH => true | _ => false end.

Section StoringService.
  Context `{JC : JsonCodec}.

  (** [GET] answers the stored value; [PUT] and [PATCH] store the body's
      value and answer [202] with a task; anything else is refused. *)
Definition storing_service (wr : WireRequest) : io Store Error RawResponse :=
    fun st =>
      if write_verb (wr_method wr) then
        match wr_body wr with
        | Some b =>
            match parse_json b with
            | Ok j =>
                (Ok {| rr_status := 202; rr_body := print_json (accepted_task_json (st_next_uid st)) |},
                 {| st_values := <[wr_url wr := j]> (st_values st); st_next_uid := S (st_next_uid st) |})
            | Err _ => (Ok {| rr_status := 400; rr_body := "" |}, st)
            end
        | None => (Ok {| rr_status := 400; rr_body := "" |}, st)
        end
      else if bool_decide (wr_method wr = GET) then
        match st_values st !! wr_url wr with
        | Some j => (Ok {| rr_status := 200; rr_body := print_json j |}, st)
        | None => (Ok {| rr_status := 404; rr_body := "" |}, st)
        end
      else (Ok {| rr_status := 405; rr_body := "" |}, st).
End StoringService.

(** [set] of [v] succeeds and a later [get] returns [w]. *)
Definition writes_then_reads {A B} (set : A -> io Store Error TaskInfo) (get : io Store Error B)
    (v : A) (w : B) (st : Store) : Prop :=
  match set v st with
  | (Ok _, st1) => fst (get st1) = Ok w
  | (Err _, _) => False
  end.

Section RoundTrip.
  Context `{JC : JsonCodec} `{LAWS : !JsonCodecLaws} `{DE : Deserialize MeilisearchError}.
  Variable VERSION : option string.
  Variable arch : TargetArch.

Lemma from_str_print {A} `{FromJson A} (j : json) :
    from_str (A:=A) (effective_body (print_json j)) = from_json j.
  Proof.
    unfold effective_body. destruct (String.eqb_spec (print_json j) "") as [He|_].
    - by destruct (print_nonempty j).
    - unfold from_str, deserialize_of_json. by rewrite parse_print.
  Qed.

Lemma accepted_task_decodes n :
    from_json (A:=TaskInfo) (accepted_task_json n)
    = Ok {| ti_task_uid := n; ti_index_uid := None; ti_status := Enqueued;
            ti_type := Tasks.SettingsUpdate |}.
  Proof.
    pose proof (nat_json_roundtrip n) as Hn. unfold json_roundtrip in Hn.
    unfold from_json at 1, taskinfo_from_json, accepted_task_json, req_field, opt_field, json_field.
    simpl. unfold to_json, nat_to_json in Hn. by rewrite Hn.
  Qed.

  (** One route: a write of [v] by a [PUT] or [PATCH] without query,
      then a [GET] of the same URL. *)
Lemma write_then_read_route {A B} `{ToJson A} `{FromJson B} url key
      (mk : A -> Method unit A) (v : A) (w : B) st :
    method_body (mk v) = Some v -> write_verb (http_method (mk v)) = true ->
    from_json (to_json v) = Ok w ->
    writes_then_reads (fun v => meili_request storing_service VERSION arch url key (mk v) 202)
      (meili_request storing_service VERSION arch (B0:=unit) url key (Get tt) 200) v w st.
  Proof.
    intros Hb Hv Hw. unfold writes_then_reads. cbv beta. rewrite !meili_request_dispatch.
    rewrite (dispatch_wire _ _ _ _ _ _ _
               {| wr_method := http_method (mk v); wr_url := url;
                  wr_headers := [("User-Agent", qualified_version VERSION)] ++ auth_header key
                                ++ content_type_header (mk v) CONTENT_TYPE;
                  wr_body := Some (print_json (to_json v)) |});
      [|unfold wire_request, add_query_parameters; destruct (query (mk v)); simpl;
        by rewrite Hb].
    unfold storing_service at 1; simpl. rewrite Hv, parse_print. simpl.
    rewrite parse_response_ok_branch, from_str_print, accepted_task_decodes. simpl.
    rewrite meili_request_dispatch.
    rewrite (dispatch_wire _ _ _ _ _ _ _
               {| wr_method := GET; wr_url := url;
                  wr_headers := [("User-Agent", qualified_version VERSION)] ++ auth_header key ++ [];
                  wr_body := None |}); [|reflexivity].
    unfold storing_service; simpl. rewrite lookup_insert_eq. simpl.
    by rewrite parse_response_ok_branch, from_str_print, Hw.
  Qed.

  (** C34: round trip through the service.  On a service that stores what
      is written to a URL, each [set_*] of [settings.rs] (other than
      [set_settings], which the engine merges) succeeds and the matching
      [get_*] then returns the value written: the two facades agree on
      the route, and the body [set_*] serializes is the JSON [get_*]
      decodes.  [set_distinct_attribute] of [d] reads back as [Some d]. *)
Theorem settings_write_then_read (idx : Index) st
      (syn : gmap string (list string)) (p : PaginationSetting) (f : FacetingSettings)
      (sw rr fa sa sea dia : list string) (d : string) :
    writes_then_reads (set_synonyms storing_service VERSION arch idx)
      (get_synonyms storing_service VERSION arch idx) syn syn st
    /\ writes_then_reads (set_pagination storing_service VERSION arch idx)
         (get_pagination storing_service VERSION arch idx) p p st
    /\ writes_then_reads (set_stop_words storing_service VERSION arch idx)
         (get_stop_words storing_service VERSION arch idx) sw sw st
    /\ writes_then_reads (set_ranking_rules storing_service VERSION arch idx)
         (get_ranking_rules storing_service VERSION arch idx) rr rr st
    /\ writes_then_reads (set_filterable_attributes storing_service VERSION arch idx)
         (get_filterable_attributes storing_service VERSION arch idx) fa fa st
    /\ writes_then_reads (set_sortable_attributes storing_service VERSION arch idx)
         (get_sortable_attributes storing_service VERSION arch idx) sa sa st
    /\ writes_then_reads (set_distinct_attribute storing_service VERSION arch idx)
         (get_distinct_attribute storing_service VERSION arch idx) d (Some d) st
    /\ writes_then_reads (set_searchable_attributes storing_service VERSION arch idx)
         (get_searchable_attributes storing_service VERSION arch idx) sea sea st
    /\ writes_then_reads (set_displayed_attributes storing_service VERSION arch idx)
         (get_displayed_attributes storing_service VERSION arch idx) dia dia st
    /\ writes_then_reads (set_faceting storing_service VERSION arch idx)
         (get_faceting storing_service VERSION arch idx) f f st.
  Proof.
    split_and!; apply write_then_read_route; try reflexivity;
      first [apply list_string_json_roundtrip | apply synonyms_json_roundtrip
            | apply pagination_json_roundtrip | apply faceting_json_roundtrip].
  Qed.
End RoundTrip.

(** ** Witness *)

Definition demo_settings_index : Index :=
  client_index {| host := "http://localhost:7700"; api_key := Some "masterKey" |} "movies".

Definition empty_store : Store := {| st_values := ∅; st_next_uid := 0 |}.

Lemma settings_write_then_read_witness :
  @JsonCodecLaws tree_codec
  /\ writes_then_reads (set_stop_words (JC:=tree_codec) (DE:=fixture_error_decoder)
                          (storing_service (JC:=tree_codec)) None NotWasm32 demo_settings_index)
       (get_stop_words (JC:=tree_codec) (DE:=fixture_error_decoder)
          (storing_service (JC:=tree_codec)) None NotWasm32 demo_settings_index)
       ["a"; "the"; "of"] ["a"; "the"; "of"] empty_store.
Proof.
  split; [exact tree_codec_laws|].
  exact (proj1 (proj2 (proj2 (settings_write_then_read (JC:=tree_codec) (LAWS:=tree_codec_laws)
           (DE:=fixture_error_decoder) None NotWasm32 demo_settings_index empty_store
           ∅ {| max_total_hits := 1000 |} {| max_values_per_facet := 100 |}
           ["a"; "the"; "of"] [] [] [] [] [] "id")))).
Defined.
