(* ===== verification/IndexConfig.v ===== *)
(** * The [IndexConfig] derive macro ([meilisearch-index-setting-macro/src/lib.rs])

    The macro reads a struct's fields and their [#[index_config(...)]]
    attributes and emits an [impl IndexConfig] with the index name, a
    [generate_settings] that chains [Settings] builders, and a
    [generate_index] that creates the index and waits for it.  This file
    models the macro up to the emitted [IndexConfigImpl] and its
    [generate_settings]; the emitted [generate_index], which needs the
    dispatcher and the poller, is in [Documents.v].

    The syntax tree is syn's, reduced to what the macro inspects: an
    attribute is the outcome of [parse_meta] and its token trees; a field
    is its optional identifier and its attributes.  [extract_attrs]
    threads the struct-wide [attribute_set] and the field's
    [local_attribute_set] (both [HashSet<String>], here [gset string])
    through the tokens exactly as the nested loops of
    [extract_all_attr_values] do.  A macro run ends with the generated
    implementation, a compile error, or a panic ([Option::unwrap] on a
    field without a name). *)

From stdpp Require Import base list strings gmap.
From Stdlib Require Import Ascii.
From S2P Require Import Prelude Settings.

Open Scope string_scope.
Open Scope list_scope.
#[local] Set Warnings "-clear-no-such-hyp -register-all".

(** ** syn's view of the input *)

Inductive Spacing := Alone | Joint.

Inductive TokenTree :=
| TGroup (stream : list TokenTree)
| TIdent (name : string)
| TPunct (ch : ascii) (spacing : Spacing)
| TLiteral (text : string).

(** [Attribute::parse_meta]: [#[path(...)]], [#[path]], [#[path = lit]],
    or a parse error with its message. *)
Inductive ParsedMeta :=
| MetaList (path : string)
| MetaPath (path : string)
| MetaNameValue (path : string)
| MetaError (msg : string).

Record Attribute := { attr_meta : ParsedMeta; attr_tokens : list TokenTree }.
Record Field := { field_ident : option string; field_attrs : list Attribute }.

Inductive Data := DataStruct (fields : list Field) | DataEnum | DataUnion.
Record DeriveInput := { ast_ident : string; ast_data : Data }.

(** [syn::Error::new(span, msg).to_compile_error()]: only the message. *)
Record CompileError := { compile_error : string }.
Definition mk_error (msg : string) : CompileError := {| compile_error := msg |}.

(** ** [extract_all_attr_values] *)

Definition valid_attribute_names : gset string :=
  {[ "displayed"; "searchable"; "filterable"; "sortable"; "primary_key"; "distinct" ]}.

(** [validate_punct] *)
Definition validate_punct (c : ascii) (sp : Spacing) : result unit CompileError :=
  if Ascii.eqb c "," then
    match sp with Alone => Ok tt | Joint => Err (mk_error "`,` expected") end
  else Err (mk_error "`,` expected").

(** The state the token loop threads: [attribute_names],
    [attribute_set], [local_attribute_set]. *)
Record AttrState := {
  attribute_names : list string;
  attribute_set : gset string;
  local_attribute_set : gset string
}.

(** One [TokenTree::Ident] inside [index_config(...)]: the four checks in
    the source's order, then the three updates. *)
Definition process_ident (ident : string) (st : AttrState) : result AttrState CompileError :=
  if String.eqb ident "primary_key" && bool_decide ("primary_key" ∈ attribute_set st) then
    Err (mk_error "`primary_key` already exists")
  else if String.eqb ident "distinct" && bool_decide ("distinct" ∈ attribute_set st) then
    Err (mk_error "`distinct` already exists")
  else if bool_decide (ident ∈ local_attribute_set st) then
    Err (mk_error ("`" +:+ ident +:+ "` already exists for this field"))
  else if negb (bool_decide (ident ∈ valid_attribute_names)) then
    Err (mk_error ("Property `" +:+ ident +:+ "` does not exist for type `index_config`"))
  else
    Ok {| attribute_names := attribute_names st ++ [ident];
          attribute_set := {[ident]} ∪ attribute_set st;
          local_attribute_set := {[ident]} ∪ local_attribute_set st |}.

(** [for token in group.stream()] *)
Fixpoint process_group (toks : list TokenTree) (st : AttrState) : result AttrState CompileError :=
  match toks with
  | [] => Ok st
  | TPunct c sp :: rest => let? _ := validate_punct c sp in process_group rest st
  | TIdent i :: rest => let? st' := process_ident i st in process_group rest st'
  | _ :: _ => Err (mk_error "Invalid parsing")
  end.

(** [for token_stream in attr.tokens]: only groups are read. *)
Fixpoint process_tokens (toks : list TokenTree) (st : AttrState) : result AttrState CompileError :=
  match toks with
  | [] => Ok st
  | TGroup g :: rest => let? st' := process_group g st in process_tokens rest st'
  | _ :: rest => process_tokens rest st
  end.

(** The [Err(e)] arm of [parse_meta]: punctuation is validated first. *)
Fixpoint check_group_puncts (toks : list TokenTree) : result unit CompileError :=
  match toks with
  | [] => Ok tt
  | TPunct c sp :: rest => let? _ := validate_punct c sp in check_group_puncts rest
  | _ :: rest => check_group_puncts rest
  end.

Fixpoint check_puncts (toks : list TokenTree) : result unit CompileError :=
  match toks with
  | [] => Ok tt
  | TGroup g :: rest => let? _ := check_group_puncts g in check_puncts rest
  | _ :: rest => check_puncts rest
  end.

(** [for attr in attrs] *)
Fixpoint extract_attrs (attrs : list Attribute) (st : AttrState) : result AttrState CompileError :=
  match attrs with
  | [] => Ok st
  | attr :: rest =>
      match attr_meta attr with
      | MetaList path =>
          if String.eqb path "index_config" then
            let? st' := process_tokens (attr_tokens attr) st in extract_attrs rest st'
          else extract_attrs rest st
      | MetaError msg => let? _ := check_puncts (attr_tokens attr) in Err (mk_error msg)
      | MetaPath _ | MetaNameValue _ => extract_attrs rest st
      end
  end.

(** [extract_all_attr_values(attrs, &mut attribute_set, &valid_attribute_names)]:
    the field's attribute names and the updated struct-wide set. *)
Definition extract_all_attr_values (attrs : list Attribute) (aset : gset string)
  : result (list string * gset string) CompileError :=
  let? st := extract_attrs attrs {| attribute_names := []; attribute_set := aset;
                                    local_attribute_set := ∅ |} in
  Ok (attribute_names st, attribute_set st).

(** ** [get_index_config_implementation] *)

(** The locals the loop over fields updates. *)
Record MacroState := {
  ms_attribute_set : gset string;
  primary_key_attribute : string;
  distinct_key_attribute : string;
  displayed_acc : list string;
  searchable_acc : list string;
  filterable_acc : list string;
  sortable_acc : list string
}.

Definition macro_state_init : MacroState :=
  {| ms_attribute_set := ∅; primary_key_attribute := ""; distinct_key_attribute := "";
     displayed_acc := []; searchable_acc := []; filterable_acc := []; sortable_acc := [] |}.

Inductive MacroFailure :=
| MacroCompileError (e : CompileError)
| MacroPanic.

Definition set_attribute_set (st : MacroState) (s : gset string) : MacroState :=
  {| ms_attribute_set := s; primary_key_attribute := primary_key_attribute st;
     distinct_key_attribute := distinct_key_attribute st; displayed_acc := displayed_acc st;
     searchable_acc := searchable_acc st; filterable_acc := filterable_acc st;
     sortable_acc := sortable_acc st |}.

(** One arm of [match attribute.as_str()]: each arm evaluates
    [field.ident.clone().unwrap()], which panics on an unnamed field. *)
Definition record_attribute (ident : option string) (attribute : string) (st : MacroState)
  : result MacroState MacroFailure :=
  let unwrap_ident := match ident with Some n => Ok n | None => Err MacroPanic end in
  if String.eqb attribute "displayed" then
    let? n := unwrap_ident in
    Ok {| ms_attribute_set := ms_attribute_set st; primary_key_attribute := primary_key_attribute st;
          distinct_key_attribute := distinct_key_attribute st; displayed_acc := displayed_acc st ++ [n];
          searchable_acc := searchable_acc st; filterable_acc := filterable_acc st;
          sortable_acc := sortable_acc st |}
  else if String.eqb attribute "searchable" then
    let? n := unwrap_ident in
    Ok {| ms_attribute_set := ms_attribute_set st; primary_key_attribute := primary_key_attribute st;
          distinct_key_attribute := distinct_key_attribute st; displayed_acc := displayed_acc st;
          searchable_acc := searchable_acc st ++ [n]; filterable_acc := filterable_acc st;
          sortable_acc := sortable_acc st |}
  else if String.eqb attribute "filterable" then
    let? n := unwrap_ident in
    Ok {| ms_attribute_set := ms_attribute_set st; primary_key_attribute := primary_key_attribute st;
          distinct_key_attribute := distinct_key_attribute st; displayed_acc := displayed_acc st;
          searchable_acc := searchable_acc st; filterable_acc := filterable_acc st ++ [n];
          sortable_acc := sortable_acc st |}
  else if String.eqb attribute "sortable" then
    let? n := unwrap_ident in
    Ok {| ms_attribute_set := ms_attribute_set st; primary_key_attribute := primary_key_attribute st;
          distinct_key_attribute := distinct_key_attribute st; displayed_acc := displayed_acc st;
          searchable_acc := searchable_acc st; filterable_acc := filterable_acc st;
          sortable_acc := sortable_acc st ++ [n] |}
  else if String.eqb attribute "primary_key" then
    let? n := unwrap_ident in
    Ok {| ms_attribute_set := ms_attribute_set st; primary_key_attribute := n;
          distinct_key_attribute := distinct_key_attribute st; displayed_acc := displayed_acc st;
          searchable_acc := searchable_acc st; filterable_acc := filterable_acc st;
          sortable_acc := sortable_acc st |}
  else if String.eqb attribute "distinct" then
    let? n := unwrap_ident in
    Ok {| ms_attribute_set := ms_attribute_set st; primary_key_attribute := primary_key_attribute st;
          distinct_key_attribute := n; displayed_acc := displayed_acc st;
          searchable_acc := searchable_acc st; filterable_acc := filterable_acc st;
          sortable_acc := sortable_acc st |}
  else Ok st.

Fixpoint record_attributes (ident : option string) (l : list string) (st : MacroState)
  : result MacroState MacroFailure :=
  match l with
  | [] => Ok st
  | a :: l' => let? st' := record_attribute ident a st in record_attributes ident l' st'
  end.

(** [for field in fields] *)
Fixpoint collect_fields (fields : list Field) (st : MacroState) : result MacroState MacroFailure :=
  match fields with
  | [] => Ok st
  | f :: rest =>
      match extract_all_attr_values (field_attrs f) (ms_attribute_set st) with
      | Err e => Err (MacroCompileError e)
      | Ok (attribute_list, aset) =>
          let? st' := record_attributes (field_ident f) attribute_list (set_attribute_set st aset) in
          collect_fields rest st'
      end
  end.

(** [get_settings_token_for_list]: [.method([..])] and
    [.method(iter::empty())] are the same builder call on the list. *)
Definition get_settings_token_for_list (l : list string) (method : list string -> SettingsUpdate)
  : SettingsUpdate := method l.

(** [get_settings_token_for_string]: no call for an empty name. *)
Definition get_settings_token_for_string (s : string) (method : string -> SettingsUpdate)
  : list SettingsUpdate :=
  if String.eqb s "" then [] else [method s].

(** What the emitted [impl IndexConfig] contains. *)
Record IndexConfigImpl := {
  INDEX_STR : string;
  settings_calls : list SettingsUpdate;
  primary_key_token : option string
}.

(** [generate_settings] of the emitted impl: [Settings::new()] and the
    chained builder calls. *)
Definition generate_settings (impl : IndexConfigImpl) : Settings :=
  foldl apply_update settings_new (settings_calls impl).

Section Macro.
  (** [.from_case(Case::UpperCamel).to_case(Case::Snake)] of the
      convert_case crate. *)
  Variable convert_case : string -> string.

Definition get_index_config_implementation (struct_ident : string) (fields : list Field)
    : result IndexConfigImpl MacroFailure :=
    let index_name := convert_case struct_ident in
    let? st := collect_fields fields macro_state_init in
    let primary_key_token :=
      if String.eqb (primary_key_attribute st) "" then None else Some (primary_key_attribute st) in
    Ok {| INDEX_STR := index_name;
          settings_calls :=
            [get_settings_token_for_list (displayed_acc st) SetDisplayedAttributes;
             get_settings_token_for_list (sortable_acc st) SetSortableAttributes;
             get_settings_token_for_list (filterable_acc st) SetFilterableAttributes;
             get_settings_token_for_list (searchable_acc st) SetSearchableAttributes]
            ++ get_settings_token_for_string (distinct_key_attribute st) SetDistinctAttribute;
          primary_key_token := primary_key_token |}.

  (** [generate_index_settings], the derive entry point. *)
Definition generate_index_settings (ast : DeriveInput) : result IndexConfigImpl MacroFailure :=
    match ast_data ast with
    | DataStruct fields => get_index_config_implementation (ast_ident ast) fields
    | DataEnum | DataUnion => Err (MacroCompileError (mk_error "Applicable only to struct"))
    end.
End Macro.

(** ** What the attributes declare *)

Fixpoint group_idents (toks : list TokenTree) : list string :=
  match toks with
  | [] => []
  | TIdent i :: rest => i :: group_idents rest
  | _ :: rest => group_idents rest
  end.

Fixpoint token_idents (toks : list TokenTree) : list string :=
  match toks with
  | [] => []
  | TGroup g :: rest => group_idents g ++ token_idents rest
  | _ :: rest => token_idents rest
  end.

(** The names a field's [#[index_config(...)]] attributes list, in order. *)
Fixpoint declared_attrs (attrs : list Attribute) : list string :=
  match attrs with
  | [] => []
  | a :: rest =>
      match attr_meta a with
      | MetaList path =>
          if String.eqb path "index_config" then token_idents (attr_tokens a) ++ declared_attrs rest
          else declared_attrs rest
      | _ => declared_attrs rest
      end
  end.

Definition field_name (f : Field) : string := default "" (field_ident f).

(** The names of the fields that declare [a], in field order. *)
Definition fields_with (a : string) (fields : list Field) : list string :=
  map field_name (filter (fun f => a ∈ declared_attrs (field_attrs f)) fields).

Definition nonempty_head (l : list string) : option string :=
  match l with n :: _ => if String.eqb n "" then None else Some n | [] => None end.

(** ** The token loops are a fold of [process_ident] *)

Fixpoint fold_idents (l : list string) (st : AttrState) : result AttrState CompileError :=
  match l with
  | [] => Ok st
  | i :: l' => let? st' := process_ident i st in fold_idents l' st'
  end.

Lemma fold_idents_app l1 l2 st :
  fold_idents (l1 ++ l2) st = result_bind (fold_idents l1 st) (fold_idents l2).
Proof.
  revert st. induction l1 as [|i l1 IH]; intros st; simpl; [done|].
  destruct (process_ident i st); simpl; [apply IH|done].
Qed.

Lemma process_group_fold g st st' :
  process_group g st = Ok st' -> fold_idents (group_idents g) st = Ok st'.
Proof.
  revert st. induction g as [|t g IH]; intros st H; simpl in *; [done|].
  destruct t; simpl in *; try discriminate.
  - destruct (process_ident name st); simpl in *; [by apply IH|discriminate].
  - destruct (validate_punct ch spacing); simpl in *; [by apply IH|discriminate].
Qed.

Lemma process_tokens_fold toks st st' :
  process_tokens toks st = Ok st' -> fold_idents (token_idents toks) st = Ok st'.
Proof.
  revert st. induction toks as [|t toks IH]; intros st H; simpl in *; [done|].
  destruct t; simpl in *; try by apply IH.
  rewrite fold_idents_app.
  destruct (process_group stream st) eqn:Hg; simpl in *; [|discriminate].
  rewrite (process_group_fold _ _ _ Hg). simpl. by apply IH.
Qed.

Lemma extract_attrs_fold attrs st st' :
  extract_attrs attrs st = Ok st' -> fold_idents (declared_attrs attrs) st = Ok st'.
Proof.
  revert st. induction attrs as [|a attrs IH]; intros st H; simpl in *; [done|].
  destruct (attr_meta a); simpl in *; try by apply IH.
  - destruct (String.eqb path "index_config"); [|by apply IH].
    rewrite fold_idents_app.
    destruct (process_tokens (attr_tokens a) st) eqn:Ht; simpl in *; [|discriminate].
    rewrite (process_tokens_fold _ _ _ Ht). simpl. by apply IH.
  - destruct (check_puncts _); discriminate.
Qed.

Lemma process_ident_Ok i st st' :
  process_ident i st = Ok st' ->
  (st' = {| attribute_names := (attribute_names st ++ [i])%list;
            attribute_set := {[i]} ∪ attribute_set st;
            local_attribute_set := {[i]} ∪ local_attribute_set st |})
  /\ (i ∉ local_attribute_set st) /\ (i ∈ valid_attribute_names)
  /\ (i = "primary_key" -> i ∉ attribute_set st)
  /\ (i = "distinct" -> i ∉ attribute_set st).
Proof.
  unfold process_ident.
  destruct (String.eqb_spec i "primary_key") as [Hpk|Hpk];
    destruct (String.eqb_spec i "distinct") as [Hd|Hd]; try (subst; discriminate); simpl;
    repeat case_bool_decide; simpl; intros Heq; try discriminate;
    injection Heq as <-; naive_solver.
Qed.

(** What a successful run of the token loop has checked and recorded. *)
Lemma fold_idents_spec l st st' :
  fold_idents l st = Ok st' ->
  attribute_names st' = (attribute_names st ++ l)%list
  /\ attribute_set st' = list_to_set l ∪ attribute_set st
  /\ local_attribute_set st' = list_to_set l ∪ local_attribute_set st
  /\ NoDup l
  /\ (forall i, i ∈ l -> (i ∉ local_attribute_set st) /\ (i ∈ valid_attribute_names))
  /\ ("primary_key" ∈ l -> "primary_key" ∉ attribute_set st)
  /\ ("distinct" ∈ l -> "distinct" ∉ attribute_set st).
Proof.
  revert st. induction l as [|i l IH]; intros st H; simpl in H.
  - injection H as <-. rewrite app_nil_r. split_and!; try set_solver. constructor.
  - destruct (process_ident i st) as [s1|e] eqn:Hi; simpl in H; [|discriminate].
    apply process_ident_Ok in Hi as (-> & Hloc & Hval & Hpk & Hd).
    apply IH in H as (Hn & Ha & Hl & Hnd & Hall & Hpk' & Hd'); simpl in *.
    split_and!.
    + by rewrite Hn, <- app_assoc.
    + rewrite Ha. set_solver.
    + rewrite Hl. set_solver.
    + constructor; [|done]. intros Hin. destruct (Hall i Hin). set_solver.
    + intros j Hj. apply elem_of_cons in Hj as [->|Hj]; [done|].
      destruct (Hall j Hj). set_solver.
    + intros Hin. apply elem_of_cons in Hin as [<-|Hin]; [by apply Hpk|].
      specialize (Hpk' Hin). set_solver.
    + intros Hin. apply elem_of_cons in Hin as [<-|Hin]; [by apply Hd|].
      specialize (Hd' Hin). set_solver.
Qed.

(** What [extract_all_attr_values] returns on success. *)
Lemma extract_all_attr_values_ok attrs aset names aset' :
  extract_all_attr_values attrs aset = Ok (names, aset') ->
  names = declared_attrs attrs
  /\ aset' = list_to_set names ∪ aset
  /\ NoDup names
  /\ (forall i, i ∈ names -> i ∈ valid_attribute_names)
  /\ ("primary_key" ∈ names -> "primary_key" ∉ aset)
  /\ ("distinct" ∈ names -> "distinct" ∉ aset).
Proof.
  unfold extract_all_attr_values.
  destruct (extract_attrs attrs _) as [st|e] eqn:He; simpl; [|discriminate].
  intros [= <- <-].
  apply extract_attrs_fold, fold_idents_spec in He as (Hn & Ha & _ & Hnd & Hall & Hpk & Hd).
  simpl in *. rewrite Hn. split_and!; try done.
  intros i Hi. by apply Hall.
Qed.
(** C22: what the macro accepts for one field.  When
    [extract_all_attr_values] succeeds, the names it returns are exactly
    the ones the field's [#[index_config(...)]] attributes list, in order,
    without repetition, each a valid property; [primary_key] and
    [distinct] are accepted only if no earlier field declared them; and the
    struct-wide set grows by these names. *)
Theorem extract_all_attr_values_spec attrs aset names aset' :
  extract_all_attr_values attrs aset = Ok (names, aset') ->
  names = declared_attrs attrs
  /\ aset' = list_to_set names ∪ aset
  /\ NoDup names
  /\ (forall i, i ∈ names -> i ∈ valid_attribute_names)
  /\ ("primary_key" ∈ names -> "primary_key" ∉ aset)
  /\ ("distinct" ∈ names -> "distinct" ∉ aset).
Proof. apply extract_all_attr_values_ok. Qed.


(** ** The invariant of the token loop

    The three locals of [extract_all_attr_values] stay consistent: the
    field's names have no repetition and are valid properties, the
    field's [local_attribute_set] is the set of those names, and the
    struct-wide [attribute_set] is the set it started from ([aset0])
    together with them.  This is the state [is_set]-style invariant the
    loops maintain; [process_ident] is the only step that changes it. *)
Definition attr_state_wf (aset0 : gset string) (st : AttrState) : Prop :=
  NoDup (attribute_names st)
  /\ local_attribute_set st = list_to_set (attribute_names st)
  /\ attribute_set st = local_attribute_set st ∪ aset0
  /\ Forall (fun i => i ∈ valid_attribute_names) (attribute_names st).

Lemma attr_state_wf_process_ident aset0 i st st' :
  attr_state_wf aset0 st -> process_ident i st = Ok st' -> attr_state_wf aset0 st'.
Proof.
  intros (Hnd & Hl & Ha & Hv) (-> & Hloc & Hval & _ & _)%process_ident_Ok.
  unfold attr_state_wf; simpl. rewrite Hl in Hloc.
  split_and!.
  - apply NoDup_app. split_and!; [done| |apply NoDup_singleton].
    intros x Hx ->%list_elem_of_singleton. apply Hloc. by apply elem_of_list_to_set.
  - rewrite list_to_set_app_L, Hl. set_solver.
  - rewrite Ha, Hl. set_solver.
  - apply Forall_app. split; [done|]. by apply Forall_singleton.
Qed.

Lemma attr_state_wf_fold aset0 l st st' :
  attr_state_wf aset0 st -> fold_idents l st = Ok st' -> attr_state_wf aset0 st'.
Proof.
  revert st. induction l as [|i l IH]; intros st Hwf H; simpl in H; [by injection H as <-|].
  destruct (process_ident i st) as [s1|e] eqn:Hi; simpl in H; [|discriminate].
  exact (IH s1 (attr_state_wf_process_ident _ _ _ _ Hwf Hi) H).
Qed.

(** C35: invariant.  The state [extract_all_attr_values] starts from
    satisfies [attr_state_wf], and every step of its loops that succeeds
    ([process_ident] on one name, [process_group] on a group,
    [process_tokens] on an attribute's tokens, [extract_attrs] on a
    field's attributes) keeps it. *)
Theorem attr_state_invariant aset0 :
  attr_state_wf aset0 {| attribute_names := []; attribute_set := aset0; local_attribute_set := ∅ |}
  /\ (forall i st st', attr_state_wf aset0 st -> process_ident i st = Ok st' -> attr_state_wf aset0 st')
  /\ (forall g st st', attr_state_wf aset0 st -> process_group g st = Ok st' -> attr_state_wf aset0 st')
  /\ (forall toks st st', attr_state_wf aset0 st -> process_tokens toks st = Ok st' ->
                          attr_state_wf aset0 st')
  /\ (forall attrs st st', attr_state_wf aset0 st -> extract_attrs attrs st = Ok st' ->
                           attr_state_wf aset0 st').
Proof.
  split_and!.
  - unfold attr_state_wf; simpl. split_and!; [constructor|done|set_solver|done].
  - apply attr_state_wf_process_ident.
  - intros g st st' Hwf H. exact (attr_state_wf_fold _ _ _ _ Hwf (process_group_fold _ _ _ H)).
  - intros t st st' Hwf H. exact (attr_state_wf_fold _ _ _ _ Hwf (process_tokens_fold _ _ _ H)).
  - intros a st st' Hwf H. exact (attr_state_wf_fold _ _ _ _ Hwf (extract_attrs_fold _ _ _ H)).
Qed.

(** ** The loop over fields *)

(** Case on which arm of [match attribute.as_str()] an attribute takes. *)
Ltac case_attr i :=
  destruct (String.eqb_spec i "displayed") as [->|?]; simpl;
  [|destruct (String.eqb_spec i "searchable") as [->|?]; simpl;
  [|destruct (String.eqb_spec i "filterable") as [->|?]; simpl;
  [|destruct (String.eqb_spec i "sortable") as [->|?]; simpl;
  [|destruct (String.eqb_spec i "primary_key") as [->|?]; simpl;
  [|destruct (String.eqb_spec i "distinct") as [->|?]; simpl]]]]].

(** The state after one arm of [match attribute.as_str()] on a named
    field. *)
Definition push_attr (n : string) (attribute : string) (st : MacroState) : MacroState :=
  match record_attribute (Some n) attribute st with Ok st' => st' | Err _ => st end.

Lemma record_attribute_named n i st : record_attribute (Some n) i st = Ok (push_attr n i st).
Proof.
  unfold push_attr. destruct (record_attribute (Some n) i st) eqn:E; [done|].
  revert E. unfold record_attribute.
  repeat (destruct (String.eqb _ _); simpl; [discriminate|]). discriminate.
Qed.

Lemma record_attribute_unnamed i st st' :
  record_attribute None i st = Ok st' -> i ∉ valid_attribute_names.
Proof.
  unfold record_attribute, valid_attribute_names.
  case_attr i; try discriminate. intros _. set_solver.
Qed.

Lemma record_attributes_named n l st :
  record_attributes (Some n) l st = Ok (foldl (fun s i => push_attr n i s) st l).
Proof.
  revert st. induction l as [|i l IH]; intros st; simpl; [done|].
  rewrite record_attribute_named. simpl. apply IH.
Qed.

Lemma record_attributes_unnamed l st st' :
  record_attributes None l st = Ok st' -> (forall i, i ∈ l -> i ∈ valid_attribute_names) ->
  l = [] /\ st' = st.
Proof.
  destruct l as [|i l]; simpl; [by intros [= <-]|].
  destruct (record_attribute None i st) eqn:E; simpl; [|discriminate].
  apply record_attribute_unnamed in E. intros _ Hv. by destruct E; apply Hv; left.
Qed.

(** How one arm moves each accumulator. *)
Definition list_acc (a : string) (st : MacroState) : list string :=
  if String.eqb a "displayed" then displayed_acc st
  else if String.eqb a "searchable" then searchable_acc st
  else if String.eqb a "filterable" then filterable_acc st
  else sortable_acc st.

Definition list_attrs : list string := ["displayed"; "searchable"; "filterable"; "sortable"].

Lemma push_attr_list_acc a n i st :
  a ∈ list_attrs ->
  list_acc a (push_attr n i st) = list_acc a st ++ (if String.eqb i a then [n] else []).
Proof.
  intros Ha. unfold push_attr, record_attribute, list_acc, list_attrs in *.
  repeat (apply elem_of_cons in Ha as [->|Ha]); [..|by apply not_elem_of_nil in Ha];
    case_attr i; by rewrite ?app_nil_r.
Qed.

Lemma push_attr_keys n i st :
  primary_key_attribute (push_attr n i st)
    = (if String.eqb i "primary_key" then n else primary_key_attribute st)
  /\ distinct_key_attribute (push_attr n i st)
    = (if String.eqb i "distinct" then n else distinct_key_attribute st)
  /\ ms_attribute_set (push_attr n i st) = ms_attribute_set st.
Proof.
  unfold push_attr, record_attribute. by case_attr i.
Qed.

Lemma foldl_push_list_acc a n l st :
  a ∈ list_attrs -> NoDup l ->
  list_acc a (foldl (fun s i => push_attr n i s) st l)
  = list_acc a st ++ (if decide (a ∈ l) then [n] else []).
Proof.
  intros Ha. revert st. induction l as [|i l IH]; intros st Hnd; simpl.
  - by rewrite app_nil_r.
  - apply NoDup_cons in Hnd as [Hi Hnd]. rewrite IH by done.
    rewrite push_attr_list_acc by done. rewrite <- app_assoc.
    destruct (String.eqb_spec i a) as [->|Hne].
    + rewrite decide_False by done. rewrite decide_True by set_solver. done.
    + simpl. do 2 case_decide; set_solver.
Qed.

(** The two single-valued keys. *)
Definition key_acc (k : string) (st : MacroState) : string :=
  if String.eqb k "primary_key" then primary_key_attribute st else distinct_key_attribute st.

Definition key_attrs : list string := ["primary_key"; "distinct"].

Lemma foldl_push_key k n l st :
  k ∈ key_attrs ->
  key_acc k (foldl (fun s i => push_attr n i s) st l)
  = if decide (k ∈ l) then n else key_acc k st.
Proof.
  intros Hk. revert st. induction l as [|i l IH]; intros st; simpl; [done|].
  rewrite IH. destruct (push_attr_keys n i st) as (Hpk & Hd & _).
  unfold key_attrs in Hk.
  repeat (apply elem_of_cons in Hk as [->|Hk]); [..|by apply not_elem_of_nil in Hk];
    unfold key_acc; simpl.
  - rewrite Hpk. destruct (String.eqb_spec i "primary_key") as [->|Hne];
      repeat case_decide; set_solver.
  - rewrite Hd. destruct (String.eqb_spec i "distinct") as [->|Hne];
      repeat case_decide; set_solver.
Qed.

Lemma foldl_push_attribute_set n l st :
  ms_attribute_set (foldl (fun s i => push_attr n i s) st l) = ms_attribute_set st.
Proof.
  revert st. induction l as [|i l IH]; intros st; simpl; [done|].
  rewrite IH. apply push_attr_keys.
Qed.

Lemma fields_with_cons a f fs :
  fields_with a (f :: fs)
  = (if decide (a ∈ declared_attrs (field_attrs f)) then [field_name f] else []) ++ fields_with a fs.
Proof. unfold fields_with. rewrite filter_cons. by case_decide. Qed.

(** One field of the loop: the state is the named pushes of its declared
    attributes, whether or not the field has a name. *)
Lemma collect_field_step f st st1 names aset :
  extract_all_attr_values (field_attrs f) (ms_attribute_set st) = Ok (names, aset) ->
  record_attributes (field_ident f) names (set_attribute_set st aset) = Ok st1 ->
  st1 = foldl (fun s i => push_attr (field_name f) i s) (set_attribute_set st aset) names.
Proof.
  intros He Hr. apply extract_all_attr_values_ok in He as (_ & _ & _ & Hv & _ & _).
  unfold field_name. destruct (field_ident f) as [n|]; simpl.
  - rewrite record_attributes_named in Hr. by injection Hr as <-.
  - by apply record_attributes_unnamed in Hr as [-> ->].
Qed.

Lemma list_acc_set_attribute_set a st s : list_acc a (set_attribute_set st s) = list_acc a st.
Proof. reflexivity. Qed.
Lemma key_acc_set_attribute_set k st s : key_acc k (set_attribute_set st s) = key_acc k st.
Proof. reflexivity. Qed.

(** What a successful loop over the fields has accumulated. *)
Lemma collect_fields_spec fields st st' :
  collect_fields fields st = Ok st' ->
  (forall a, a ∈ list_attrs -> list_acc a st' = list_acc a st ++ fields_with a fields)
  /\ (forall k, k ∈ key_attrs ->
        length (fields_with k fields) <= 1
        /\ (k ∈ ms_attribute_set st -> fields_with k fields = [])
        /\ key_acc k st' = match fields_with k fields with [] => key_acc k st | m :: _ => m end)
  /\ (forall f, f ∈ fields -> NoDup (declared_attrs (field_attrs f))
        /\ forall i, i ∈ declared_attrs (field_attrs f) -> i ∈ valid_attribute_names).
Proof.
  revert st. induction fields as [|f fs IH]; intros st H; simpl in H.
  - injection H as <-. split_and!.
    + intros a _. by rewrite app_nil_r.
    + intros k _. simpl. split_and!; [lia|done|done].
    + intros f Hf. by apply not_elem_of_nil in Hf.
  - destruct (extract_all_attr_values (field_attrs f) (ms_attribute_set st))
      as [[names aset]|e] eqn:He; [|discriminate].
    destruct (record_attributes (field_ident f) names (set_attribute_set st aset))
      as [st1|e] eqn:Hr; simpl in H; [|discriminate].
    pose proof (collect_field_step _ _ _ _ _ He Hr) as Hst1.
    apply extract_all_attr_values_ok in He as (-> & Ha & Hnd & Hv & Hpk & Hd).
    assert (Hfresh : forall k, k ∈ key_attrs -> k ∈ declared_attrs (field_attrs f) ->
                             k ∉ ms_attribute_set st).
    { intros k Hk. unfold key_attrs in Hk.
      repeat (apply elem_of_cons in Hk as [->|Hk]); [..|by apply not_elem_of_nil in Hk]; done. }
    assert (Haset : ms_attribute_set st1 = aset).
    { by rewrite Hst1, foldl_push_attribute_set. }
    apply IH in H as (Hl & Hk & Hf). split_and!.
    + intros a Ha'. rewrite Hl, fields_with_cons by done.
      rewrite Hst1, foldl_push_list_acc, list_acc_set_attribute_set by done.
      by rewrite app_assoc.
    + intros k Hk'. destruct (Hk k Hk') as (Hlen & Hempty & Hkey).
      rewrite Haset in Hempty. rewrite fields_with_cons, Hkey.
      rewrite Hst1, foldl_push_key, key_acc_set_attribute_set by done.
      case_decide as Hin.
      * rewrite Hempty by (rewrite Ha; set_solver). simpl. split_and!; [lia| |done].
        intros Hst. by destruct (Hfresh k Hk' Hin).
      * simpl. split_and!; [done| |done].
        intros Hst. apply Hempty. rewrite Ha. set_solver.
    + intros g Hg. apply elem_of_cons in Hg as [->|Hg]; [done|]. by apply Hf.
Qed.

(** C23: what the derive generates.  When the macro succeeds, the index
    name is the converted struct name; [generate_settings] is
    [Settings::new()] with the displayed, sortable, filterable and
    searchable attributes set to the names of the fields declaring them, in
    field order (an empty list when no field does), the distinct attribute
    set to the field declaring [distinct] if any, and nothing else; and the
    primary key passed to [create_index] is the field declaring
    [primary_key], if any. *)
Theorem macro_generated_settings conv ident fields impl :
  get_index_config_implementation conv ident fields = Ok impl ->
  INDEX_STR impl = conv ident
  /\ primary_key_token impl = nonempty_head (fields_with "primary_key" fields)
  /\ generate_settings impl
     = {| synonyms := None; stop_words := None; ranking_rules := None;
          filterable_attributes := Some (fields_with "filterable" fields);
          sortable_attributes := Some (fields_with "sortable" fields);
          distinct_attribute := nonempty_head (fields_with "distinct" fields);
          searchable_attributes := Some (fields_with "searchable" fields);
          displayed_attributes := Some (fields_with "displayed" fields);
          pagination := None; faceting := None |}.
Proof.
  unfold get_index_config_implementation.
  destruct (collect_fields fields macro_state_init) as [st|e] eqn:Hc; simpl; [|discriminate].
  intros [= <-]. apply collect_fields_spec in Hc as (Hl & Hk & _).
  pose proof (Hl "displayed" ltac:(set_solver)) as Hdi.
  pose proof (Hl "searchable" ltac:(set_solver)) as Hse.
  pose proof (Hl "filterable" ltac:(set_solver)) as Hfi.
  pose proof (Hl "sortable" ltac:(set_solver)) as Hso.
  destruct (Hk "primary_key" ltac:(set_solver)) as (_ & _ & Hpk).
  destruct (Hk "distinct" ltac:(set_solver)) as (_ & _ & Hd).
  unfold list_acc, key_acc in *; simpl in *.
  rewrite Hdi, Hse, Hfi, Hso, Hpk, Hd. simpl. split_and!; [done| |].
  - by destruct (fields_with "primary_key" fields) as [|m l]; simpl.
  - unfold generate_settings, get_settings_token_for_string; simpl.
    destruct (fields_with "distinct" fields) as [|m l]; simpl; [done|].
    by destruct (String.eqb m "").
Qed.

(** C24: what the derive rejects.  When the macro succeeds, at most one
    field declares [primary_key], at most one declares [distinct], and every
    field's [index_config] attributes are valid properties listed without
    repetition. *)
Theorem macro_attribute_constraints conv ident fields impl :
  get_index_config_implementation conv ident fields = Ok impl ->
  length (fields_with "primary_key" fields) <= 1
  /\ length (fields_with "distinct" fields) <= 1
  /\ (forall f, f ∈ fields -> NoDup (declared_attrs (field_attrs f))
        /\ forall i, i ∈ declared_attrs (field_attrs f) -> i ∈ valid_attribute_names).
Proof.
  unfold get_index_config_implementation.
  destruct (collect_fields fields macro_state_init) as [st|e] eqn:Hc; simpl; [|discriminate].
  intros _. apply collect_fields_spec in Hc as (_ & Hk & Hf).
  destruct (Hk "primary_key" ltac:(set_solver)) as (Hpk & _).
  destruct (Hk "distinct" ltac:(set_solver)) as (Hd & _).
  done.
Qed.

Lemma record_attributes_unnamed_panics i l st :
  i ∈ valid_attribute_names -> record_attributes None (i :: l) st = Err MacroPanic.
Proof.
  intros Hv. simpl. destruct (record_attribute None i st) eqn:E; simpl.
  - apply record_attribute_unnamed in E. done.
  - revert E. unfold record_attribute. case_attr i; congruence.
Qed.

(** C25: a field without a name (a tuple struct's field) that carries an
    accepted [index_config] attribute makes the macro panic on
    [field.ident.clone().unwrap()] rather than report a compile error. *)
Theorem macro_unnamed_field_panics conv ident attrs names aset rest :
  extract_all_attr_values attrs ∅ = Ok (names, aset) -> names <> [] ->
  get_index_config_implementation conv ident
    ({| field_ident := None; field_attrs := attrs |} :: rest) = Err MacroPanic.
Proof.
  intros He Hne. unfold get_index_config_implementation. simpl. rewrite He.
  pose proof He as Hspec. apply extract_all_attr_values_ok in Hspec as (_ & _ & _ & Hv & _).
  destruct names as [|i l]; [done|].
  rewrite record_attributes_unnamed_panics by (apply Hv; set_solver). done.
Qed.

(** ** Witnesses: the structs of the crate's tests *)

(** [#[index_config(a, b, ...)]] as syn parses it. *)
Definition index_config_attr (l : list string) : Attribute :=
  {| attr_meta := MetaList "index_config";
     attr_tokens := [TGroup (tail (foldr (fun a acc => TPunct "," Alone :: TIdent a :: acc) [] l))] |}.

Definition named_field (n : string) (l : list string) : Field :=
  {| field_ident := Some n; field_attrs := [index_config_attr l] |}.

(** [struct MovieClips] of [documents.rs]'s tests. *)
Definition movie_clips_fields : list Field :=
  [named_field "movie_id" ["primary_key"]; named_field "owner" ["distinct"];
   named_field "title" ["displayed"; "searchable"]; named_field "description" ["displayed"];
   named_field "release_date" ["filterable"; "sortable"; "displayed"];
   named_field "genres" ["filterable"; "displayed"]].

(** [struct VideoClips { video_id: u64 }]: no attribute. *)
Definition video_clips_fields : list Field :=
  [{| field_ident := Some "video_id"; field_attrs := [] |}].

(** An UpperCamel to snake case conversion, enough for these names. *)
Fixpoint snake_aux (first : bool) (s : string) : string :=
  match s with
  | EmptyString => EmptyString
  | String c rest =>
      let n := Ascii.nat_of_ascii c in
      if Nat.leb 65 n && Nat.leb n 90 then
        (if first then "" else "_") +:+ String (Ascii.ascii_of_nat (n + 32)) (snake_aux false rest)
      else String c (snake_aux false rest)
  end.
Definition snake_case (s : string) : string := snake_aux true s.

Definition movie_clips_impl : IndexConfigImpl :=
  {| INDEX_STR := "movie_clips";
     settings_calls :=
       [SetDisplayedAttributes ["title"; "description"; "release_date"; "genres"];
        SetSortableAttributes ["release_date"];
        SetFilterableAttributes ["release_date"; "genres"];
        SetSearchableAttributes ["title"];
        SetDistinctAttribute "owner"];
     primary_key_token := Some "movie_id" |}.

(** The test [test_settings_generated_by_macro] and [test_generate_index]:
    the settings and the index name the derive gives [MovieClips]. *)
Lemma macro_generated_settings_witness :
  get_index_config_implementation snake_case "MovieClips" movie_clips_fields = Ok movie_clips_impl
  /\ INDEX_STR movie_clips_impl = "movie_clips"
  /\ displayed_attributes (generate_settings movie_clips_impl)
     = Some ["title"; "description"; "release_date"; "genres"]
  /\ generate_settings movie_clips_impl
     = {| synonyms := None; stop_words := None; ranking_rules := None;
          filterable_attributes := Some ["release_date"; "genres"];
          sortable_attributes := Some ["release_date"];
          distinct_attribute := Some "owner";
          searchable_attributes := Some ["title"];
          displayed_attributes := Some ["title"; "description"; "release_date"; "genres"];
          pagination := None; faceting := None |}.
Proof.
  assert (H : get_index_config_implementation snake_case "MovieClips" movie_clips_fields
              = Ok movie_clips_impl) by reflexivity.
  destruct (macro_generated_settings _ _ _ _ H) as (Hname & _ & Hs).
  split; [exact H|]. split; [exact Hname|]. split; [by rewrite Hs|]. exact Hs.
Defined.

Lemma macro_attribute_constraints_witness :
  get_index_config_implementation snake_case "VideoClips" video_clips_fields
  = Ok {| INDEX_STR := "video_clips";
          settings_calls := [SetDisplayedAttributes []; SetSortableAttributes [];
                             SetFilterableAttributes []; SetSearchableAttributes []];
          primary_key_token := None |}
  /\ length (fields_with "primary_key" video_clips_fields) <= 1.
Proof.
  assert (H : get_index_config_implementation snake_case "VideoClips" video_clips_fields
              = Ok {| INDEX_STR := "video_clips";
                      settings_calls := [SetDisplayedAttributes []; SetSortableAttributes [];
                                         SetFilterableAttributes []; SetSearchableAttributes []];
                      primary_key_token := None |}) by reflexivity.
  split; [exact H|]. apply (macro_attribute_constraints _ _ _ _ H).
Defined.

(** [struct Pair(#[index_config(displayed)] String)]. *)
Lemma macro_unnamed_field_panics_witness :
  extract_all_attr_values [index_config_attr ["displayed"]] ∅ = Ok (["displayed"], {["displayed"]})
  /\ get_index_config_implementation snake_case "Pair"
       [{| field_ident := None; field_attrs := [index_config_attr ["displayed"]] |}] = Err MacroPanic.
Proof.
  assert (H : extract_all_attr_values [index_config_attr ["displayed"]] ∅
              = Ok (["displayed"], {["displayed"]})).
  { vm_compute. reflexivity. }
  split; [exact H|]. apply (macro_unnamed_field_panics _ _ _ _ _ [] H). discriminate.
Defined.

Lemma extract_all_attr_values_spec_witness :
  extract_all_attr_values [index_config_attr ["filterable"; "sortable"; "displayed"]] ∅
  = Ok (["filterable"; "sortable"; "displayed"], {["filterable"; "sortable"; "displayed"]})
  /\ NoDup ["filterable"; "sortable"; "displayed"].
Proof.
  assert (H : extract_all_attr_values [index_config_attr ["filterable"; "sortable"; "displayed"]] ∅
              = Ok (["filterable"; "sortable"; "displayed"], {["filterable"; "sortable"; "displayed"]}))
    by (vm_compute; reflexivity).
  split; [exact H|]. apply (extract_all_attr_values_spec _ _ _ _ H).
Defined.

(** The second field of [MovieClips] after [primary_key] was declared:
    the token loop over [#[index_config(displayed, searchable)]]. *)
Definition title_state : AttrState :=
  {| attribute_names := ["displayed"; "searchable"];
     attribute_set := {["primary_key"; "displayed"; "searchable"]};
     local_attribute_set := {["displayed"; "searchable"]} |}.

Lemma attr_state_invariant_witness :
  attr_state_wf {["primary_key"]}
    {| attribute_names := []; attribute_set := {["primary_key"]}; local_attribute_set := ∅ |}
  /\ process_tokens (attr_tokens (index_config_attr ["displayed"; "searchable"]))
       {| attribute_names := []; attribute_set := {["primary_key"]}; local_attribute_set := ∅ |}
     = Ok title_state
  /\ attr_state_wf {["primary_key"]} title_state.
Proof.
  destruct (attr_state_invariant {["primary_key"]}) as (Hinit & _ & _ & Htoks & _).
  assert (H : process_tokens (attr_tokens (index_config_attr ["displayed"; "searchable"]))
                {| attribute_names := []; attribute_set := {["primary_key"]};
                   local_attribute_set := ∅ |} = Ok title_state) by (vm_compute; reflexivity).
  split; [exact Hinit|]. split; [exact H|]. exact (Htoks _ _ _ Hinit H).
Defined.
