(* ===== verification/Documents.v ===== *)
(** * Document queries and the [IndexConfig] trait ([src/src/documents.rs])

    The three query builders of [documents.rs] ([DocumentQuery],
    [DocumentsQuery], [DocumentDeletionQuery]) as records with their
    [new], [with_*] and [execute] methods, the JSON their
    [#[derive(Serialize)]] writes, the [#[derive(Deserialize)]] of
    [DocumentsResults<T>] with its [u32] fields, the [IndexConfig] trait
    with its provided [index] method, and the [generate_index] the derive
    macro emits (create the index, wait for the task, make the handle). *)

From stdpp Require Import base list strings pretty gmap.
From Stdlib Require Import ZArith.
From S2P Require Import Prelude Serde Errors Method Request Transports Client Tasks Settings IndexConfig.

Open Scope string_scope.
#[local] Set Warnings "-abstract-large-number -clear-no-such-hyp".

(** ** [DocumentsResults<T>] *)

Record DocumentsResults (T : Type) := {
  results : list T;
  dr_limit : Z;
  dr_offset : Z;
  dr_total : Z
}.
Arguments results {T} _.
Arguments dr_limit {T} _.
Arguments dr_offset {T} _.
Arguments dr_total {T} _.

Definition U32_MAX : Z := 4294967295.

Definition in_u32 (z : Z) : bool := (0 <=? z)%Z && (z <=? U32_MAX)%Z.

(** serde's [u32]: a JSON integer that fits in 32 unsigned bits. *)
Definition u32_from_json (j : json) : result Z JsonError :=
  match j with
  | JNumber z => if in_u32 z then Ok z else Err (json_error "invalid value: expected u32")
  | _ => Err (json_error "invalid type: expected u32")
  end.

(** A required field read with an explicit decoder. *)
Definition req_field_with {A} (dec : json -> result A JsonError)
    (kvs : list (string * json)) (k : string) : result A JsonError :=
  let? o := json_field kvs k in
  match o with
  | None => Err (json_error ("missing field `" +:+ k +:+ "`"))
  | Some j => dec j
  end.

(** [#[derive(Deserialize)]] of [DocumentsResults<T>]: four required
    fields, [results] a sequence of [T], the others [u32]. *)
#[export] Instance documents_results_from_json {T} `{FromJson T}
  : FromJson (DocumentsResults T) :=
  fun j => match j with
           | JObject kvs =>
               let? rs := req_field_with list_from_json kvs "results" in
               let? limit := req_field_with u32_from_json kvs "limit" in
               let? offset := req_field_with u32_from_json kvs "offset" in
               let? total := req_field_with u32_from_json kvs "total" in
               Ok {| results := rs; dr_limit := limit; dr_offset := offset; dr_total := total |}
           | _ => Err (json_error "invalid type: expected struct DocumentsResults")
           end.

(** ** [DocumentQuery]: one document by id *)

Record DocumentQuery := {
  dq_index : Index;
  dq_fields : option (list string)
}.

(** [DocumentQuery::new] *)
Definition document_query_new (index : Index) : DocumentQuery :=
  {| dq_index := index; dq_fields := None |}.

(** [DocumentQuery::with_fields]: [self.fields = Some(fields.into_iter().collect())]. *)
Definition document_query_with_fields (q : DocumentQuery) (fields : list string) : DocumentQuery :=
  {| dq_index := dq_index q; dq_fields := Some fields |}.

(** [#[derive(Serialize)]]: [index] is [skip_serializing], [fields] is
    [skip_serializing_if = "Option::is_none"]. *)
#[export] Instance document_query_to_json : ToJson DocumentQuery :=
  fun q => JObject (opt_entry "fields" (dq_fields q)).

(** ** [DocumentsQuery]: a page of documents *)

Record DocumentsQuery := {
  dsq_index : Index;
  dsq_offset : option nat;
  dsq_limit : option nat;
  dsq_fields : option (list string)
}.

(** [DocumentsQuery::new] *)
Definition documents_query_new (index : Index) : DocumentsQuery :=
  {| dsq_index := index; dsq_offset := None; dsq_limit := None; dsq_fields := None |}.

(** [DocumentsQuery::with_offset] *)
Definition documents_query_with_offset (q : DocumentsQuery) (offset : nat) : DocumentsQuery :=
  {| dsq_index := dsq_index q; dsq_offset := Some offset; dsq_limit := dsq_limit q;
     dsq_fields := dsq_fields q |}.

(** [DocumentsQuery::with_limit] *)
Definition documents_query_with_limit (q : DocumentsQuery) (limit : nat) : DocumentsQuery :=
  {| dsq_index := dsq_index q; dsq_offset := dsq_offset q; dsq_limit := Some limit;
     dsq_fields := dsq_fields q |}.

(** [DocumentsQuery::with_fields] *)
Definition documents_query_with_fields (q : DocumentsQuery) (fields : list string) : DocumentsQuery :=
  {| dsq_index := dsq_index q; dsq_offset := dsq_offset q; dsq_limit := dsq_limit q;
     dsq_fields := Some fields |}.

(** [#[derive(Serialize)]]: the set fields in declaration order, the
    index never. *)
#[export] Instance documents_query_to_json : ToJson DocumentsQuery :=
  fun q => JObject (opt_entry "offset" (dsq_offset q) ++ opt_entry "limit" (dsq_limit q)
                    ++ opt_entry "fields" (dsq_fields q))%list.

(** ** [DocumentDeletionQuery]: documents matching a filter *)

Record DocumentDeletionQuery := {
  ddq_index : Index;
  ddq_filter : string
}.

(** [DocumentDeletionQuery::new]: the filter starts empty. *)
Definition document_deletion_query_new (index : Index) : DocumentDeletionQuery :=
  {| ddq_index := index; ddq_filter := "" |}.

(** [DocumentDeletionQuery::with_filter] *)
Definition document_deletion_query_with_filter (q : DocumentDeletionQuery) (filter : string)
  : DocumentDeletionQuery :=
  {| ddq_index := ddq_index q; ddq_filter := filter |}.

(** [#[derive(Serialize)]]: [filter] has no [skip_serializing_if]. *)
#[export] Instance document_deletion_query_to_json : ToJson DocumentDeletionQuery :=
  fun q => JObject [("filter", JString (ddq_filter q))].

(** ** The index methods [execute] calls ([indexes.rs], [client.rs])

    [indexes.rs] and [client.rs] are not among the staged sources: these
    are the thin dispatcher calls the spec describes as facades. *)

Section IndexDocuments.
  Context {W : Type} `{DE : Deserialize MeilisearchError} `{JC : JsonCodec} `{YE : YaupEncoder}.
  Variable network : WireRequest -> io W Error RawResponse.
  Variable VERSION : option string.
  Variable arch : TargetArch.

  (** [format!("{}/indexes/{}/documents...", self.client.host, self.uid)] *)
Definition documents_url (idx : Index) (route : string) : string :=
    host (index_client idx) +:+ "/indexes/" +:+ uid idx +:+ "/documents" +:+ route.

  (** [Index::get_document_with]: [GET], the query in the URL, [200]. *)
Definition get_document_with {T} `{Deserialize T} (idx : Index) (document_id : string)
      (q : DocumentQuery) : io W Error T :=
    meili_request network VERSION arch (B0:=unit) (documents_url idx ("/" +:+ document_id))
      (get_api_key (index_client idx)) (Get q) 200.

  (** [Index::get_documents_with] *)
Definition get_documents_with {T} `{FromJson T} (idx : Index) (q : DocumentsQuery)
    : io W Error (DocumentsResults T) :=
    meili_request network VERSION arch (B0:=unit) (documents_url idx "")
      (get_api_key (index_client idx)) (Get q) 200.

  (** [Index::delete_documents_with]: the query is the [POST] body, [202]. *)
Definition delete_documents_with (idx : Index) (q : DocumentDeletionQuery) : io W Error TaskInfo :=
    meili_request network VERSION arch (documents_url idx "/delete")
      (get_api_key (index_client idx)) (Post tt q) 202.

  (** [DocumentQuery::execute]: [self.index.get_document_with::<T>(document_id, self)] *)
Definition document_query_execute {T} `{Deserialize T} (q : DocumentQuery) (document_id : string)
    : io W Error T :=
    get_document_with (dq_index q) document_id q.

  (** [DocumentsQuery::execute]: [self.index.get_documents_with::<T>(self)] *)
Definition documents_query_execute {T} `{FromJson T} (q : DocumentsQuery)
    : io W Error (DocumentsResults T) :=
    get_documents_with (dsq_index q) q.

  (** [DocumentDeletionQuery::execute]: [self.index.delete_documents_with(self)] *)
Definition document_deletion_query_execute (q : DocumentDeletionQuery) : io W Error TaskInfo :=
    delete_documents_with (ddq_index q) q.
End IndexDocuments.

(** ** The [IndexConfig] trait and the implementation the derive emits *)

(** [trait IndexConfig]: the associated constant and [generate_settings];
    [index] is the provided method. *)
Class IndexConfig (T : Type) := {
  index_config_str : string;
  index_config_settings : Settings
}.
Arguments index_config_str T {_}.
Arguments index_config_settings T {_}.

(** [IndexConfig::index]: [client.index(Self::INDEX_STR)]. *)
Definition index (T : Type) `{IndexConfig T} (c : Client) : Index :=
  client_index c (index_config_str T).

(** [impl IndexConfig for #struct_ident]: [INDEX_STR] and
    [generate_settings] as the macro writes them. *)
Definition derived_index_config (T : Type) (impl : IndexConfigImpl) : IndexConfig T :=
  {| index_config_str := INDEX_STR impl; index_config_settings := generate_settings impl |}.

Section GenerateIndex.
  Context {W : Type} `{CK : Clock W} `{DE : Deserialize MeilisearchError} `{JC : JsonCodec}.
  Variable network : WireRequest -> io W Error RawResponse.
  Variable VERSION : option string.
  Variable arch : TargetArch.

  (** [Client::create_index(uid, primary_key)]: [POST {host}/indexes] with
      [json!({"uid": uid, "primaryKey": primary_key})], [202]. *)
Definition create_index (c : Client) (index_uid : string) (primary_key : option string)
    : io W Error TaskInfo :=
    meili_request network VERSION arch (host c +:+ "/indexes") (get_api_key c)
      (Post tt (JObject [("uid", JString index_uid); ("primaryKey", to_json primary_key)])) 202.

  (** The emitted [generate_index]:
      [client.create_index(#index_name, #primary_key_token).await.unwrap()
         .wait_for_completion(&client, None, None).await.unwrap()
         .try_make_index(&client)].  [None] is a poller out of fuel. *)
Definition generate_index (impl : IndexConfigImpl) (c : Client) (fuel : nat) (w : W)
    : option (outcome (result Index Task) * W) :=
    match create_index c (INDEX_STR impl) (primary_key_token impl) w with
    | (Err _, w1) => Some (Panicked UNWRAP_ERR, w1)
    | (Ok ti, w1) =>
        match wait_for_task network VERSION arch c fuel ti None None w1 with
        | None => None
        | Some (Err _, w2) => Some (Panicked UNWRAP_ERR, w2)
        | Some (Ok t, w2) => Some (Returned (try_make_index c t), w2)
        end
    end.
End GenerateIndex.

(** ** The shape of what the client serializes *)

Lemma synonyms_json_wf (m : gmap string (list string)) : json_wf (to_json m) = true.
Proof.
  unfold to_json at 1, synonyms_to_json. simpl. apply andb_true_intro. split.
  - apply bool_decide_eq_true. rewrite map_map. apply NoDup_fst_map_to_list.
  - apply forallb_forall. intros kv (kv' & <- & _)%in_map_iff. apply list_string_json_wf.
Qed.

Lemma settings_keys (s : Settings) :
  map fst (settings_entries s) `sublist_of`
    ["synonyms"; "stopWords"; "rankingRules"; "filterableAttributes"; "sortableAttributes";
     "distinctAttribute"; "searchableAttributes"; "displayedAttributes"; "pagination"; "faceting"].
Proof.
  unfold settings_entries. rewrite !map_app.
  change [_; _; _; _; _; _; _; _; _; _] with
    (["synonyms"] ++ ["stopWords"] ++ ["rankingRules"] ++ ["filterableAttributes"]
     ++ ["sortableAttributes"] ++ ["distinctAttribute"] ++ ["searchableAttributes"]
     ++ ["displayedAttributes"] ++ ["pagination"] ++ ["faceting"])%list.
  repeat apply sublist_app; apply opt_entry_keys.
Qed.

Lemma documents_query_keys (q : DocumentsQuery) :
  map fst (opt_entry "offset" (dsq_offset q) ++ opt_entry "limit" (dsq_limit q)
           ++ opt_entry "fields" (dsq_fields q))%list `sublist_of` ["offset"; "limit"; "fields"].
Proof.
  rewrite !map_app. change ["offset"; "limit"; "fields"] with (["offset"] ++ ["limit"] ++ ["fields"])%list.
  repeat apply sublist_app; apply opt_entry_keys.
Qed.

Lemma NoDup_sublist_of_keys (l ks : list string) :
  l `sublist_of` ks -> bool_decide (NoDup ks) = true -> bool_decide (NoDup l) = true.
Proof.
  intros Hs Hk. apply bool_decide_eq_true. apply bool_decide_eq_true in Hk.
  exact (sublist_NoDup _ _ Hk Hs).
Qed.

(** C36: type.  Every value the client serializes is well formed: the
    [Settings] body is a JSON object with distinct keys at every depth
    (so the [HashMap] of synonyms included); the two document reads'
    queries are flat objects with distinct keys whose values are numbers
    or sequences of strings, the shape yaup writes as a query string; and
    the deletion body is both. *)
Theorem serialized_values_wf :
  (forall s : Settings, json_wf (to_json s) = true)
  /\ (forall q : DocumentsQuery, flat_object (to_json q) = true)
  /\ (forall q : DocumentQuery, flat_object (to_json q) = true)
  /\ (forall q : DocumentDeletionQuery, json_wf (to_json q) = true /\ flat_object (to_json q) = true).
Proof.
  split_and!.
  - intros s. unfold to_json at 1, settings_to_json. simpl. apply andb_true_intro. split.
    + eapply NoDup_sublist_of_keys; [apply settings_keys|by vm_compute].
    + unfold settings_entries. rewrite !forallb_app.
      repeat (apply andb_true_intro; split);
        apply opt_entry_forallb; intros a;
        first [apply list_string_json_wf | apply synonyms_json_wf | reflexivity].
  - intros q. unfold to_json at 1, documents_query_to_json. simpl. apply andb_true_intro. split.
    + eapply NoDup_sublist_of_keys; [apply documents_query_keys|by vm_compute].
    + rewrite !forallb_app. repeat (apply andb_true_intro; split);
        apply opt_entry_forallb; intros a; first [apply list_string_query_value | reflexivity].
  - intros q. unfold to_json at 1, document_query_to_json. simpl. apply andb_true_intro. split.
    + eapply NoDup_sublist_of_keys; [apply opt_entry_keys|by vm_compute].
    + apply opt_entry_forallb, list_string_query_value.
  - intros q. split; reflexivity.
Qed.

(** ** Chains of builder calls *)

(** One [with_*] call on a [DocumentsQuery]. *)
Inductive DocumentsQueryCall :=
| WithOffset (offset : nat)
| WithLimit (limit : nat)
| WithFields (fields : list string).

Definition apply_documents_call (q : DocumentsQuery) (c : DocumentsQueryCall) : DocumentsQuery :=
  match c with
  | WithOffset o => documents_query_with_offset q o
  | WithLimit l => documents_query_with_limit q l
  | WithFields f => documents_query_with_fields q f
  end.

(** The value a chain leaves in each field: the last one given. *)
Definition call_offset (acc : option nat) (c : DocumentsQueryCall) : option nat :=
  match c with WithOffset o => Some o | _ => acc end.
Definition call_limit (acc : option nat) (c : DocumentsQueryCall) : option nat :=
  match c with WithLimit l => Some l | _ => acc end.
Definition call_fields (acc : option (list string)) (c : DocumentsQueryCall)
  : option (list string) :=
  match c with WithFields f => Some f | _ => acc end.

Lemma documents_calls_fold q cs :
  foldl apply_documents_call q cs
  = {| dsq_index := dsq_index q; dsq_offset := foldl call_offset (dsq_offset q) cs;
       dsq_limit := foldl call_limit (dsq_limit q) cs;
       dsq_fields := foldl call_fields (dsq_fields q) cs |}.
Proof.
  revert q. induction cs as [|c cs IH]; intros q; [by destruct q|].
  simpl. rewrite IH. by destruct c.
Qed.

(** C26: a [DocumentsQuery] built by [new] and any chain of [with_*]
    calls keeps its index and serializes to the parameters the chain set,
    in declaration order ([offset], [limit], [fields]), each with the last
    value given to it; an unset parameter and the index are never sent. *)
Theorem documents_query_builders_json idx cs :
  dsq_index (foldl apply_documents_call (documents_query_new idx) cs) = idx
  /\ to_json (foldl apply_documents_call (documents_query_new idx) cs)
     = JObject (opt_entry "offset" (foldl call_offset None cs)
                ++ opt_entry "limit" (foldl call_limit None cs)
                ++ opt_entry "fields" (foldl call_fields None cs))%list.
Proof. by rewrite documents_calls_fold. Qed.

(** ** Decoding [DocumentsResults<T>] *)

(** The object the service answers a documents fetch with. *)
Definition documents_results_json (items : list json) (limit offset total : Z) : json :=
  JObject [("results", JArray items); ("limit", JNumber limit); ("offset", JNumber offset);
           ("total", JNumber total)].

Lemma in_u32_reflect z : reflect (0 <= z < 2 ^ 32)%Z (in_u32 z).
Proof.
  apply iff_reflect. unfold in_u32, U32_MAX. rewrite andb_true_iff, Z.leb_le, Z.leb_le.
  change (2 ^ 32)%Z with 4294967296%Z. lia.
Qed.

(** C27: bounds.  A page whose items all decode is read as the
    [DocumentsResults] with those items exactly when [limit], [offset] and
    [total] lie in [0, 2^32 - 1]; a value outside that range is the parse
    error of serde's [u32], never a truncated number. *)
Theorem documents_results_decode {T} `{FromJson T} items (rs : list T) limit offset total :
  list_of_jsons items = Ok rs ->
  (forall r, from_json (documents_results_json items limit offset total) = Ok r
             <-> ((0 <= limit < 2 ^ 32) /\ (0 <= offset < 2 ^ 32) /\ (0 <= total < 2 ^ 32))%Z
                 /\ r = {| results := rs; dr_limit := limit; dr_offset := offset; dr_total := total |})
  /\ (~ ((0 <= limit < 2 ^ 32) /\ (0 <= offset < 2 ^ 32) /\ (0 <= total < 2 ^ 32))%Z ->
      from_json (A:=DocumentsResults T) (documents_results_json items limit offset total)
      = Err (json_error "invalid value: expected u32")).
Proof.
  intros Hrs. unfold from_json at 1 2, documents_results_from_json, documents_results_json.
  unfold req_field_with, json_field; simpl. rewrite Hrs; simpl. unfold u32_from_json.
  destruct (in_u32_reflect limit), (in_u32_reflect offset), (in_u32_reflect total);
    simpl; split; naive_solver.
Qed.

(** ** What the queries send *)

Section DocumentsWire.
  Context {W : Type} `{DE : Deserialize MeilisearchError} `{JC : JsonCodec} `{YE : YaupEncoder}.
  Variable network : WireRequest -> io W Error RawResponse.
  Variable VERSION : option string.
  Variable arch : TargetArch.

  (** The URL [add_query_parameters] builds from an encoded query. *)
Definition with_query (base s : string) : string :=
    if String.eqb s "" then base else base +:+ "?" +:+ s.

  (** The [GET] a query sends: no body, hence no [Content-Type]. *)
Definition get_wire (url : string) (apikey : option string) : WireRequest :=
    {| wr_method := GET; wr_url := url;
       wr_headers := [("User-Agent", qualified_version VERSION)] ++ auth_header apikey;
       wr_body := None |}.

Lemma wire_request_get {Q} `{ToJson Q} url apikey (q : Q) s :
    yaup_encode (to_json q) = Ok s ->
    wire_request VERSION url apikey (Get (B:=unit) q) CONTENT_TYPE
    = Ok (get_wire (with_query url s) apikey).
  Proof.
    intros Hs. unfold wire_request, add_query_parameters, yaup_to_string,
      serialize_query_of_json. cbn [query]. rewrite Hs. simpl.
    unfold get_wire, with_query, content_type_header; simpl. by rewrite app_nil_r.
  Qed.

  (** C28: the two document reads are one [GET] each.  [execute] of a
      [DocumentQuery] fetches [{host}/indexes/{uid}/documents/{id}] and of a
      [DocumentsQuery] fetches [{host}/indexes/{uid}/documents], with the
      query's encoded parameters after a [?] (none if it encodes to the
      empty string), the client's key and no body; the response is
      classified against [200] and the URL without the query. *)
Theorem documents_read_exchange {T} `{FromJson T} (q : DocumentQuery) (qs : DocumentsQuery)
      id s s' w :
    yaup_encode (to_json q) = Ok s -> yaup_encode (to_json qs) = Ok s' ->
    (let url := documents_url (dq_index q) ("/" +:+ id) in
     document_query_execute network VERSION arch (T:=T) q id w
     = match network (get_wire (with_query url s) (get_api_key (index_client (dq_index q)))) w with
       | (Ok raw, w1) => (parse_response (rr_status raw) 200 (rr_body raw) url, w1)
       | (Err e, w1) => (Err e, w1)
       end)
    /\ (let url := documents_url (dsq_index qs) "" in
        documents_query_execute network VERSION arch (T:=T) qs w
        = match network (get_wire (with_query url s') (get_api_key (index_client (dsq_index qs)))) w with
          | (Ok raw, w1) => (parse_response (rr_status raw) 200 (rr_body raw) url, w1)
          | (Err e, w1) => (Err e, w1)
          end).
  Proof.
    intros Hs Hs'. split; simpl;
      unfold document_query_execute, documents_query_execute, get_document_with,
        get_documents_with; rewrite meili_request_dispatch;
      apply dispatch_wire, wire_request_get; assumption.
  Qed.

  (** C29: a deletion by filter is one [POST] of
      [{host}/indexes/{uid}/documents/delete] without query string, whose
      JSON body is [{"filter": <filter>}] (so [new] without [with_filter]
      sends the empty filter), with [Content-Type] and the client's key;
      the answer is classified against [202]. *)
Theorem document_deletion_exchange (q : DocumentDeletionQuery) w :
    let url := documents_url (ddq_index q) "/delete" in
    document_deletion_query_execute network VERSION arch q w
    = match network {| wr_method := POST; wr_url := url;
                       wr_headers := [("User-Agent", qualified_version VERSION)]
                                     ++ auth_header (get_api_key (index_client (ddq_index q)))
                                     ++ [("Content-Type", CONTENT_TYPE)];
                       wr_body := Some (print_json (JObject [("filter", JString (ddq_filter q))])) |} w with
      | (Ok raw, w1) => (parse_response (rr_status raw) 202 (rr_body raw) url, w1)
      | (Err e, w1) => (Err e, w1)
      end.
  Proof.
    simpl. unfold document_deletion_query_execute, delete_documents_with.
    rewrite meili_request_dispatch. by apply dispatch_wire.
  Qed.
End DocumentsWire.

(** ** What the derived [generate_index] does *)

Section GenerateIndexProofs.
  Context {W : Type} `{CK : Clock W} `{DE : Deserialize MeilisearchError} `{JC : JsonCodec}.
  Variable network : WireRequest -> io W Error RawResponse.
  Variable VERSION : option string.
  Variable arch : TargetArch.
  Variables lat_min lat_max : nat.
  Hypothesis network_latency : forall wr w,
    now w + lat_min <= now (snd (network wr w)) <= now w + lat_max.

  (** The [POST] [create_index] sends for the emitted impl. *)
Definition create_index_wire (impl : IndexConfigImpl) (c : Client) : WireRequest :=
    {| wr_method := POST; wr_url := host c +:+ "/indexes";
       wr_headers := [("User-Agent", qualified_version VERSION)] ++ auth_header (get_api_key c)
                     ++ [("Content-Type", CONTENT_TYPE)];
       wr_body := Some (print_json (JObject [("uid", JString (INDEX_STR impl));
                                             ("primaryKey", to_json (primary_key_token impl))])) |}.

Lemma create_index_exchange impl c w :
    create_index network VERSION arch c (INDEX_STR impl) (primary_key_token impl) w
    = match network (create_index_wire impl c) w with
      | (Ok raw, w1) => (parse_response (rr_status raw) 202 (rr_body raw) (host c +:+ "/indexes"), w1)
      | (Err e, w1) => (Err e, w1)
      end.
  Proof. unfold create_index. rewrite meili_request_dispatch. by apply dispatch_wire. Qed.

  (** The wait of [generate_index] is the poller with the defaults. *)
Lemma generate_index_wait impl c fuel w ti w1 :
    create_index network VERSION arch c (INDEX_STR impl) (primary_key_token impl) w = (Ok ti, w1) ->
    generate_index network VERSION arch impl c fuel w
    = match wait_loop (get_task network VERSION arch c) fuel (ti_task_uid ti)
              DEFAULT_INTERVAL DEFAULT_TIMEOUT (now w1) w1 with
      | None => None
      | Some (Err _, w2) => Some (Panicked UNWRAP_ERR, w2)
      | Some (Ok t, w2) => Some (Returned (try_make_index c t), w2)
      end.
  Proof. intros Hc. unfold generate_index. by rewrite Hc. Qed.

  (** C30: termination.  Whatever the service answers, the derived
      [generate_index] ends (returns or panics) within
      [DEFAULT_TIMEOUT / (DEFAULT_INTERVAL + lat_min) + 2] task fetches:
      the defaults [None, None] give a positive interval, so the clock
      advances at each turn of the poller. *)
Theorem generate_index_terminates impl c fuel w :
    DEFAULT_TIMEOUT / (DEFAULT_INTERVAL + lat_min) + 2 <= fuel ->
    is_Some (generate_index network VERSION arch impl c fuel w).
  Proof.
    intros Hf.
    destruct (create_index network VERSION arch c (INDEX_STR impl) (primary_key_token impl) w)
      as [[ti|e] w1] eqn:Hc; [|unfold generate_index; rewrite Hc; by eexists].
    rewrite (generate_index_wait _ _ _ _ _ _ Hc).
    destruct (wait_loop_terminates_gen (get_task network VERSION arch c) lat_min lat_max
                (get_task_latency network VERSION arch lat_min lat_max network_latency c)
                fuel (ti_task_uid ti) DEFAULT_INTERVAL DEFAULT_TIMEOUT w1)
      as [[[t|e] w2] ->]; [unfold DEFAULT_INTERVAL; lia|done|by eexists..].
  Qed.

  (** C31: when [generate_index] returns, its result is [try_make_index]
      of a task in a terminal status: an [Ok] index is the handle the
      succeeded creation task names, any other terminal task is handed
      back as [Err]. *)
Theorem generate_index_returns_terminal impl c fuel w r w' :
    generate_index network VERSION arch impl c fuel w = Some (Returned r, w') ->
    exists t, is_terminal (task_status t) = true /\ r = try_make_index c t.
  Proof.
    destruct (create_index network VERSION arch c (INDEX_STR impl) (primary_key_token impl) w)
      as [[ti|e] w1] eqn:Hc; [|unfold generate_index; rewrite Hc; discriminate].
    rewrite (generate_index_wait _ _ _ _ _ _ Hc).
    destruct (wait_loop _ _ _ _ _ _ _) as [[[t|e] w2]|] eqn:Hw; intros H; try discriminate.
    injection H as <- _. exists t. split; [|done].
    exact (wait_loop_terminal_gen _ _ _ _ _ _ _ _ _ Hw).
  Qed.

  (** A refused creation: the first [unwrap] panics after the one
      exchange. *)
Lemma generate_index_create_error impl c fuel w r w1 :
    network (create_index_wire impl c) w = (r, w1) ->
    (forall raw, r = Ok raw -> rr_status raw <> 202%Z) ->
    generate_index network VERSION arch impl c fuel w = Some (Panicked UNWRAP_ERR, w1).
  Proof.
    intros Hn Hs. unfold generate_index. rewrite create_index_exchange, Hn.
    destruct r as [raw|e]; [|done].
    rewrite parse_response_unfold. specialize (Hs raw eq_refl). apply Z.eqb_neq in Hs. rewrite Hs.
    destruct (from_str _); [done|]. by destruct (400 <=? _)%Z.
  Qed.

  Hypothesis network_no_timeout : forall wr w, fst (network wr w) <> Err Timeout.

  (** A task that never finishes: the second [unwrap] panics on the
      poller's [Timeout]. *)
Lemma generate_index_timeout impl c fuel w ti w1 :
    create_index network VERSION arch c (INDEX_STR impl) (primary_key_token impl) w = (Ok ti, w1) ->
    (forall w, match get_task network VERSION arch c (ti_task_uid ti) w with
               | (Ok t, _) => is_terminal (task_status t) = false
               | (Err _, _) => False
               end) ->
    DEFAULT_TIMEOUT / (DEFAULT_INTERVAL + lat_min) + 2 <= fuel ->
    exists w', generate_index network VERSION arch impl c fuel w = Some (Panicked UNWRAP_ERR, w')
               /\ DEFAULT_TIMEOUT < now w' - now w1 <= DEFAULT_TIMEOUT + DEFAULT_INTERVAL + lat_max.
  Proof.
    intros Hc Hstuck Hf. rewrite (generate_index_wait _ _ _ _ _ _ Hc).
    destruct (wait_loop_terminates_gen (get_task network VERSION arch c) lat_min lat_max
                (get_task_latency network VERSION arch lat_min lat_max network_latency c)
                fuel (ti_task_uid ti) DEFAULT_INTERVAL DEFAULT_TIMEOUT w1)
      as [[r w2] Hw]; [unfold DEFAULT_INTERVAL; lia|done|].
    pose proof (wait_loop_stuck _ _ _ _ _ _ _ _ _ Hstuck Hw) as ->.
    exists w2. rewrite Hw. split; [done|].
    exact (wait_loop_timeout_gen _ lat_min lat_max
             (get_task_latency network VERSION arch lat_min lat_max network_latency c)
             (get_task_no_timeout network VERSION arch network_no_timeout c) _ _ _ _ _ _ Hw).
  Qed.

  (** C32: error handling of the emitted code.  [generate_index] never
      returns an error: when the service refuses the index creation (any
      status other than [202]) or the exchange fails, it panics on its
      first [unwrap] after that one exchange, without polling; when the
      creation is accepted but the task never finishes, it panics once
      the default timeout of 5 s has passed since the creation was
      accepted (and at most [DEFAULT_INTERVAL + lat_max] ms later), since
      [Result<Index, Task>] cannot carry [Error::Timeout]. *)
Theorem generate_index_panics impl c fuel w :
    (forall r w1, network (create_index_wire impl c) w = (r, w1) ->
       (forall raw, r = Ok raw -> rr_status raw <> 202%Z) ->
       generate_index network VERSION arch impl c fuel w = Some (Panicked UNWRAP_ERR, w1))
    /\ (forall ti w1,
        create_index network VERSION arch c (INDEX_STR impl) (primary_key_token impl) w = (Ok ti, w1) ->
        (forall w, match get_task network VERSION arch c (ti_task_uid ti) w with
                   | (Ok t, _) => is_terminal (task_status t) = false
                   | (Err _, _) => False
                   end) ->
        DEFAULT_TIMEOUT / (DEFAULT_INTERVAL + lat_min) + 2 <= fuel ->
        exists w', generate_index network VERSION arch impl c fuel w = Some (Panicked UNWRAP_ERR, w')
                   /\ DEFAULT_TIMEOUT < now w' - now w1 <= DEFAULT_TIMEOUT + DEFAULT_INTERVAL + lat_max).
  Proof. split; intros; [by eapply generate_index_create_error|by eapply generate_index_timeout]. Qed.
End GenerateIndexProofs.

Section GenerateIndexSuccess.
  Context {W : Type} `{CK : Clock W} `{DE : Deserialize MeilisearchError} `{JC : JsonCodec}.
  Variable network : WireRequest -> io W Error RawResponse.
  Variable VERSION : option string.
  Variable arch : TargetArch.

  (** C33: the derived impl agrees with the trait.  When the service
      accepts the creation and the first fetch of the task reports a
      succeeded index creation of [INDEX_STR], [generate_index] returns
      [IndexConfig::index(client)] of the same derived impl, after that
      one fetch. *)
Theorem generate_index_creates (T : Type) impl c fuel w ti w1 t w2 pk :
    create_index network VERSION arch c (INDEX_STR impl) (primary_key_token impl) w = (Ok ti, w1) ->
    get_task network VERSION arch c (ti_task_uid ti) w1 = (Ok t, w2) ->
    task_status t = Succeeded -> task_type t = IndexCreation pk ->
    task_index_uid t = Some (INDEX_STR impl) ->
    generate_index network VERSION arch impl c (S fuel) w
    = Some (Returned (Ok (@index T (derived_index_config T impl) c)), w2).
  Proof.
    intros Hc Hg Hs Hty Hu. rewrite (generate_index_wait _ _ _ _ _ _ _ _ _ Hc), wait_loop_S, Hg, Hs.
    simpl. unfold try_make_index. by rewrite Hs, Hty, Hu.
  Qed.
End GenerateIndexSuccess.

(** ** Witnesses *)

Definition demo_index : Index :=
  client_index {| host := "http://localhost:7700"; api_key := Some "masterKey" |} "movies".

(** A query-string writer for flat objects of numbers, strings and string
    sequences, as yaup writes them; anything else is refused. *)
Definition demo_query_value (j : json) : option string :=
  match j with
  | JNumber z => Some (pretty (Z.to_nat z))
  | JString s => Some s
  | JArray l => Some (String.concat "," (omap (fun j => match j with JString s => Some s | _ => None end) l))
  | _ => None
  end.

Definition demo_yaup : YaupEncoder :=
  fun j => match j with
           | JObject kvs =>
               match mapM (fun kv => (fun v => kv.1 +:+ "=" +:+ v) <$> demo_query_value kv.2) kvs with
               | Some ps => Ok (String.concat "&" ps)
               | None => Err "unsupported value"
               end
           | _ => Err "top-level serializer supports only maps and structs"
           end.

(** The test [test_get_documents_with_execute]: limit 1, offset 1, the
    field [kind]. *)
Definition demo_documents_query : DocumentsQuery :=
  foldl apply_documents_call (documents_query_new demo_index) [WithLimit 1; WithOffset 1; WithFields ["kind"]].

Lemma documents_results_decode_witness :
  list_of_jsons (A:=string) [JString "a"] = Ok ["a"]
  /\ from_json (A:=DocumentsResults string) (documents_results_json [JString "a"] 4294967296 0 4)
     = Err (json_error "invalid value: expected u32").
Proof.
  split; [reflexivity|].
  apply (proj2 (@documents_results_decode string string_from_json [JString "a"] ["a"] 4294967296 0 4 eq_refl)).
  intros [[_ Hl] _]. discriminate.
Defined.

Lemma documents_read_exchange_witness :
  yaup_encode (YaupEncoder:=demo_yaup) (to_json (document_query_with_fields (document_query_new demo_index) ["title"]))
    = Ok "fields=title"
  /\ yaup_encode (YaupEncoder:=demo_yaup) (to_json demo_documents_query) = Ok "offset=1&limit=1&fields=kind"
  /\ documents_query_execute (DE:=fixture_error_decoder) (JC:=fixture_codec) (YE:=demo_yaup)
       logging_service None NotWasm32 (T:=string) demo_documents_query []
     = match logging_service (get_wire None
               (with_query "http://localhost:7700/indexes/movies/documents" "offset=1&limit=1&fields=kind")
               (Some "masterKey")) [] with
       | (Ok raw, w1) => (parse_response (DE:=fixture_error_decoder) (H:=@deserialize_of_json fixture_codec _ _)
                            (rr_status raw) 200 (rr_body raw) "http://localhost:7700/indexes/movies/documents", w1)
       | (Err e, w1) => (Err e, w1)
       end.
Proof.
  split; [reflexivity|]. split; [reflexivity|].
  exact (proj2 (documents_read_exchange (DE:=fixture_error_decoder) (JC:=fixture_codec) (YE:=demo_yaup)
                  logging_service None NotWasm32 (T:=string)
                  (document_query_with_fields (document_query_new demo_index) ["title"])
                  demo_documents_query "1" "fields=title" "offset=1&limit=1&fields=kind" [] eq_refl eq_refl)).
Defined.

(** A service for [MovieClips::generate_index]: the creation is
    accepted with [202]; every fetch of the task answers [200] with
    [task_body]; answers take no time. *)
Definition creation_service (task_body : string) : WireRequest -> io FakeWorld Error RawResponse :=
  fun wr w =>
    (Ok (if bool_decide (wr_method wr = POST) then {| rr_status := 202; rr_body := "taskinfo" |}
         else {| rr_status := 200; rr_body := task_body |}),
     {| fw_clock := fw_clock w; fw_polls := S (fw_polls w) |}).

(** A service that refuses the creation: the index already exists. *)
Definition refusing_service : WireRequest -> io FakeWorld Error RawResponse :=
  fun _ w => (Ok {| rr_status := 409; rr_body := "index_already_exists" |},
              {| fw_clock := fw_clock w; fw_polls := S (fw_polls w) |}).

Definition creation_task_json (status : string) : json :=
  JObject [("uid", JNumber 3); ("indexUid", JString "movie_clips"); ("status", JString status);
           ("type", JString "indexCreation");
           ("details", JObject [("primaryKey", JString "movie_id")])].

(** The JSON text layer of the fixtures: a body names the object. *)
Definition creation_codec : JsonCodec :=
  {| print_json := fun _ => "{}";
     parse_json := fun s =>
       if String.eqb s "taskinfo" then
         Ok (JObject [("taskUid", JNumber 3); ("indexUid", JString "movie_clips");
                      ("status", JString "enqueued"); ("type", JString "indexCreation")])
       else if String.eqb s "index_already_exists" then
         Ok (JObject [("message", JString "Index `movie_clips` already exists.");
                      ("code", JString "index_already_exists"); ("type", JString "invalid_request");
                      ("link", JString "https://docs.meilisearch.com/errors#index_already_exists")])
       else Ok (creation_task_json s) |}.

Definition creation_error_decoder : Deserialize MeilisearchError :=
  @deserialize_of_json creation_codec MeilisearchError _.

Definition movie_client : Client := {| host := "http://localhost:7700"; api_key := Some "masterKey" |}.
Definition start_world : FakeWorld := {| fw_clock := 0; fw_polls := 0 |}.

Definition accepted_info : TaskInfo :=
  {| ti_task_uid := 3; ti_index_uid := Some "movie_clips"; ti_status := Enqueued;
     ti_type := IndexCreation None |}.

Definition created_task : Task :=
  {| task_uid := 3; task_index_uid := Some "movie_clips"; task_status := Succeeded;
     task_type := IndexCreation (Some "movie_id"); task_error := None |}.

Lemma creation_service_latency body :
  forall wr w, now w + 0 <= now (snd (creation_service body wr w)) <= now w + 0.
Proof. intros; simpl; lia. Qed.

Lemma creation_service_no_timeout body :
  forall wr w, fst (creation_service body wr w) <> Err Timeout.
Proof. intros; discriminate. Qed.

Lemma generate_index_terminates_witness :
  (forall wr w, now w + 0 <= now (snd (creation_service "succeeded" wr w)) <= now w + 0)
  /\ DEFAULT_TIMEOUT / (DEFAULT_INTERVAL + 0) + 2 <= 102
  /\ is_Some (generate_index (DE:=creation_error_decoder) (JC:=creation_codec)
                (creation_service "succeeded") None NotWasm32 movie_clips_impl movie_client 102
                start_world).
Proof.
  split; [apply creation_service_latency|]. split; [vm_compute; lia|].
  apply (generate_index_terminates (DE:=creation_error_decoder) (JC:=creation_codec)
           (creation_service "succeeded") None NotWasm32 0 0 (creation_service_latency _)).
  vm_compute; lia.
Defined.

Lemma generate_index_returns_terminal_witness :
  generate_index (DE:=creation_error_decoder) (JC:=creation_codec)
    (creation_service "succeeded") None NotWasm32 movie_clips_impl movie_client 102 start_world
  = Some (Returned (Ok (client_index movie_client "movie_clips")), {| fw_clock := 0; fw_polls := 2 |})
  /\ exists t, is_terminal (task_status t) = true
               /\ Ok (client_index movie_client "movie_clips") = try_make_index movie_client t.
Proof.
  split; [reflexivity|].
  apply (generate_index_returns_terminal (DE:=creation_error_decoder) (JC:=creation_codec)
           (creation_service "succeeded") None NotWasm32 movie_clips_impl movie_client 102 start_world
           _ {| fw_clock := 0; fw_polls := 2 |}).
  reflexivity.
Defined.

Lemma refusing_service_latency : forall wr w, now w + 0 <= now (snd (refusing_service wr w)) <= now w + 0.
Proof. intros; simpl; lia. Qed.

Lemma refusing_service_no_timeout : forall wr w, fst (refusing_service wr w) <> Err Timeout.
Proof. intros; discriminate. Qed.

(** A refused creation panics after one exchange; a task that stays
    [processing] panics after 5050 ms of the fake clock (101 sleeps of
    50 ms) and 102 fetches. *)
Lemma generate_index_panics_witness :
  refusing_service (create_index_wire (JC:=creation_codec) None movie_clips_impl movie_client) start_world
    = (Ok {| rr_status := 409; rr_body := "index_already_exists" |}, {| fw_clock := 0; fw_polls := 1 |})
  /\ generate_index (DE:=creation_error_decoder) (JC:=creation_codec)
       refusing_service None NotWasm32 movie_clips_impl movie_client 102 start_world
     = Some (Panicked UNWRAP_ERR, {| fw_clock := 0; fw_polls := 1 |})
  /\ create_index (DE:=creation_error_decoder) (JC:=creation_codec) (creation_service "processing")
    None NotWasm32 movie_client (INDEX_STR movie_clips_impl) (primary_key_token movie_clips_impl)
    start_world = (Ok accepted_info, {| fw_clock := 0; fw_polls := 1 |})
  /\ generate_index (DE:=creation_error_decoder) (JC:=creation_codec)
       (creation_service "processing") None NotWasm32 movie_clips_impl movie_client 102 start_world
     = Some (Panicked UNWRAP_ERR, {| fw_clock := 5050; fw_polls := 103 |})
  /\ exists w', generate_index (DE:=creation_error_decoder) (JC:=creation_codec)
                  (creation_service "processing") None NotWasm32 movie_clips_impl movie_client 102
                  start_world = Some (Panicked UNWRAP_ERR, w')
                /\ DEFAULT_TIMEOUT < now w' - now {| fw_clock := 0; fw_polls := 1 |}
                   <= DEFAULT_TIMEOUT + DEFAULT_INTERVAL + 0.
Proof.
  split; [reflexivity|]. split.
  { apply (proj1 (generate_index_panics (DE:=creation_error_decoder) (JC:=creation_codec)
           refusing_service None NotWasm32 0 0 refusing_service_latency refusing_service_no_timeout
           movie_clips_impl movie_client 102 start_world)
           (Ok {| rr_status := 409; rr_body := "index_already_exists" |})); [reflexivity|].
    intros raw [= <-]. discriminate. }
  split; [reflexivity|]. split; [vm_compute; reflexivity|].
  apply (proj2 (generate_index_panics (DE:=creation_error_decoder) (JC:=creation_codec)
           (creation_service "processing") None NotWasm32 0 0 (creation_service_latency _)
           (creation_service_no_timeout _) movie_clips_impl movie_client 102 start_world)
           accepted_info); [reflexivity|intros w; reflexivity|vm_compute; lia].
Defined.

Lemma generate_index_creates_witness :
  create_index (DE:=creation_error_decoder) (JC:=creation_codec) (creation_service "succeeded")
    None NotWasm32 movie_client (INDEX_STR movie_clips_impl) (primary_key_token movie_clips_impl)
    start_world = (Ok accepted_info, {| fw_clock := 0; fw_polls := 1 |})
  /\ get_task (DE:=creation_error_decoder) (JC:=creation_codec) (creation_service "succeeded")
       None NotWasm32 movie_client (ti_task_uid accepted_info) {| fw_clock := 0; fw_polls := 1 |}
     = (Ok created_task, {| fw_clock := 0; fw_polls := 2 |})
  /\ generate_index (DE:=creation_error_decoder) (JC:=creation_codec)
       (creation_service "succeeded") None NotWasm32 movie_clips_impl movie_client 1 start_world
     = Some (Returned (Ok (@index unit (derived_index_config unit movie_clips_impl) movie_client)),
             {| fw_clock := 0; fw_polls := 2 |}).
Proof.
  split; [reflexivity|]. split; [reflexivity|].
  apply (generate_index_creates (DE:=creation_error_decoder) (JC:=creation_codec)
           (creation_service "succeeded") None NotWasm32 unit movie_clips_impl movie_client 0
           start_world accepted_info {| fw_clock := 0; fw_polls := 1 |} created_task
           {| fw_clock := 0; fw_polls := 2 |} (Some "movie_id")); reflexivity.
Defined.
