(* ===== verification/Engine.v ===== *)
(** * A reference Meilisearch engine

    The tests and the documentation examples of [settings.rs] and
    [documents.rs] run against a live engine.  This file is that engine
    as a network, [engine_service h], written from the Meilisearch HTTP
    API (the v1 reference): its routes, the verb each settings route
    accepts ([PATCH] on [/settings], [/settings/pagination] and
    [/settings/faceting], [PUT] on the other settings routes, [405]
    otherwise), its documented default settings (the six default ranking
    rules, ["*"] searchable and displayed, [maxTotalHits] 1000,
    [maxValuesPerFacet] 100, no synonyms, stop words, filterable or
    sortable attributes, no distinct attribute), the [404] errors of a
    missing index, task or document, and asynchronous updates through
    tasks.  It is an environment of the proofs, not code of the crate.
    Search, keys, typo tolerance and the rest of the API are not
    modelled.

    The engine reads a URL as the server does: the host, then the path
    up to ['?'] cut into [/tasks/<id>], [/indexes], [/indexes/<uid>],
    [/indexes/<uid>/settings<route>] and [/indexes/<uid>/documents[/<id>]]
    ([url_route]), then the query.  Its state is an index per uid (the
    primary key, the settings per route, the documents), the queue of
    enqueued updates, the tasks as reported by [/tasks/<id>], the next
    task uid and a clock.  Accepted writes enqueue an update and answer
    [202] with the task; the queue is processed, in order, when a task is
    fetched (a simplification of the engine's background processing), so
    a write is visible after the client has waited for it and not
    before. *)

From stdpp Require Import base list strings gmap pretty.
From Stdlib Require Import ZArith Ascii.
From S2P Require Import Prelude Serde Errors Method Request Transports Client Tasks Settings SettingsService Documents.

Open Scope string_scope.

(** ** Reading a URL *)

Fixpoint strip_prefix (p s : string) : option string :=
  match p, s with
  | EmptyString, _ => Some s
  | String c p', String d s' => if Ascii.eqb c d then strip_prefix p' s' else None
  | String _ _, EmptyString => None
  end.

(** The part before the first [c] and, when there is one, the part after. *)
Fixpoint split_at (c : ascii) (s : string) : string * option string :=
  match s with
  | EmptyString => ("", None)
  | String d s' => if Ascii.eqb c d then ("", Some s')
                   else let '(a, b) := split_at c s' in (String d a, b)
  end.

Definition no_char (c : ascii) (s : string) : bool := str_all (fun d => negb (Ascii.eqb c d)) s.

(** A path segment or a query-free route: no ['/'], no ['?']. *)
Definition plain_segment (s : string) : bool := no_char "/" s && no_char "?" s.

Inductive Route :=
| RTask (id : string)
| RIndexes
| RIndex (uid : string)
| RSettings (uid route : string)
| RDocuments (uid : string)
| RDocument (uid id : string)
| RUnknown.

(** What follows [/indexes/<uid>/]. *)
Definition index_route (uid tail : string) : Route :=
  match strip_prefix "settings" tail with
  | Some r => RSettings uid r
  | None =>
      match strip_prefix "documents" tail with
      | Some EmptyString => RDocuments uid
      | Some (String c id) => if Ascii.eqb c "/" then RDocument uid id else RUnknown
      | None => RUnknown
      end
  end.

Definition path_route (p : string) : Route :=
  match strip_prefix "/tasks/" p with
  | Some id => RTask id
  | None =>
      match strip_prefix "/indexes" p with
      | Some EmptyString => RIndexes
      | Some (String c rest) =>
          if Ascii.eqb c "/" then
            match split_at "/" rest with
            | (uid, None) => RIndex uid
            | (uid, Some tail) => index_route uid tail
            end
          else RUnknown
      | None => RUnknown
      end
  end.

(** The route and the query of a URL on the host [h]. *)
Definition url_route (h url : string) : Route * option string :=
  match strip_prefix h url with
  | None => (RUnknown, None)
  | Some rest => let '(p, q) := split_at "?" rest in (path_route p, q)
  end.

(** *** Lemmas *)

Lemma strip_prefix_app p s : strip_prefix p (p +:+ s) = Some s.
Proof. induction p as [|c p IH]; [done|]. rewrite string_app_cons. simpl. by rewrite Ascii.eqb_refl. Qed.

Lemma split_at_app c s t :
  no_char c s = true ->
  split_at c (s +:+ t) = (s +:+ (split_at c t).1, (split_at c t).2).
Proof.
  induction s as [|d s IH]; [rewrite !string_app_nil_l; by destruct (split_at c t)|].
  unfold no_char. simpl. intros [Hd Hs]%andb_prop. apply negb_true_iff in Hd.
  rewrite string_app_cons. simpl. rewrite Hd, IH by done. done.
Qed.

Lemma split_at_none c s : no_char c s = true -> split_at c s = (s, None).
Proof.
  induction s as [|d s IH]; [done|].
  unfold no_char. simpl. intros [Hd Hs]%andb_prop. apply negb_true_iff in Hd.
  rewrite Hd, IH by done. done.
Qed.

Lemma no_char_app c s t : no_char c (s +:+ t) = no_char c s && no_char c t.
Proof. apply str_all_app. Qed.

Lemma plain_segment_no_char s :
  plain_segment s = true -> no_char "/" s = true /\ no_char "?" s = true.
Proof. unfold plain_segment. by intros ?%andb_prop. Qed.

Lemma pretty_N_go_no_char c x s :
  (forall y, Ascii.eqb c (pretty_N_char y) = false) ->
  no_char c s = true -> no_char c (pretty_N_go x s) = true.
Proof.
  intros Hc. revert s. induction (N.lt_wf_0 x) as [x _ IH]; intros s Hs.
  destruct (decide (x = 0)%N) as [->|Hx]; [by rewrite pretty_N_go_0|].
  rewrite pretty_N_go_step by lia. apply IH; [apply N.div_lt; lia|].
  unfold no_char. simpl. by rewrite Hc.
Qed.

(** A task id is a plain segment. *)
Lemma pretty_nat_plain (n : nat) : plain_segment (pretty n) = true.
Proof.
  unfold plain_segment, pretty, pretty_nat, pretty, pretty_N.
  case_decide; [done|].
  rewrite !pretty_N_go_no_char; try done; intros y; unfold pretty_N_char; by repeat case_match.
Qed.

#[export] Hint Rewrite no_char_app : meili.

(** Closed text around the parts the lemmas below keep abstract. *)
Ltac url_compute :=
  repeat (rewrite ?string_app_cons, ?string_app_nil_l; simpl).

(** The query part of a URL: nothing, or ['?'] and the query. *)
Definition query_suffix (q : option string) : string :=
  match q with None => "" | Some q' => "?" +:+ q' end.

Lemma split_at_query_suffix q : split_at "?" (query_suffix q) = ("", q).
Proof. by destruct q. Qed.

Section Routes.
  Variables (h uid : string).
  Hypothesis uid_plain : plain_segment uid = true.

Lemma url_route_index_path (tail : string) q :
    no_char "?" tail = true ->
    url_route h (h +:+ "/indexes/" +:+ uid +:+ "/" +:+ tail +:+ query_suffix q)
    = (index_route uid tail, q).
  Proof.
    intros Ht. destruct (plain_segment_no_char _ uid_plain) as [Hs Hq].
    unfold url_route. rewrite strip_prefix_app, !string_app_assoc.
    rewrite split_at_app by (rewrite !no_char_app, Hq, Ht; reflexivity).
    rewrite split_at_query_suffix, string_app_nil_r, <- !string_app_assoc. simpl.
    unfold path_route. url_compute. rewrite split_at_app by done.
    url_compute. by rewrite string_app_nil_r.
  Qed.
End Routes.

(** ** Reading a query and a filter *)

(** All the pieces between the separators [c]. *)
Fixpoint split_all (c : ascii) (s : string) : list string :=
  match s with
  | EmptyString => [""]
  | String d s' =>
      if Ascii.eqb c d then "" :: split_all c s'
      else match split_all c s' with
           | [] => [String d ""]
           | x :: r => String d x :: r
           end
  end.

(** [k1=v1&k2=v2...] as pairs. *)
Definition query_params (q : option string) : list (string * string) :=
  match q with
  | None => []
  | Some s => map (fun kv => let '(k, v) := split_at "=" kv in (k, default "" v)) (split_all "&" s)
  end.

Fixpoint assoc {A} (k : string) (l : list (string * A)) : option A :=
  match l with [] => None | (k', v) :: l' => if String.eqb k k' then Some v else assoc k l' end.

Definition digit_value (c : ascii) : option nat :=
  let n := nat_of_ascii c in if (Nat.leb 48 n && Nat.leb n 57)%bool then Some (n - 48) else None.

Fixpoint parse_digits (acc : nat) (s : string) : option nat :=
  match s with
  | EmptyString => Some acc
  | String c s' => d ← digit_value c; parse_digits (acc * 10 + d) s'
  end.

(** A decimal number, as the engine reads [offset] and [limit]. *)
Definition parse_nat_dec (s : string) : option nat :=
  match s with EmptyString => None | _ => parse_digits 0 s end.

Fixpoint trim_left (s : string) : string :=
  match s with String c s' => if Ascii.eqb c " " then trim_left s' else s | EmptyString => s end.

Fixpoint rev_onto (s acc : string) : string :=
  match s with EmptyString => acc | String c s' => rev_onto s' (String c acc) end.

Definition rev_string (s : string) : string := rev_onto s "".

Definition trim (s : string) : string := rev_string (trim_left (rev_string (trim_left s))).

(** The filters the engine reads: [attribute = value]. *)
Definition parse_filter (f : string) : option (string * string) :=
  match split_at "=" f with
  | (a, Some v) => let a' := trim a in let v' := trim v in
                   if String.eqb a' "" || String.eqb v' "" then None else Some (a', v')
  | (_, None) => None
  end.

(** ** The engine's state *)

(** The ten settings routes of [settings.rs], by their [Settings] key. *)
Definition settings_routes : list (string * string) :=
  [("synonyms", "/synonyms"); ("stopWords", "/stop-words"); ("rankingRules", "/ranking-rules");
   ("filterableAttributes", "/filterable-attributes"); ("sortableAttributes", "/sortable-attributes");
   ("distinctAttribute", "/distinct-attribute"); ("searchableAttributes", "/searchable-attributes");
   ("displayedAttributes", "/displayed-attributes"); ("pagination", "/pagination");
   ("faceting", "/faceting")].

(** The engine's default settings, per route. *)
Definition default_settings : gmap string json :=
  list_to_map
    [("/synonyms", JObject []); ("/stop-words", JArray []);
     ("/ranking-rules",
        JArray (map JString ["words"; "typo"; "proximity"; "attribute"; "sort"; "exactness"]));
     ("/filterable-attributes", JArray []); ("/sortable-attributes", JArray []);
     ("/distinct-attribute", JNull); ("/searchable-attributes", JArray [JString "*"]);
     ("/displayed-attributes", JArray [JString "*"]);
     ("/pagination", JObject [("maxTotalHits", JNumber 1000)]);
     ("/faceting", JObject [("maxValuesPerFacet", JNumber 100)])].

Record IndexState := {
  ix_primary_key : option string;
  ix_settings : gmap string json;
  ix_documents : list json
}.

Definition new_index (pk : option string) : IndexState :=
  {| ix_primary_key := pk; ix_settings := default_settings; ix_documents := [] |}.

(** An enqueued update. *)
Inductive Update :=
| USettings (uid route : string) (value : json) (merge : bool)
| UResetSettings (uid route : string)
| UAddDocuments (uid : string) (docs : list json) (primary_key : option string)
| UDeleteByFilter (uid : string) (filter : string)
| UCreateIndex (uid : string) (primary_key : option string)
| UDeleteIndex (uid : string).

Definition update_uid (u : Update) : string :=
  match u with
  | USettings uid _ _ _ | UResetSettings uid _ | UAddDocuments uid _ _
  | UDeleteByFilter uid _ | UCreateIndex uid _ | UDeleteIndex uid => uid
  end.

Definition update_type (u : Update) : string :=
  match u with
  | USettings _ _ _ _ | UResetSettings _ _ => "settingsUpdate"
  | UAddDocuments _ _ _ => "documentAdditionOrUpdate"
  | UDeleteByFilter _ _ => "documentDeletion"
  | UCreateIndex _ _ => "indexCreation"
  | UDeleteIndex _ => "indexDeletion"
  end.

Record Engine := {
  en_indexes : gmap string IndexState;
  en_queue : list (nat * Update);    (** oldest first *)
  en_tasks : gmap string json;       (** [/tasks/<id>] answers, by id *)
  en_next_uid : nat;
  en_clock : nat
}.

(** Time passes only when the poller sleeps. *)
Definition engine_sleep (d : nat) (e : Engine) : Engine :=
  {| en_indexes := en_indexes e; en_queue := en_queue e; en_tasks := en_tasks e;
     en_next_uid := en_next_uid e; en_clock := en_clock e + d |}.

#[export] Instance engine_clock : Clock Engine :=
  {| now := en_clock; sleep_for := engine_sleep; now_sleep_for _ _ := eq_refl |}.

(** ** Applying an update *)

(** An error body of the engine. *)
Definition meili_error_json (code message : string) : json :=
  JObject [("message", JString message); ("code", JString code); ("type", JString "invalid_request");
           ("link", JString ("https://docs.meilisearch.com/errors#" +:+ code))].

(** A [PATCH] merges the fields of an object into the stored object. *)
Definition json_merge (old : option json) (new : json) : json :=
  match old, new with
  | Some (JObject o), JObject n =>
      JObject (n ++ filter (fun kv => negb (existsb (String.eqb kv.1) (map fst n))) o)
  | _, _ => new
  end.

Definition set_setting (st : IndexState) (route : string) (v : json) : IndexState :=
  {| ix_primary_key := ix_primary_key st; ix_settings := <[route := v]> (ix_settings st);
     ix_documents := ix_documents st |}.

(** A write on one route; on [/settings] itself, a write of each setting
    the object names on its route. *)
Definition write_settings (st : IndexState) (route : string) (v : json) (merge : bool) : IndexState :=
  if String.eqb route "" then
    match v with
    | JObject kvs =>
        foldl (fun st kv => match assoc kv.1 settings_routes with
                            | Some r => set_setting st r (json_merge (ix_settings st !! r) kv.2)
                            | None => st
                            end) st kvs
    | _ => st
    end
  else set_setting st route (if merge then json_merge (ix_settings st !! route) v else v).

Definition reset_settings_at (st : IndexState) (route : string) : IndexState :=
  {| ix_primary_key := ix_primary_key st;
     ix_settings := if String.eqb route "" then default_settings
                    else match default_settings !! route with
                         | Some d => <[route := d]> (ix_settings st)
                         | None => delete route (ix_settings st)
                         end;
     ix_documents := ix_documents st |}.

(** The text of a document's field, as ids and filters compare it. *)
Definition field_text (doc : json) (attr : string) : option string :=
  match doc with
  | JObject kvs =>
      match assoc attr kvs with
      | Some (JNumber z) => Some (pretty z)
      | Some (JString s) => Some s
      | _ => None
      end
  | _ => None
  end.

Definition ends_with (suffix s : string) : bool :=
  let n := String.length s in let k := String.length suffix in
  Nat.leb k n && String.eqb (String.substring (n - k) k s) suffix.

(** The primary key the engine infers: the first field of the first
    document whose name ends with [id]. *)
Definition infer_primary_key (docs : list json) : option string :=
  match docs with
  | JObject kvs :: _ => fst <$> List.find (fun kv => ends_with "id" kv.1) kvs
  | _ => None
  end.

(** Add or replace a document by its primary key. *)
Definition upsert (pk : string) (docs : list json) (d : json) : list json :=
  let key := field_text d pk in
  if existsb (fun d' => bool_decide (field_text d' pk = key)) docs
  then map (fun d' => if bool_decide (field_text d' pk = key) then d else d') docs
  else docs ++ [d].

Definition filterable (st : IndexState) : list string :=
  match ix_settings st !! "/filterable-attributes" with
  | Some (JArray l) => omap (fun j => match j with JString s => Some s | _ => None end) l
  | _ => []
  end.

(** The result of an update: the new indexes, and the task's details or
    error. *)
Definition apply_update (ixs : gmap string IndexState) (u : Update)
    : gmap string IndexState * result (list (string * json)) json :=
  match u with
  | USettings uid route v merge =>
      let st := default (new_index None) (ixs !! uid) in
      (<[uid := write_settings st route v merge]> ixs, Ok [])
  | UResetSettings uid route =>
      let st := default (new_index None) (ixs !! uid) in
      (<[uid := reset_settings_at st route]> ixs, Ok [])
  | UAddDocuments uid docs pk =>
      let st := default (new_index None) (ixs !! uid) in
      match ix_primary_key st ∪ pk ∪ infer_primary_key docs with
      | None => (ixs, Err (meili_error_json "index_primary_key_no_candidate_found"
                             "The primary key inference failed."))
      | Some p =>
          if forallb (fun d => bool_decide (is_Some (field_text d p))) docs then
            (<[uid := {| ix_primary_key := Some p; ix_settings := ix_settings st;
                         ix_documents := foldl (upsert p) (ix_documents st) docs |}]> ixs, Ok [])
          else (ixs, Err (meili_error_json "missing_document_id" "A document has no primary key."))
      end
  | UDeleteByFilter uid f =>
      match ixs !! uid with
      | None => (ixs, Err (meili_error_json "index_not_found" ("Index `" +:+ uid +:+ "` not found.")))
      | Some st =>
          match parse_filter f with
          | Some (attr, value) =>
              if existsb (String.eqb attr) (filterable st) then
                (<[uid := {| ix_primary_key := ix_primary_key st; ix_settings := ix_settings st;
                             ix_documents := filter (fun d => bool_decide (field_text d attr <> Some value))
                                               (ix_documents st) |}]> ixs, Ok [])
              else (ixs, Err (meili_error_json "invalid_filter"
                                ("Attribute `" +:+ attr +:+ "` is not filterable.")))
          | None => (ixs, Err (meili_error_json "invalid_filter" "Invalid filter."))
          end
      end
  | UCreateIndex uid pk =>
      match ixs !! uid with
      | Some _ => (ixs, Err (meili_error_json "index_already_exists"
                              ("Index `" +:+ uid +:+ "` already exists.")))
      | None => (<[uid := new_index pk]> ixs, Ok [("details", JObject [("primaryKey", to_json pk)])])
      end
  | UDeleteIndex uid =>
      match ixs !! uid with
      | None => (ixs, Err (meili_error_json "index_not_found" ("Index `" +:+ uid +:+ "` not found.")))
      | Some _ => (delete uid ixs, Ok [])
      end
  end.

(** ** Tasks *)

Definition task_json (n : nat) (u : Update) (status : string) (extra : list (string * json)) : json :=
  JObject ([("uid", JNumber (Z.of_nat n)); ("indexUid", JString (update_uid u));
            ("status", JString status); ("type", JString (update_type u))] ++ extra).

(** The [202] answer: the enqueued task. *)
Definition task_info_json (n : nat) (u : Update) : json :=
  JObject [("taskUid", JNumber (Z.of_nat n)); ("indexUid", JString (update_uid u));
           ("status", JString "enqueued"); ("type", JString (update_type u))].

Definition process_one (acc : gmap string IndexState * gmap string json) (nu : nat * Update)
    : gmap string IndexState * gmap string json :=
  let '(ixs, tasks) := acc in
  let '(n, u) := nu in
  match apply_update ixs u with
  | (ixs', Ok extra) => (ixs', <[pretty n := task_json n u "succeeded" extra]> tasks)
  | (ixs', Err err) => (ixs', <[pretty n := task_json n u "failed" [("error", err)]]> tasks)
  end.

(** Processing: every queued update, in order. *)
Definition engine_process (e : Engine) : Engine :=
  let '(ixs, tasks) := foldl process_one (en_indexes e, en_tasks e) (en_queue e) in
  {| en_indexes := ixs; en_queue := []; en_tasks := tasks; en_next_uid := en_next_uid e;
     en_clock := en_clock e |}.

Definition engine_enqueue (u : Update) (e : Engine) : Engine :=
  let n := en_next_uid e in
  {| en_indexes := en_indexes e; en_queue := en_queue e ++ [(n, u)];
     en_tasks := <[pretty n := task_json n u "enqueued" []]> (en_tasks e);
     en_next_uid := S n; en_clock := en_clock e |}.

(** ** Answering a request *)

(** The [fields] parameter of a read: the listed attributes of a
    document, all of them when absent. *)
Definition project_fields (ps : list (string * string)) (d : json) : json :=
  match assoc "fields" ps, d with
  | Some fs, JObject kvs =>
      JObject (filter (fun kv => existsb (String.eqb kv.1) (split_all "," fs)) kvs)
  | _, _ => d
  end.

(** [GET /documents]: [offset] (default 0), [limit] (default 20) and
    [fields] from the query. *)
Definition documents_page (st : IndexState) (q : option string) : json :=
  let ps := query_params q in
  let offset := default 0 (assoc "offset" ps ≫= parse_nat_dec) in
  let limit := default 20 (assoc "limit" ps ≫= parse_nat_dec) in
  let docs := ix_documents st in
  JObject [("results", JArray (map (project_fields ps) (take limit (drop offset docs))));
           ("offset", JNumber (Z.of_nat offset)); ("limit", JNumber (Z.of_nat limit));
           ("total", JNumber (Z.of_nat (length docs)))].

(** [GET /settings]: every setting under its key. *)
Definition settings_object (st : IndexState) : json :=
  JObject (omap (fun kr => (fun v => (kr.1, v)) <$> ix_settings st !! kr.2) settings_routes).

(** The verb that updates a settings route: [PATCH] merges into the
    whole settings object and into the two object-valued settings,
    [PUT] replaces the other, list or string valued, ones.  Any other
    verb is refused with [405]. *)
Definition settings_update_verb (route : string) : HttpMethod :=
  if String.eqb route "" || String.eqb route "/pagination" || String.eqb route "/faceting"
  then PATCH else PUT.

Definition valid_settings_route (route : string) : bool :=
  String.eqb route "" || existsb (fun kr => String.eqb kr.2 route) settings_routes.

Definition not_found (what : string) : json := meili_error_json "not_found" (what +:+ " not found.").

Definition index_not_found (uid : string) : json :=
  meili_error_json "index_not_found" ("Index `" +:+ uid +:+ "` not found.").

(** An update is enqueued and answered with its task. *)
Definition accept (u : Update) (e : Engine) : Z * json * Engine :=
  (202%Z, task_info_json (en_next_uid e) u, engine_enqueue u e).

(** Reading an index, or [404]. *)
Definition with_index (uid : string) (e : Engine) (k : IndexState -> Z * json) : Z * json * Engine :=
  match en_indexes e !! uid with
  | Some st => let '(s, j) := k st in (s, j, e)
  | None => (404%Z, index_not_found uid, e)
  end.

Definition engine_handle (m : HttpMethod) (r : Route) (q : option string) (body : option json)
    (e : Engine) : Z * json * Engine :=
  match r, m, body with
  | RTask id, GET, _ =>
      let e' := engine_process e in
      match en_tasks e' !! id with
      | Some j => (200%Z, j, e')
      | None => (404%Z, meili_error_json "task_not_found" ("Task `" +:+ id +:+ "` not found."), e')
      end
  | RIndexes, POST, Some (JObject kvs) =>
      match assoc "uid" kvs with
      | Some (JString u) =>
          accept (UCreateIndex u (match assoc "primaryKey" kvs with
                                  | Some (JString p) => Some p
                                  | _ => None
                                  end)) e
      | _ => (400%Z, meili_error_json "missing_index_uid" "The index uid is missing.", e)
      end
  | RIndex uid, DELETE, _ => accept (UDeleteIndex uid) e
  | RSettings uid route, GET, _ =>
      with_index uid e (fun st =>
        if String.eqb route "" then (200%Z, settings_object st)
        else match ix_settings st !! route with
             | Some v => (200%Z, v)
             | None => (404%Z, not_found "Setting")
             end)
  | RSettings uid route, (PUT | PATCH), Some v =>
      if valid_settings_route route then
        if bool_decide (m = settings_update_verb route)
        then accept (USettings uid route v (bool_decide (m = PATCH))) e
        else (405%Z, meili_error_json "method_not_allowed"
                       ("Method not allowed on `/settings" +:+ route +:+ "`."), e)
      else (404%Z, not_found "Setting", e)
  | RSettings uid route, DELETE, _ =>
      if valid_settings_route route then accept (UResetSettings uid route) e
      else (404%Z, not_found "Setting", e)
  | RDocuments uid, GET, _ => with_index uid e (fun st => (200%Z, documents_page st q))
  | RDocuments uid, POST, Some (JArray docs) =>
      accept (UAddDocuments uid docs (assoc "primaryKey" (query_params q))) e
  | RDocument uid id, GET, _ =>
      with_index uid e (fun st =>
        match ix_primary_key st ≫= fun pk =>
                List.find (fun d => bool_decide (field_text d pk = Some id)) (ix_documents st) with
        | Some d => (200%Z, project_fields (query_params q) d)
        | None => (404%Z, meili_error_json "document_not_found" ("Document `" +:+ id +:+ "` not found."))
        end)
  | RDocument uid id, POST, Some (JObject kvs) =>
      if String.eqb id "delete" then
        match assoc "filter" kvs with
        | Some (JString f) => accept (UDeleteByFilter uid f) e
        | _ => (400%Z, meili_error_json "invalid_document_filter" "The filter is missing.", e)
        end
      else (404%Z, not_found "Route", e)
  | _, _, _ => (404%Z, not_found "Route", e)
  end.

Section EngineService.
  Context `{JC : JsonCodec}.
  Variable h : string.

  (** The engine on the host [h]: a body that does not parse is refused
      with [400]; anything else is routed and answered. *)
Definition engine_service (wr : WireRequest) : io Engine Error RawResponse :=
    fun e =>
      let answer body :=
        let '(r, q) := url_route h (wr_url wr) in
        let '(s, j, e') := engine_handle (wr_method wr) r q body e in
        (Ok {| rr_status := s; rr_body := print_json j |}, e') in
      match wr_body wr with
      | None => answer None
      | Some b =>
          match parse_json b with
          | Ok j => answer (Some j)
          | Err _ => (Ok {| rr_status := 400; rr_body := print_json (meili_error_json
                               "malformed_payload" "The payload is not valid JSON.") |}, e)
          end
      end.
End EngineService.

(** The engine as [#[meilisearch_test]] hands it to a test: the index
    [uid], fresh, nothing enqueued. *)
Definition fresh_engine (uid : string) : Engine :=
  {| en_indexes := {[uid := new_index None]}; en_queue := []; en_tasks := ∅;
     en_next_uid := 0; en_clock := 0 |}.

(** No index at all: what a test without an index parameter gets. *)
Definition empty_engine : Engine :=
  {| en_indexes := ∅; en_queue := []; en_tasks := ∅; en_next_uid := 0; en_clock := 0 |}.

(** ** One call, one answer *)

Section EngineExchange.
  Context `{JC : JsonCodec} `{LAWS : !JsonCodecLaws} `{DE : Deserialize MeilisearchError}.
  Variable VERSION : option string.
  Variable arch : TargetArch.
  Variable h : string.

  (** Without a query, the wire request is the call's verb, URL and body. *)
Lemma unit_query_wire {B0} `{Serialize B0} url key (m : Method unit B0) ct :
    wire_request VERSION url key m ct
    = Ok {| wr_method := http_method m; wr_url := url;
            wr_headers := [("User-Agent", qualified_version VERSION)] ++ auth_header key
                          ++ content_type_header m ct;
            wr_body := to_string <$> method_body m |}.
  Proof. unfold wire_request, add_query_parameters. by destruct m as [[]|[]|[]|[]|[]]. Qed.

  (** A call of the crate's [request] is the engine's answer to the routed
      URL, read by [parse_response]. *)
Lemma engine_exchange {B0 T} `{ToJson B0} `{FromJson T} url key (m : Method unit B0) expected e :
    meili_request (engine_service h) VERSION arch (T:=T) url key m expected e
    = let '(s, j, e') := engine_handle (http_method m) (url_route h url).1 (url_route h url).2
                           (to_json <$> method_body m) e in
      (parse_response (Output:=T) s expected (print_json j) url, e').
  Proof.
    rewrite meili_request_dispatch. rewrite (dispatch_wire _ _ _ _ _ _ _ _ _ (unit_query_wire _ _ _ _)).
    unfold engine_service.
    destruct m as [[]|[] b|[] b|[] b|[]]; simpl;
      unfold to_string, serialize_of_json; rewrite ?parse_print; simpl;
      destruct (url_route h url) as [r q]; simpl;
      by destruct (engine_handle _ _ _ _ _) as [[? ?] ?].
  Qed.

  (** The same for a call without body, whatever serializer its body
      type has. *)
Lemma engine_exchange_nobody {B0 T} `{Serialize B0} `{FromJson T} url key (m : Method unit B0)
      expected e :
    method_body m = None ->
    meili_request (engine_service h) VERSION arch (T:=T) url key m expected e
    = let '(s, j, e') := engine_handle (http_method m) (url_route h url).1 (url_route h url).2 None e in
      (parse_response (Output:=T) s expected (print_json j) url, e').
  Proof.
    intros Hb. rewrite meili_request_dispatch. rewrite (dispatch_wire _ _ _ _ _ _ _ _ _ (unit_query_wire _ _ _ _)).
    unfold engine_service.
    destruct m as [[]|[] b|[] b|[] b|[]]; try discriminate; simpl;
      destruct (url_route h url) as [r q]; simpl;
      by destruct (engine_handle _ _ _ _ _) as [[? ?] ?].
  Qed.

  (** A [GET] with a query that serializes to [s]: the engine reads the
      URL with [?s] appended, the answer is classified against the URL
      without it. *)
Lemma engine_exchange_query {Q T} `{SerializeQuery Q} `{FromJson T} url key (q : Q) s expected e :
    yaup_to_string q = Ok s -> String.eqb s "" = false ->
    meili_request (engine_service h) VERSION arch (B0:=unit) (T:=T) url key (Get q) expected e
    = let '(st, j, e') := engine_handle GET (url_route h (url +:+ "?" +:+ s)).1
                            (url_route h (url +:+ "?" +:+ s)).2 None e in
      (parse_response (Output:=T) st expected (print_json j) url, e').
  Proof.
    intros Hq Hs. rewrite meili_request_dispatch.
    rewrite (dispatch_wire _ _ _ _ _ _ _
               {| wr_method := GET; wr_url := url +:+ "?" +:+ s;
                         wr_headers := [("User-Agent", qualified_version VERSION)] ++ auth_header key ++ [];
                         wr_body := None |});
      [|unfold wire_request, add_query_parameters; cbn [query]; rewrite Hq; simpl; by rewrite Hs].
    unfold engine_service; simpl. destruct (url_route h _) as [r q']; simpl.
    by destruct (engine_handle _ _ _ _ _) as [[? ?] ?].
  Qed.

  (** The expected status: the body decoded. *)
Lemma engine_parse_ok {T} `{FromJson T} s j url :
    parse_response (Output:=T) s s (print_json j) url = map_err ParseError (from_json j).
  Proof. by rewrite parse_response_ok_branch, from_str_print. Qed.
  (** Another status, with serde's [MeilisearchError]: the engine's error
      body. *)
Lemma engine_parse_err {T} `{FromJson T} s expected j url :
    s <> expected ->
    parse_response (DE:=deserialize_of_json) (Output:=T) s expected (print_json j) url
    = match from_json (A:=MeilisearchError) j with
      | Ok err => Err (Meilisearch err)
      | Err e => if (400 <=? s)%Z
                 then Err (MeilisearchCommunication
                             {| comm_status_code := s; comm_message := None; comm_url := url |})
                 else Err (ParseError e)
      end.
  Proof. intros Hs%Z.eqb_neq. by rewrite parse_response_unfold, Hs, from_str_print. Qed.
End EngineExchange.

(** ** The routes of the client's URLs *)

Lemma route_indexes h : url_route h (h +:+ "/indexes") = (RIndexes, None).
Proof. unfold url_route. by rewrite strip_prefix_app. Qed.

Lemma route_task h (n : nat) : url_route h (h +:+ "/tasks/" +:+ pretty n) = (RTask (pretty n), None).
Proof.
  destruct (plain_segment_no_char _ (pretty_nat_plain n)) as [_ Hq].
  unfold url_route. rewrite strip_prefix_app, split_at_none by (rewrite no_char_app, Hq; done).
  unfold path_route. by rewrite strip_prefix_app.
Qed.

Section ClientRoutes.
  Variables (c : Client) (name : string).
  Hypothesis uid_plain : plain_segment name = true.

Lemma route_index :
    url_route (host c) (host c +:+ "/indexes/" +:+ name)
    = (RIndex name, None).
  Proof.
    destruct (plain_segment_no_char _ uid_plain) as [Hs Hq].
    unfold url_route. rewrite strip_prefix_app, split_at_none by (rewrite no_char_app, Hq; done).
    unfold path_route. url_compute. by rewrite split_at_none.
  Qed.

Lemma route_settings r :
    no_char "?" r = true ->
    url_route (host c) (settings_url (client_index c name) r) = (RSettings name r, None).
  Proof.
    intros Hr. pose proof (url_route_index_path (host c) _ uid_plain ("settings" +:+ r) None) as H.
    simpl query_suffix in H. rewrite string_app_nil_r in H. unfold settings_url. cbn [index_client client_index uid].
    change ("/settings" +:+ r) with ("/" +:+ ("settings" +:+ r)).
    rewrite H by (rewrite no_char_app, Hr; done). unfold index_route. by rewrite strip_prefix_app.
  Qed.

Lemma route_documents q :
    url_route (host c) (documents_url (client_index c name) "" +:+ query_suffix q)
    = (RDocuments name, q).
  Proof.
    pose proof (url_route_index_path (host c) _ uid_plain "documents" q eq_refl) as H.
    unfold documents_url. cbn [index_client client_index uid].
    rewrite <- !string_app_assoc, string_app_nil_l. exact H.
  Qed.

Lemma route_documents_query s :
    url_route (host c) (documents_url (client_index c name) "" +:+ "?" +:+ s)
    = (RDocuments name, Some s).
  Proof. exact (route_documents (Some s)). Qed.

Lemma route_documents_plain :
    url_route (host c) (documents_url (client_index c name) "") = (RDocuments name, None).
  Proof. rewrite <- (string_app_nil_r (documents_url (client_index c name) "")). apply (route_documents None). Qed.

Lemma route_document_suffix id q :
    no_char "?" id = true ->
    url_route (host c) (documents_url (client_index c name) ("/" +:+ id) +:+ query_suffix q)
    = (RDocument name id, q).
  Proof.
    intros Hi.
    assert (E : documents_url (client_index c name) ("/" +:+ id) +:+ query_suffix q
                = host c +:+ "/indexes/" +:+ name +:+ "/" +:+ ("documents" +:+ ("/" +:+ id))
                  +:+ query_suffix q).
    { unfold documents_url. cbn [index_client client_index uid].
      rewrite <- !string_app_assoc. reflexivity. }
    rewrite E, url_route_index_path by (rewrite ?no_char_app, ?Hi; done).
    unfold index_route. rewrite strip_prefix_app. simpl. by rewrite string_app_nil_l.
  Qed.

Lemma route_document id :
    no_char "?" id = true ->
    url_route (host c) (documents_url (client_index c name) ("/" +:+ id)) = (RDocument name id, None).
  Proof.
    intros Hi. rewrite <- (string_app_nil_r (documents_url _ _)). exact (route_document_suffix id None Hi).
  Qed.

Lemma route_document_query id s :
    no_char "?" id = true ->
    url_route (host c) (documents_url (client_index c name) ("/" +:+ id) +:+ "?" +:+ s)
    = (RDocument name id, Some s).
  Proof. exact (route_document_suffix id (Some s)). Qed.
Lemma route_document_delete :
    url_route (host c) (documents_url (client_index c name) "/delete")
    = (RDocument name "delete", None).
  Proof. exact (route_document "delete" eq_refl). Qed.
End ClientRoutes.

(** ** Running a test body against the engine *)

(** A lookup in a map whose keys and values are known. *)
Ltac eval_lookup :=
  match goal with
  | |- context [?m !! ?k] =>
      let v := eval vm_compute in (m !! k) in
      lazymatch v with
      | Some _ => change (m !! k) with v
      | None => change (m !! k) with v
      end
  end.

Ltac engine_simpl :=
  repeat (simpl; first [ rewrite lookup_insert_eq | rewrite lookup_singleton_eq | eval_lookup
                       | progress unfold with_index ]); simpl.

Ltac engine_route :=
  cbn [index_client client_index uid dsq_index ddq_index documents_query_new
       documents_query_with_limit documents_query_with_offset documents_query_with_fields
       document_deletion_query_new document_deletion_query_with_filter dq_index document_query_new
       document_query_with_fields];
  first [ rewrite route_task
        | rewrite route_document_delete by (assumption || reflexivity)
        | rewrite route_settings by (assumption || reflexivity)
        | rewrite route_documents_plain by (assumption || reflexivity)
        | rewrite route_documents_query by (assumption || reflexivity)
        | rewrite route_documents by (assumption || reflexivity)
        | rewrite route_document_query by (assumption || reflexivity)
        | rewrite route_document by (assumption || reflexivity)
        | rewrite route_index by (assumption || reflexivity)
        | rewrite route_indexes ].

Ltac engine_exchange_tac :=
  first [ rewrite engine_exchange_nobody by reflexivity
        | erewrite engine_exchange_query; [| reflexivity | reflexivity]
        | rewrite engine_exchange ].

(** One call of the crate's [request] that the engine answers as expected. *)
Ltac engine_call :=
  engine_exchange_tac; engine_route; engine_simpl; rewrite engine_parse_ok; reflexivity.

(** One call the engine refuses with an error body. *)
Ltac engine_call_err :=
  engine_exchange_tac; engine_route; engine_simpl; rewrite engine_parse_err by discriminate;
  reflexivity.

(** One [wait_for_task] whose first fetch finds the task processed. *)
Ltac engine_wait :=
  unfold wait_for_task, wait_for_completion; rewrite wait_loop_S; unfold get_task;
  rewrite engine_exchange_nobody by reflexivity; engine_route; engine_simpl;
  rewrite engine_parse_ok; reflexivity.

(** One step of a test body: an [.await.unwrap()] that returns. *)
Ltac engine_step :=
  lazymatch goal with
  | |- tio_bind (unwrap_io _) _ _ = _ => erewrite tio_step_io; [|engine_call]
  | |- tio_bind (unwrap_fuel _) _ _ = _ => erewrite tio_step_fuel; [|engine_wait]
  end.

(** Replace a closed term by its value, the equation checked by the VM. *)
Ltac vm_replace t v :=
  let H := fresh "Hvm" in
  assert (H : t = v) by (vm_compute; reflexivity); rewrite H; clear H.

Lemma answer_eta (t : Z * json * Engine) : t = (t.1.1, t.1.2, t.2).
Proof. by destruct t as [[? ?] ?]. Qed.

(** The engine's answer when the request and the state are known: the
    status and the body computed, the next state left as the
    projection of the answer (its normal form is large). *)
Ltac eval_handle :=
  match goal with
  | |- context [engine_handle ?m ?r ?q ?b ?e] =>
      let t := constr:(engine_handle m r q b e) in
      rewrite (answer_eta t);
      let s := eval vm_compute in t.1.1 in vm_replace t.1.1 s;
      let j := eval vm_compute in t.1.2 in vm_replace t.1.2 j
  end; cbv beta iota zeta.

Ltac eval_from_json :=
  repeat match goal with
  | |- context [@from_json ?A ?F ?j] =>
      let v := eval vm_compute in (@from_json A F j) in
      lazymatch v with
      | Ok _ => vm_replace (@from_json A F j) v
      | Err _ => vm_replace (@from_json A F j) v
      end
  end.

(** [engine_call] and [engine_wait] for a known engine state. *)
Ltac engine_call_closed :=
  engine_exchange_tac; engine_route; eval_handle;
  first [ rewrite engine_parse_ok | rewrite engine_parse_err by discriminate ];
  eval_from_json; reflexivity.

Ltac engine_wait_closed :=
  unfold wait_for_task, wait_for_completion; rewrite wait_loop_S; unfold get_task;
  rewrite engine_exchange_nobody by reflexivity; engine_route; eval_handle;
  rewrite engine_parse_ok; eval_from_json; reflexivity.
