(* ===== verification/SettingsTests.v ===== *)
(** * The tests of [settings.rs] against the reference engine

    The [#[cfg(test)]] module of [settings.rs] holds seven tests, each the
    body of an [async fn] run by [#[meilisearch_test]] with a client on
    the local engine and a fresh index.  A body calls the settings
    facades, waits for the tasks they enqueue ([wait_for_task], through
    the client or the index), reads a setting back and compares it with
    [assert_eq!]; any [unwrap] on an [Err] panics.  The bodies are written
    here in the test monad [tio] of [Prelude.v], over any network; the
    theorem at the end shows that each passes against the engine of
    [Engine.v], for every lawful JSON text layer and both build
    targets. *)

From stdpp Require Import base list strings gmap pretty.
From Stdlib Require Import ZArith.
From S2P Require Import Prelude Serde Errors Method Request Transports Client Tasks Settings Engine.

Open Scope string_scope.

(** [#[derive(PartialEq)]] of the two settings records the tests compare. *)
#[export] Instance PaginationSetting_eq_dec : EqDecision PaginationSetting.
Proof. solve_decision. Defined.
#[export] Instance FacetingSettings_eq_dec : EqDecision FacetingSettings.
Proof. solve_decision. Defined.

(** ** The test bodies *)

Section Tests.
  Context {W : Type} `{CK : Clock W} `{DE : Deserialize MeilisearchError} `{JC : JsonCodec}.
  Variable network : WireRequest -> io W Error RawResponse.
  Variable VERSION : option string.
  Variable arch : TargetArch.
  (** The fuel of each poller call. *)
  Variable fuel : nat.

  (** [Index::wait_for_task]: the client's [wait_for_task] with the
      index's client. *)
Definition index_wait_for_task (idx : Index) (ti : TaskInfo)
      (interval timeout : option nat) (w : W) : option (result Task Error * W) :=
    wait_for_task network VERSION arch (index_client idx) fuel ti interval timeout w.

Definition test_set_faceting_settings (client : Client) (index : Index) : tio W unit :=
    let faceting := {| max_values_per_facet := 5 |} in
    let settings := with_faceting settings_new faceting in
    let! task_info := unwrap_io (set_settings network VERSION arch index settings) in
    let! _ := unwrap_fuel (wait_for_task network VERSION arch client fuel task_info None None) in
    let! res := unwrap_io (get_faceting network VERSION arch index) in
    assert_eq faceting res.

Definition test_get_faceting (index : Index) : tio W unit :=
    let faceting := {| max_values_per_facet := 100 |} in
    let! res := unwrap_io (get_faceting network VERSION arch index) in
    assert_eq faceting res.

Definition test_set_faceting (client : Client) (index : Index) : tio W unit :=
    let faceting := {| max_values_per_facet := 5 |} in
    let! task_info := unwrap_io (set_faceting network VERSION arch index faceting) in
    let! _ := unwrap_fuel (wait_for_task network VERSION arch client fuel task_info None None) in
    let! res := unwrap_io (get_faceting network VERSION arch index) in
    assert_eq faceting res.

Definition test_reset_faceting (client : Client) (index : Index) : tio W unit :=
    let! task_info := unwrap_io (reset_faceting network VERSION arch index) in
    let! _ := unwrap_fuel (wait_for_task network VERSION arch client fuel task_info None None) in
    let faceting := {| max_values_per_facet := 100 |} in
    let! res := unwrap_io (get_faceting network VERSION arch index) in
    assert_eq faceting res.

Definition test_get_pagination (index : Index) : tio W unit :=
    let pagination := {| max_total_hits := 1000 |} in
    let! res := unwrap_io (get_pagination network VERSION arch index) in
    assert_eq pagination res.

Definition test_set_pagination (index : Index) : tio W unit :=
    let pagination := {| max_total_hits := 11 |} in
    let! task := unwrap_io (set_pagination network VERSION arch index pagination) in
    let! _ := unwrap_fuel (index_wait_for_task index task None None) in
    let! res := unwrap_io (get_pagination network VERSION arch index) in
    assert_eq pagination res.

Definition test_reset_pagination (index : Index) : tio W unit :=
    let pagination := {| max_total_hits := 10 |} in
    let default := {| max_total_hits := 1000 |} in
    let! task := unwrap_io (set_pagination network VERSION arch index pagination) in
    let! _ := unwrap_fuel (index_wait_for_task index task None None) in
    let! reset_task := unwrap_io (reset_pagination network VERSION arch index) in
    let! _ := unwrap_fuel (index_wait_for_task index reset_task None None) in
    let! res := unwrap_io (get_pagination network VERSION arch index) in
    assert_eq default res.
End Tests.

(** ** The tests pass *)

Ltac run_test :=
  eexists; cbv zeta;
  unfold get_faceting, set_faceting, reset_faceting, get_pagination, set_pagination,
    reset_pagination, set_settings, index_wait_for_task;
  repeat engine_step; apply assert_eq_refl.


(** C20: the tests of [settings.rs] pass.  Against the reference engine
    of [Engine.v] on the client's host, started with a fresh index
    [client.index(name)] (a plain path segment, as the engine's index
    uids are), each of the seven test bodies returns without panicking,
    for every JSON text layer that reads back what it writes, both build
    targets, and any poller fuel of at least one fetch: every [unwrap]
    meets an [Ok] (each [set_*] is sent with the verb the API takes for
    its route, [PATCH] for faceting and pagination; the engine answers
    405 to another), each [wait_for_task] finds its task processed at the
    first fetch, and each [assert_eq!] compares equal values (the written
    value after a [set_*], the API's documented default after a
    [reset_*] or on a fresh index). *)
Theorem settings_tests_pass `{JC : JsonCodec} `{LAWS : !JsonCodecLaws}
    `{DE : Deserialize MeilisearchError} VERSION arch (client : Client) (name : string) (fuel : nat) :
  plain_segment name = true ->
  let index := client_index client name in
  let net := engine_service (host client) in
  test_passes (test_set_faceting_settings net VERSION arch (S fuel) client index) (fresh_engine name)
  /\ test_passes (test_get_faceting net VERSION arch index) (fresh_engine name)
  /\ test_passes (test_set_faceting net VERSION arch (S fuel) client index) (fresh_engine name)
  /\ test_passes (test_reset_faceting net VERSION arch (S fuel) client index) (fresh_engine name)
  /\ test_passes (test_get_pagination net VERSION arch index) (fresh_engine name)
  /\ test_passes (test_set_pagination net VERSION arch (S fuel) index) (fresh_engine name)
  /\ test_passes (test_reset_pagination net VERSION arch (S fuel) index) (fresh_engine name).
Proof.
  intros Hn.
  unfold test_set_faceting_settings, test_get_faceting, test_set_faceting, test_reset_faceting,
    test_get_pagination, test_set_pagination, test_reset_pagination.
  split_and!; run_test.
Qed.

(** ** Witness *)

Definition test_client : Client := {| host := "http://localhost:7700"; api_key := Some "masterKey" |}.

Lemma settings_tests_pass_witness :
  @JsonCodecLaws tree_codec
  /\ plain_segment "test_reset_pagination" = true
  /\ test_passes (test_reset_pagination (JC:=tree_codec) (DE:=fixture_error_decoder)
                    (engine_service (JC:=tree_codec) "http://localhost:7700") None NotWasm32 1
                    (client_index test_client "test_reset_pagination"))
       (fresh_engine "test_reset_pagination").
Proof.
  split; [exact tree_codec_laws|]. split; [reflexivity|].
  exact (proj2 (proj2 (proj2 (proj2 (proj2 (proj2 (settings_tests_pass (JC:=tree_codec)
           (LAWS:=tree_codec_laws) (DE:=fixture_error_decoder) None NotWasm32 test_client
           "test_reset_pagination" 0 eq_refl))))))).
Defined.
