(* ===== verification/DocumentsTests.v ===== *)
(** * The tests of [documents.rs] against the reference engine

    The [#[cfg(test)]] module of [documents.rs] holds five tests, each an
    [async fn] returning [Result<(), Error>] run by [#[meilisearch_test]]
    with a client on the local engine (and, for four of them, a fresh
    index).  They fill the index with four [MyObject] documents
    ([setup_test_index]), read pages of documents through
    [DocumentsQuery], delete by filter through [DocumentDeletionQuery],
    check the settings the [IndexConfig] derive generates for two
    structs, and create and delete an index with the derived
    [generate_index].  Here the bodies are written in the test monad of
    [Prelude.v] ([?] hands an [Err] back as the test's result, [unwrap]
    and [assert_eq!] panic), over any network; the theorem at the end
    shows that each returns [Ok(())] against the engine of [Engine.v]. *)

From stdpp Require Import base list strings gmap pretty.
From Stdlib Require Import ZArith.
From S2P Require Import Prelude Serde Errors Method Request Transports Client Tasks Settings IndexConfig Documents Engine.

Open Scope string_scope.

(** ** The index methods the tests call ([indexes.rs], from the spec) *)

Section IndexCalls.
  Context {W : Type} `{DE : Deserialize MeilisearchError} `{JC : JsonCodec}.
  Variable network : WireRequest -> io W Error RawResponse.
  Variable VERSION : option string.
  Variable arch : TargetArch.

  (** [Index::add_or_replace(documents, primary_key)]: [POST] of the
      documents to [{host}/indexes/{uid}/documents], with
      [?primaryKey=<pk>] when one is given, [202]. *)
Definition add_or_replace {T} `{ToJson T} (idx : Index) (documents : list T)
      (primary_key : option string) : io W Error TaskInfo :=
    let url := match primary_key with
               | Some pk => documents_url idx ("?primaryKey=" +:+ pk)
               | None => documents_url idx ""
               end in
    meili_request network VERSION arch url (get_api_key (index_client idx))
      (Post tt (JArray (map to_json documents))) 202.

  (** [Index::add_documents]: [self.add_or_replace(documents, primary_key)]. *)
Definition add_documents {T} `{ToJson T} (idx : Index) (documents : list T)
      (primary_key : option string) : io W Error TaskInfo :=
    add_or_replace idx documents primary_key.

  (** [Index::get_document(document_id)]: [GET {host}/indexes/{uid}/documents/{id}], [200]. *)
Definition get_document {T} `{FromJson T} (idx : Index) (document_id : string) : io W Error T :=
    meili_request network VERSION arch (B0:=unit) (documents_url idx ("/" +:+ document_id))
      (get_api_key (index_client idx)) (Get tt) 200.

  (** [Index::delete]: [DELETE {host}/indexes/{uid}], [202]. *)
Definition delete_index (idx : Index) : io W Error TaskInfo :=
    meili_request network VERSION arch (B0:=unit) (host (index_client idx) +:+ "/indexes/" +:+ uid idx)
      (get_api_key (index_client idx)) (Delete tt) 202.
End IndexCalls.

(** ** The test data *)

(** [#[derive(Debug, Serialize, Deserialize, PartialEq)] struct MyObject
    { id: Option<usize>, kind: String }]: a missing [id] reads as [None]. *)
Record MyObject := { my_id : option nat; my_kind : string }.

#[export] Instance MyObject_eq_dec : EqDecision MyObject.
Proof. solve_decision. Defined.

#[export] Instance my_object_to_json : ToJson MyObject :=
  fun o => JObject [("id", to_json (my_id o)); ("kind", JString (my_kind o))].

#[export] Instance my_object_from_json : FromJson MyObject :=
  fun j => match j with
           | JObject kvs =>
               let? id := opt_field kvs "id" in
               let? kind := req_field kvs "kind" in
               Ok {| my_id := id; my_kind := kind |}
           | _ => Err (json_error "invalid type: expected struct MyObject")
           end.

Definition my_objects : list MyObject :=
  [{| my_id := Some 0; my_kind := "text" |}; {| my_id := Some 1; my_kind := "text" |};
   {| my_id := Some 2; my_kind := "title" |}; {| my_id := Some 3; my_kind := "title" |}].

(** [ErrorCode::DocumentNotFound], by its serde name. *)
Definition DOCUMENT_NOT_FOUND : string := "document_not_found".

(** ** The test bodies *)

Section Tests.
  Context {W : Type} `{CK : Clock W} `{DE : Deserialize MeilisearchError} `{JC : JsonCodec}
    `{YE : YaupEncoder}.
  Variable network : WireRequest -> io W Error RawResponse.
  Variable VERSION : option string.
  Variable arch : TargetArch.
  (** The fuel of each poller call. *)
  Variable fuel : nat.
  (** The two impls [#[derive(IndexConfig)]] emits for [MovieClips] and
      [VideoClips]. *)
  Variables movie_clips video_clips : IndexConfigImpl.

Definition setup_test_index (client : Client) (index : Index) : tio W (result unit Error) :=
    let?! t0 := lift_io (add_documents network VERSION arch index my_objects None) in
    let?! _ := lift_fuel (wait_for_task network VERSION arch client fuel t0 None None) in
    tio_ret (Ok tt).

Definition test_get_documents_with_execute (client : Client) (index : Index)
    : tio W (result unit Error) :=
    let?! _ := setup_test_index client index in
    let! documents := unwrap_io (documents_query_execute network VERSION arch (T:=MyObject)
        (documents_query_with_fields
           (documents_query_with_offset (documents_query_with_limit (documents_query_new index) 1) 1)
           ["kind"])) in
    assert_eq (dr_limit documents) 1%Z;;!
    assert_eq (dr_offset documents) 1%Z;;!
    assert_eq (length (results documents)) 1;;!
    tio_ret (Ok tt).

Definition test_delete_documents_with (client : Client) (index : Index) : tio W (result unit Error) :=
    let?! _ := setup_test_index client index in
    let! t := unwrap_io (set_filterable_attributes network VERSION arch index ["id"]) in
    let! _ := unwrap_fuel (wait_for_task network VERSION arch client fuel t None None) in
    let query := document_deletion_query_with_filter (document_deletion_query_new index) "id = 1" in
    let! t := unwrap_io (delete_documents_with network VERSION arch index query) in
    let! _ := unwrap_fuel (wait_for_task network VERSION arch client fuel t None None) in
    let! document_result := lift_io (get_document network VERSION arch (T:=MyObject) index "1") in
    match document_result with
    | Ok _ => panic "The test was expecting no documents to be returned but got one."
    | Err (Meilisearch err) => assert_eq (error_code err) DOCUMENT_NOT_FOUND;;! tio_ret (Ok tt)
    | Err _ => panic "The error was expected to be a Meilisearch error, but it was not."
    end.

Definition test_get_documents_with_only_one_param (client : Client) (index : Index)
    : tio W (result unit Error) :=
    let?! _ := setup_test_index client index in
    let! documents := unwrap_io (documents_query_execute network VERSION arch (T:=MyObject)
        (documents_query_with_limit (documents_query_new index) 1)) in
    assert_eq (dr_limit documents) 1%Z;;!
    assert_eq (dr_offset documents) 0%Z;;!
    assert_eq (length (results documents)) 1;;!
    tio_ret (Ok tt).

Definition test_settings_generated_by_macro (client : Client) (index : Index)
    : tio W (result unit Error) :=
    let?! _ := setup_test_index client index in
    let movie_settings := generate_settings movie_clips in
    let video_settings := generate_settings video_clips in
    let! l := unwrap_option (searchable_attributes movie_settings) in assert_eq l ["title"];;!
    let! l := unwrap_option (searchable_attributes video_settings) in assert_true (bool_decide (l = []));;!
    let! l := unwrap_option (displayed_attributes movie_settings) in
    assert_eq l ["title"; "description"; "release_date"; "genres"];;!
    let! l := unwrap_option (displayed_attributes video_settings) in assert_true (bool_decide (l = []));;!
    let! l := unwrap_option (filterable_attributes movie_settings) in
    assert_eq l ["release_date"; "genres"];;!
    let! l := unwrap_option (filterable_attributes video_settings) in assert_true (bool_decide (l = []));;!
    let! l := unwrap_option (sortable_attributes movie_settings) in assert_eq l ["release_date"];;!
    let! l := unwrap_option (sortable_attributes video_settings) in assert_true (bool_decide (l = []));;!
    tio_ret (Ok tt).

Definition test_generate_index (client : Client) : tio W (result unit Error) :=
    let! r := generate_index network VERSION arch movie_clips client fuel in
    let! index := unwrap r in
    assert_eq (uid index) "movie_clips";;!
    let?! t := lift_io (delete_index network VERSION arch index) in
    let?! _ := lift_fuel (wait_for_task network VERSION arch client fuel t None None) in
    tio_ret (Ok tt).
End Tests.

(** ** The tests pass *)

Definition video_clips_impl : IndexConfigImpl :=
  {| INDEX_STR := "video_clips";
     settings_calls := [SetDisplayedAttributes []; SetSortableAttributes [];
                        SetFilterableAttributes []; SetSearchableAttributes []];
     primary_key_token := None |}.

Lemma generate_index_step {W} `{Clock W} `{Deserialize MeilisearchError} `{JsonCodec}
    network VERSION arch impl c fuel (w : W) ti w1 t w2 :
  create_index network VERSION arch c (INDEX_STR impl) (primary_key_token impl) w = (Ok ti, w1) ->
  wait_for_task network VERSION arch c fuel ti None None w1 = Some (Ok t, w2) ->
  generate_index network VERSION arch impl c fuel w = Some (Returned (try_make_index c t), w2).
Proof. intros Hc Hw. unfold generate_index. by rewrite Hc, Hw. Qed.

(** One step of a test body returning [Result]. *)
Ltac unfold_calls :=
  try unfold documents_query_execute, get_documents_with, document_deletion_query_execute,
    delete_documents_with, get_document, add_documents, add_or_replace, delete_index, set_filterable_attributes.

Ltac doc_step :=
  unfold_calls; cbv beta iota zeta;
  lazymatch goal with
  | |- tio_bind (unwrap_io _) _ _ = _ => erewrite tio_step_io; [|engine_call_closed]
  | |- tio_bind (unwrap_fuel _) _ _ = _ => erewrite tio_step_fuel; [|engine_wait_closed]
  | |- tio_try (lift_io _) _ _ = _ => erewrite tio_try_io; [|engine_call_closed]
  | |- tio_try (lift_fuel _) _ _ = _ => erewrite tio_try_fuel; [|engine_wait_closed]
  | |- tio_bind (lift_io _) _ _ = _ => erewrite tio_step_lift_io; [|engine_call_closed]
  | |- tio_try (setup_test_index _ _ _ _ _ _) _ _ = _ =>
      erewrite tio_try_ok; [|unfold setup_test_index; repeat doc_step; reflexivity]
  | |- tio_bind (generate_index _ _ _ _ _ _) _ _ = _ =>
      erewrite tio_bind_returned;
        [|eapply generate_index_step; [unfold create_index; engine_call_closed | engine_wait_closed]]
  | |- tio_bind _ _ _ = _ => erewrite tio_bind_returned; [|reflexivity]
  end.

Ltac run_doc_test := eexists; repeat doc_step; reflexivity.


(** C21: the tests of [documents.rs] pass.  Against the reference engine
    of [Engine.v] on the client's host, each of the five test bodies
    returns [Ok(())] without panicking, for every JSON text layer that
    reads back what it writes, both build targets, poller fuel of at
    least one fetch, serde's [MeilisearchError] and a yaup that writes
    flat objects as [k=v&...]: the four tests with an index start from a
    fresh index named after the test (as [#[meilisearch_test]] names
    it), [test_generate_index] from an engine without indexes; [mc] and
    [vc] are the impls the derive emits for [MovieClips] and
    [VideoClips] with snake-case index names.  The page read with
    [limit = 1] and [offset = 1] reports that limit and offset and holds
    one document; [set_filterable_attributes] is sent with the API's
    verb ([PUT]; the engine answers 405 to another), and deleting by the
    filter [id = 1] after it removes that document, which then reads as
    [document_not_found]; the derived [generate_index] creates
    [movie_clips]. *)
Theorem documents_tests_pass `{JC : JsonCodec} `{LAWS : !JsonCodecLaws} VERSION arch
    (client : Client) (fuel : nat) (mc vc : IndexConfigImpl) :
  get_index_config_implementation snake_case "MovieClips" movie_clips_fields = Ok mc ->
  get_index_config_implementation snake_case "VideoClips" video_clips_fields = Ok vc ->
  let net := engine_service (host client) in
  test_passes_ok (test_get_documents_with_execute (DE:=deserialize_of_json) (YE:=demo_yaup)
      net VERSION arch (S fuel) client (client_index client "test_get_documents_with_execute"))
    (fresh_engine "test_get_documents_with_execute")
  /\ test_passes_ok (test_delete_documents_with (DE:=deserialize_of_json)
      net VERSION arch (S fuel) client (client_index client "test_delete_documents_with"))
    (fresh_engine "test_delete_documents_with")
  /\ test_passes_ok (test_get_documents_with_only_one_param (DE:=deserialize_of_json) (YE:=demo_yaup)
      net VERSION arch (S fuel) client (client_index client "test_get_documents_with_only_one_param"))
    (fresh_engine "test_get_documents_with_only_one_param")
  /\ test_passes_ok (test_settings_generated_by_macro (DE:=deserialize_of_json)
      net VERSION arch (S fuel) mc vc client (client_index client "test_settings_generated_by_macro"))
    (fresh_engine "test_settings_generated_by_macro")
  /\ test_passes_ok (test_generate_index (DE:=deserialize_of_json) net VERSION arch (S fuel) mc client)
    empty_engine.
Proof.
  intros Hm Hv.
  assert (Hm' : get_index_config_implementation snake_case "MovieClips" movie_clips_fields
                = Ok movie_clips_impl) by reflexivity.
  assert (Hv' : get_index_config_implementation snake_case "VideoClips" video_clips_fields
                = Ok video_clips_impl) by reflexivity.
  rewrite Hm' in Hm. rewrite Hv' in Hv. injection Hm as <-. injection Hv as <-.
  unfold test_get_documents_with_execute, test_delete_documents_with,
    test_get_documents_with_only_one_param, test_settings_generated_by_macro, test_generate_index.
  split_and!; run_doc_test.
Qed.

(** ** Witness *)

Definition docs_client : Client := {| host := "http://localhost:7700"; api_key := Some "masterKey" |}.

Lemma documents_tests_pass_witness :
  @JsonCodecLaws tree_codec
  /\ get_index_config_implementation snake_case "MovieClips" movie_clips_fields = Ok movie_clips_impl
  /\ get_index_config_implementation snake_case "VideoClips" video_clips_fields = Ok video_clips_impl
  /\ test_passes_ok (test_delete_documents_with (JC:=tree_codec) (DE:=@deserialize_of_json tree_codec _ _)
        (engine_service (JC:=tree_codec) "http://localhost:7700") None NotWasm32 1 docs_client
        (client_index docs_client "test_delete_documents_with"))
      (fresh_engine "test_delete_documents_with").
Proof.
  split; [exact tree_codec_laws|]. split; [reflexivity|]. split; [reflexivity|].
  exact (proj1 (proj2 (documents_tests_pass (JC:=tree_codec) (LAWS:=tree_codec_laws) None NotWasm32
           docs_client 0 movie_clips_impl video_clips_impl eq_refl eq_refl))).
Defined.
