(* ===== verification/DocExamples.v ===== *)
(** * The documentation examples of [settings.rs] and [documents.rs]

    Every settings facade of [settings.rs] carries a runnable example
    (a doc-test): with a client on [MEILISEARCH_URL] and the key
    [MEILISEARCH_API_KEY], its hidden lines create an index named after
    the method and wait for it, the visible lines call the facade on
    [client.index(name)] and [unwrap] the answer, and hidden lines
    delete the index and wait for that.  [settings_doc_example] is that
    skeleton and each [example_*] its visible body.  [documents.rs]
    has two more: [DocumentQuery::execute] reads back one document,
    projected to [["id"]], of two it adds to an index that does not
    exist yet (adding documents creates it), and [DocumentsQuery::execute]
    reads a page at offset 1 of a fresh index; the sample of
    [#[derive(IndexConfig)]] at the top of the file creates its index
    with [generate_index].  The theorem at the end shows that all of them
    run to completion against the engine of [Engine.v] started without
    indexes. *)

From stdpp Require Import base list strings gmap pretty.
From Stdlib Require Import ZArith.
From S2P Require Import Prelude Serde Errors Method Request Transports Client Tasks Settings IndexConfig Documents Engine DocumentsTests.

Open Scope string_scope.

(** ** The examples of [settings.rs] *)

Section SettingsExamples.
  Context {W : Type} `{CK : Clock W} `{DE : Deserialize MeilisearchError} `{JC : JsonCodec}.
  Variable network : WireRequest -> io W Error RawResponse.
  Variable VERSION : option string.
  Variable arch : TargetArch.
  (** The fuel of each [wait_for_completion]. *)
  Variable fuel : nat.
  (** [option_env!("MEILISEARCH_URL").unwrap_or("http://localhost:7700")]
      and the key, fixed when the doc-test is compiled. *)
  Variables MEILISEARCH_URL MEILISEARCH_API_KEY : string.

  (** The lines every example shares: the client, the index created and
      waited for, the body on [client.index(name)], the index deleted and
      that waited for; every [.await.unwrap()] panics on an [Err]. *)
Definition settings_doc_example (name : string) (body : Index -> tio W unit) : tio W unit :=
    let client := client_new MEILISEARCH_URL (Some MEILISEARCH_API_KEY) in
    let! t := unwrap_io (create_index network VERSION arch client name None) in
    let! _ := unwrap_fuel (wait_for_task network VERSION arch client fuel t None None) in
    let index := client_index client name in
    body index;;!
    let! t := unwrap_io (delete_index network VERSION arch index) in
    let! _ := unwrap_fuel (wait_for_task network VERSION arch client fuel t None None) in
    tio_ret tt.

Definition example_get_settings : tio W unit :=
    settings_doc_example "get_settings" (fun index =>
      let! settings := unwrap_io (get_settings network VERSION arch index) in tio_ret tt).

Definition example_get_synonyms : tio W unit :=
    settings_doc_example "get_synonyms" (fun index =>
      let! synonyms := unwrap_io (get_synonyms network VERSION arch index) in tio_ret tt).

Definition example_get_pagination : tio W unit :=
    settings_doc_example "get_pagination" (fun index =>
      let! pagination := unwrap_io (get_pagination network VERSION arch index) in tio_ret tt).

Definition example_get_stop_words : tio W unit :=
    settings_doc_example "get_stop_words" (fun index =>
      let! stop_words := unwrap_io (get_stop_words network VERSION arch index) in tio_ret tt).

Definition example_get_ranking_rules : tio W unit :=
    settings_doc_example "get_ranking_rules" (fun index =>
      let! ranking_rules := unwrap_io (get_ranking_rules network VERSION arch index) in tio_ret tt).

Definition example_get_filterable_attributes : tio W unit :=
    settings_doc_example "get_filterable_attributes" (fun index =>
      let! filterable_attributes := unwrap_io (get_filterable_attributes network VERSION arch index) in tio_ret tt).

Definition example_get_sortable_attributes : tio W unit :=
    settings_doc_example "get_sortable_attributes" (fun index =>
      let! sortable_attributes := unwrap_io (get_sortable_attributes network VERSION arch index) in tio_ret tt).

Definition example_get_distinct_attribute : tio W unit :=
    settings_doc_example "get_distinct_attribute" (fun index =>
      let! distinct_attribute := unwrap_io (get_distinct_attribute network VERSION arch index) in tio_ret tt).

Definition example_get_searchable_attributes : tio W unit :=
    settings_doc_example "get_searchable_attributes" (fun index =>
      let! searchable_attributes := unwrap_io (get_searchable_attributes network VERSION arch index) in tio_ret tt).

Definition example_get_displayed_attributes : tio W unit :=
    settings_doc_example "get_displayed_attributes" (fun index =>
      let! displayed_attributes := unwrap_io (get_displayed_attributes network VERSION arch index) in tio_ret tt).

Definition example_get_faceting : tio W unit :=
    settings_doc_example "get_faceting" (fun index =>
      let! faceting := unwrap_io (get_faceting network VERSION arch index) in tio_ret tt).

Definition example_set_settings : tio W unit :=
    settings_doc_example "set_settings" (fun index =>
      let stop_words := ["a"; "the"; "of"] in
      let settings := with_pagination (with_stop_words settings_new stop_words)
                        {| max_total_hits := 100 |} in
      let! task := unwrap_io (set_settings network VERSION arch index settings) in tio_ret tt).

Definition example_set_synonyms : tio W unit :=
    settings_doc_example "set_synonyms" (fun index =>
      let synonyms : gmap string (list string) :=
        <["wow" := ["world of warcraft"]]>
          (<["logan" := ["xmen"; "wolverine"]]> (<["wolverine" := ["xmen"; "logan"]]> ∅)) in
      let! task := unwrap_io (set_synonyms network VERSION arch index synonyms) in tio_ret tt).

Definition example_set_pagination : tio W unit :=
    settings_doc_example "set_pagination" (fun index =>
      let pagination := {| max_total_hits := 100 |} in
      let! task := unwrap_io (set_pagination network VERSION arch index pagination) in tio_ret tt).

Definition example_set_stop_words : tio W unit :=
    settings_doc_example "set_stop_words" (fun index =>
      let stop_words := ["the"; "of"; "to"] in
      let! task := unwrap_io (set_stop_words network VERSION arch index stop_words) in tio_ret tt).

Definition example_set_ranking_rules : tio W unit :=
    settings_doc_example "set_ranking_rules" (fun index =>
      let ranking_rules := ["words"; "typo"; "proximity"; "attribute"; "sort"; "exactness";
                           "release_date:asc"; "rank:desc"] in
      let! task := unwrap_io (set_ranking_rules network VERSION arch index ranking_rules) in tio_ret tt).

Definition example_set_filterable_attributes : tio W unit :=
    settings_doc_example "set_filterable_attributes" (fun index =>
      let filterable_attributes := ["genre"; "director"] in
      let! task := unwrap_io (set_filterable_attributes network VERSION arch index filterable_attributes) in
      tio_ret tt).

Definition example_set_sortable_attributes : tio W unit :=
    settings_doc_example "set_sortable_attributes" (fun index =>
      let sortable_attributes := ["genre"; "director"] in
      let! task := unwrap_io (set_sortable_attributes network VERSION arch index sortable_attributes) in
      tio_ret tt).

Definition example_set_distinct_attribute : tio W unit :=
    settings_doc_example "set_distinct_attribute" (fun index =>
      let! task := unwrap_io (set_distinct_attribute network VERSION arch index "movie_id") in tio_ret tt).

Definition example_set_searchable_attributes : tio W unit :=
    settings_doc_example "set_searchable_attributes" (fun index =>
      let! task := unwrap_io (set_searchable_attributes network VERSION arch index
                               ["title"; "description"; "uid"]) in tio_ret tt).

Definition example_set_displayed_attributes : tio W unit :=
    settings_doc_example "set_displayed_attributes" (fun index =>
      let! task := unwrap_io (set_displayed_attributes network VERSION arch index
                               ["title"; "description"; "release_date"; "rank"; "poster"]) in tio_ret tt).

Definition example_set_faceting : tio W unit :=
    settings_doc_example "set_faceting" (fun index =>
      let faceting := {| max_values_per_facet := 12 |} in
      let! task := unwrap_io (set_faceting network VERSION arch index faceting) in tio_ret tt).

Definition example_reset_settings : tio W unit :=
    settings_doc_example "reset_settings" (fun index =>
      let! task := unwrap_io (reset_settings network VERSION arch index) in tio_ret tt).

Definition example_reset_synonyms : tio W unit :=
    settings_doc_example "reset_synonyms" (fun index =>
      let! task := unwrap_io (reset_synonyms network VERSION arch index) in tio_ret tt).

Definition example_reset_pagination : tio W unit :=
    settings_doc_example "reset_pagination" (fun index =>
      let! task := unwrap_io (reset_pagination network VERSION arch index) in tio_ret tt).

Definition example_reset_stop_words : tio W unit :=
    settings_doc_example "reset_stop_words" (fun index =>
      let! task := unwrap_io (reset_stop_words network VERSION arch index) in tio_ret tt).

Definition example_reset_ranking_rules : tio W unit :=
    settings_doc_example "reset_ranking_rules" (fun index =>
      let! task := unwrap_io (reset_ranking_rules network VERSION arch index) in tio_ret tt).

Definition example_reset_filterable_attributes : tio W unit :=
    settings_doc_example "reset_filterable_attributes" (fun index =>
      let! task := unwrap_io (reset_filterable_attributes network VERSION arch index) in tio_ret tt).

Definition example_reset_sortable_attributes : tio W unit :=
    settings_doc_example "reset_sortable_attributes" (fun index =>
      let! task := unwrap_io (reset_sortable_attributes network VERSION arch index) in tio_ret tt).

Definition example_reset_distinct_attribute : tio W unit :=
    settings_doc_example "reset_distinct_attribute" (fun index =>
      let! task := unwrap_io (reset_distinct_attribute network VERSION arch index) in tio_ret tt).

Definition example_reset_searchable_attributes : tio W unit :=
    settings_doc_example "reset_searchable_attributes" (fun index =>
      let! task := unwrap_io (reset_searchable_attributes network VERSION arch index) in tio_ret tt).

Definition example_reset_displayed_attributes : tio W unit :=
    settings_doc_example "reset_displayed_attributes" (fun index =>
      let! task := unwrap_io (reset_displayed_attributes network VERSION arch index) in tio_ret tt).

Definition example_reset_faceting : tio W unit :=
    settings_doc_example "reset_faceting" (fun index =>
      let! task := unwrap_io (reset_faceting network VERSION arch index) in tio_ret tt).

  (** The 33 examples, in the order of the file. *)
Definition settings_doc_examples : list (tio W unit) :=
    [example_get_settings; example_get_synonyms; example_get_pagination;
     example_get_stop_words; example_get_ranking_rules; example_get_filterable_attributes;
     example_get_sortable_attributes; example_get_distinct_attribute; example_get_searchable_attributes;
     example_get_displayed_attributes; example_get_faceting; example_set_settings;
     example_set_synonyms; example_set_pagination; example_set_stop_words;
     example_set_ranking_rules; example_set_filterable_attributes; example_set_sortable_attributes;
     example_set_distinct_attribute; example_set_searchable_attributes; example_set_displayed_attributes;
     example_set_faceting; example_reset_settings; example_reset_synonyms;
     example_reset_pagination; example_reset_stop_words; example_reset_ranking_rules;
     example_reset_filterable_attributes; example_reset_sortable_attributes; example_reset_distinct_attribute;
     example_reset_searchable_attributes; example_reset_displayed_attributes; example_reset_faceting].
End SettingsExamples.

(** ** The examples of [documents.rs] *)

(** The structs the example of [DocumentQuery::execute] declares:
    [MyObject { id: String, kind: String }] and [MyObjectReduced { id:
    String }], with [Serialize], [Deserialize] (unknown fields ignored)
    and [PartialEq]. *)
Module DocumentQueryExample.
Record MyObject := { id : string; kind : string }.
Record MyObjectReduced := { reduced_id : string }.

#[global] Instance my_object_to_json : ToJson MyObject :=
  fun o => JObject [("id", JString (id o)); ("kind", JString (kind o))].

#[global] Instance my_object_reduced_from_json : FromJson MyObjectReduced :=
  fun j => match j with
           | JObject kvs => let? i := req_field kvs "id" in Ok {| reduced_id := i |}
           | _ => Err (json_error "invalid type: expected struct MyObjectReduced")
           end.

#[global] Instance MyObjectReduced_eq_dec : EqDecision MyObjectReduced.
Proof. solve_decision. Defined.
End DocumentQueryExample.

Section DocumentsExamples.
  Context {W : Type} `{CK : Clock W} `{DE : Deserialize MeilisearchError} `{JC : JsonCodec}
    `{YE : YaupEncoder}.
  Variable network : WireRequest -> io W Error RawResponse.
  Variable VERSION : option string.
  Variable arch : TargetArch.
  Variable fuel : nat.
  Variables MEILISEARCH_URL MEILISEARCH_API_KEY : string.

  (** The example of [DocumentQuery::execute]. *)
Definition example_document_query_execute : tio W unit :=
    let client := client_new MEILISEARCH_URL (Some MEILISEARCH_API_KEY) in
    let index := client_index client "document_query_execute" in
    let! t := unwrap_io (add_or_replace network VERSION arch index
                [{| DocumentQueryExample.id := "1"; DocumentQueryExample.kind := "a kind" |};
                 {| DocumentQueryExample.id := "2"; DocumentQueryExample.kind := "some kind" |}] None) in
    let! _ := unwrap_fuel (wait_for_task network VERSION arch client fuel t None None) in
    let! document := unwrap_io (document_query_execute network VERSION arch
                       (T:=DocumentQueryExample.MyObjectReduced)
                       (document_query_with_fields (document_query_new index) ["id"]) "1") in
    assert_eq document {| DocumentQueryExample.reduced_id := "1" |};;!
    let! t := unwrap_io (delete_index network VERSION arch index) in
    let! _ := unwrap_fuel (wait_for_task network VERSION arch client fuel t None None) in
    tio_ret tt.

  (** The example of [DocumentsQuery::execute]; its [MyObject] is the
      struct of the test module. *)
Definition example_documents_query_execute : tio W unit :=
    let client := client_new MEILISEARCH_URL (Some MEILISEARCH_API_KEY) in
    let! t := unwrap_io (create_index network VERSION arch client "documents_query_execute" None) in
    let! t := unwrap_fuel (wait_for_task network VERSION arch client fuel t None None) in
    let! index := unwrap (try_make_index client t) in
    let index := client_index client "documents_query_execute" in
    let! document := unwrap_io (documents_query_execute network VERSION arch (T:=MyObject)
                       (documents_query_with_offset (documents_query_new index) 1)) in
    let! t := unwrap_io (delete_index network VERSION arch index) in
    let! _ := unwrap_fuel (wait_for_task network VERSION arch client fuel t None None) in
    tio_ret tt.
End DocumentsExamples.

(** The sample of [#[derive(IndexConfig)]] at the top of [documents.rs]:
    [struct Movie] as the derive receives it, and its [async fn usage]. *)
Definition index_config_sample_fields : list Field :=
  [named_field "movie_id" ["primary_key"]; named_field "title" ["displayed"; "searchable"];
   named_field "description" ["displayed"];
   named_field "release_date" ["filterable"; "sortable"; "displayed"];
   named_field "genres" ["filterable"; "displayed"]].

(** The impl it emits: index [movie], primary key [movie_id], no
    distinct attribute. *)
Definition index_config_sample_impl : IndexConfigImpl :=
  {| INDEX_STR := "movie";
     settings_calls :=
       [SetDisplayedAttributes ["title"; "description"; "release_date"; "genres"];
        SetSortableAttributes ["release_date"];
        SetFilterableAttributes ["release_date"; "genres"];
        SetSearchableAttributes ["title"]];
     primary_key_token := Some "movie_id" |}.

Section DeriveSample.
  Context {W : Type} `{CK : Clock W} `{DE : Deserialize MeilisearchError} `{JC : JsonCodec}.
  Variable network : WireRequest -> io W Error RawResponse.
  Variable VERSION : option string.
  Variable arch : TargetArch.
  Variable fuel : nat.
  (** The impl the derive emits for [Movie]. *)
  Variable movie : IndexConfigImpl.

  (** [let settings: Settings = Movie::generate_settings();
      let index: Index = Movie::generate_index(&client).await.unwrap();] *)
Definition example_index_config_usage (client : Client) : tio W unit :=
    let settings := generate_settings movie in
    let! r := generate_index network VERSION arch movie client fuel in
    let! index := unwrap r in
    tio_ret tt.
End DeriveSample.

(** ** The examples run *)

Ltac example_step :=
  cbv beta iota zeta;
  try unfold get_settings, get_synonyms, get_pagination, get_stop_words, get_ranking_rules, get_filterable_attributes, get_sortable_attributes, get_distinct_attribute, get_searchable_attributes, get_displayed_attributes, get_faceting, set_settings, set_synonyms, set_pagination, set_stop_words, set_ranking_rules, set_filterable_attributes, set_sortable_attributes, set_distinct_attribute, set_searchable_attributes, set_displayed_attributes, set_faceting, reset_settings, reset_synonyms, reset_pagination, reset_stop_words, reset_ranking_rules, reset_filterable_attributes, reset_sortable_attributes, reset_distinct_attribute, reset_searchable_attributes, reset_displayed_attributes, reset_faceting,
    create_index, delete_index, add_or_replace, document_query_execute, get_document_with,
    documents_query_execute, get_documents_with;
  lazymatch goal with
  | |- tio_bind (tio_bind _ _) _ _ = _ => rewrite tio_bind_assoc
  | |- tio_bind (unwrap_io _) _ _ = _ => erewrite tio_step_io; [|engine_call_closed]
  | |- tio_bind (unwrap_fuel _) _ _ = _ => erewrite tio_step_fuel; [|engine_wait_closed]
  | |- tio_bind _ _ _ = _ => erewrite tio_bind_returned; [|reflexivity]
  end.

Ltac run_example :=
  cbv beta; unfold test_passes; eexists;
  try unfold example_get_settings, example_get_synonyms, example_get_pagination, example_get_stop_words, example_get_ranking_rules, example_get_filterable_attributes, example_get_sortable_attributes, example_get_distinct_attribute, example_get_searchable_attributes, example_get_displayed_attributes, example_get_faceting, example_set_settings, example_set_synonyms, example_set_pagination, example_set_stop_words, example_set_ranking_rules, example_set_filterable_attributes, example_set_sortable_attributes, example_set_distinct_attribute, example_set_searchable_attributes, example_set_displayed_attributes, example_set_faceting, example_reset_settings, example_reset_synonyms, example_reset_pagination, example_reset_stop_words, example_reset_ranking_rules, example_reset_filterable_attributes, example_reset_sortable_attributes, example_reset_distinct_attribute, example_reset_searchable_attributes, example_reset_displayed_attributes, example_reset_faceting, settings_doc_example; repeat example_step; reflexivity.

(** C19: the documentation examples run.  Against the reference engine
    of [Engine.v] on the client's host, started without indexes, each of
    the 33 examples of the settings facades of [settings.rs] and the
    examples of [DocumentQuery::execute] and [DocumentsQuery::execute]
    returns without panicking, for every JSON text layer that reads back
    what it writes, both build targets, any URL and key, any poller fuel
    of at least one fetch and a yaup that writes flat objects as
    [k=v&...]: every [unwrap] meets an [Ok] (the index is created before
    the facade is called, each [get_*] decodes the engine's defaults,
    each [set_*] and [reset_*] is accepted), the deletion at the end is
    processed, and the document read back with [fields = ["id"]] equals
    [MyObjectReduced { id: "1" }].  The [usage] of the [IndexConfig]
    derive sample runs too, and does what its comment says: given the
    impl the derive emits for its [Movie], [generate_index] returns the
    index [movie], created with the primary key [movie_id].  The engine
    refuses a settings update sent with the other verb than the API's
    (405), so each [set_*] example also checks the facade's verb. *)
Theorem doc_examples_pass `{JC : JsonCodec} `{LAWS : !JsonCodecLaws}
    `{DE : Deserialize MeilisearchError} VERSION arch (fuel : nat) (url key : string)
    (mv : IndexConfigImpl) :
  let net := engine_service (host (client_new url (Some key))) in
  Forall (fun t => test_passes t empty_engine)
    (settings_doc_examples net VERSION arch (S fuel) url key)
  /\ test_passes (example_document_query_execute (YE:=demo_yaup) net VERSION arch (S fuel) url key) empty_engine
  /\ test_passes (example_documents_query_execute (YE:=demo_yaup) net VERSION arch (S fuel) url key)
       empty_engine
  /\ (get_index_config_implementation snake_case "Movie" index_config_sample_fields = Ok mv ->
      test_passes (example_index_config_usage net VERSION arch (S fuel) mv (client_new url (Some key)))
        empty_engine
      /\ exists w', generate_index net VERSION arch mv (client_new url (Some key)) (S fuel) empty_engine
                   = Some (Returned (Ok (client_index (client_new url (Some key)) "movie")), w')
                   /\ (ix_primary_key <$> en_indexes w' !! "movie") = Some (Some "movie_id")).
Proof.
  unfold settings_doc_examples, example_document_query_execute, example_documents_query_execute.
  split_and!;
    [repeat apply Forall_cons_2; try apply Forall_nil; run_example | run_example | run_example |].
  intros Hmv.
  assert (Hs : get_index_config_implementation snake_case "Movie" index_config_sample_fields
               = Ok index_config_sample_impl) by reflexivity.
  rewrite Hs in Hmv. injection Hmv as <-.
  assert (Hg : exists w', generate_index (engine_service (host (client_new url (Some key)))) VERSION arch
                 index_config_sample_impl (client_new url (Some key)) (S fuel) empty_engine
               = Some (Returned (Ok (client_index (client_new url (Some key)) "movie")), w')
               /\ (ix_primary_key <$> en_indexes w' !! "movie") = Some (Some "movie_id")).
  { eexists. erewrite generate_index_step; cycle 1;
      [unfold create_index; engine_call_closed | engine_wait_closed
      | split; [reflexivity | vm_compute; reflexivity]]. }
  split; [|exact Hg]. destruct Hg as (w' & Hg & _).
  exists w'. unfold example_index_config_usage. cbv zeta.
  erewrite tio_bind_returned by exact Hg. reflexivity.
Qed.

(** ** Witness *)

Definition doc_client : Client := client_new "http://localhost:7700" (Some "masterKey").

Lemma doc_examples_pass_witness :
  @JsonCodecLaws tree_codec
  /\ get_index_config_implementation snake_case "Movie" index_config_sample_fields
     = Ok index_config_sample_impl
  /\ test_passes (example_index_config_usage (JC:=tree_codec) (DE:=fixture_error_decoder)
                    (engine_service (JC:=tree_codec) (host doc_client)) None NotWasm32 1
                    index_config_sample_impl doc_client)
       empty_engine.
Proof.
  split; [exact tree_codec_laws|]. split; [reflexivity|].
  exact (proj1 (proj2 (proj2 (proj2 (doc_examples_pass (JC:=tree_codec) (LAWS:=tree_codec_laws)
           (DE:=fixture_error_decoder) None NotWasm32 0 "http://localhost:7700" "masterKey"
           index_config_sample_impl))) eq_refl)).
Defined.
